(** * PR-agent MCP servers: change inspector and template resolver

    Shallow embedding of the two starter servers

      - [projects/unit3/build-mcp-server/starter/server.py]          (module [Basic])
      - [projects/unit3/github-actions-integration/starter/server.py] (module [Actions])

    Conventions of the embedding.

    - A Python [str] is a Stdlib [string]; its characters are the code points
      0..255, on which [lower] and [strip] are written out as Python computes
      them.  [len] is the number of characters, as a Python [int] (in [Z]).
    - A Python [dict] is an association list in insertion order (Python
      dictionaries iterate in insertion order); a literal is the list of its
      items as declared.
    - A tool returns [json.dumps(v)]; the embedding returns the value [v]
      itself, of type [json].  [json.loads(json.dumps(v))] is [v].
    - Exceptions are threaded with the error monad [sum exn]: [inl e] is an
      exception that leaves the tool, [inr v] a returned value.
    - Everything a tool reads from outside (subprocesses, the session roots,
      the file system, the events file) is a field of a [World] record. *)

From Stdlib Require Import ZArith List String Ascii Bool Lia Sorted Permutation.
From Stdlib Require Import DecimalString.
From ExtLib Require Import Structures.Monad Structures.MonadExc Data.Monads.EitherMonad.
Import ListNotations.
Import MonadNotation.
Local Open Scope monad_scope.
Local Open Scope string_scope.
Local Open Scope Z_scope.

(** ** Python values used by the servers *)

Module Py.

Definition len (s : string) : Z := Z.of_nat (String.length s).

Definition list_len {A} (l : list A) : Z := Z.of_nat (List.length l).

Definition NL : ascii := "010"%char.
Definition TAB : ascii := "009"%char.

(** [s.split(sep)] for a one-character separator: never the empty list. *)
Fixpoint split (sep : ascii) (s : string) : list string :=
  match s with
  | EmptyString => [EmptyString]
  | String c rest =>
      if Ascii.eqb c sep then EmptyString :: split sep rest
      else match split sep rest with
           | [] => [String c EmptyString]
           | l :: ls => String c l :: ls
           end
  end.

(** [sep.join(l)]. *)
Definition join (sep : string) (l : list string) : string := String.concat sep l.

(** [c.lower()] on the code points 0..255: A-Z, and the capital letters
    U+00C0..U+00DE other than the multiplication sign U+00D7. *)
Definition lower_char (c : ascii) : ascii :=
  let n := N_of_ascii c in
  if (((65 <=? n) && (n <=? 90))
      || ((192 <=? n) && (n <=? 222) && negb (n =? 215)))%N
  then ascii_of_N (n + 32) else c.

Fixpoint lower (s : string) : string :=
  match s with
  | EmptyString => EmptyString
  | String c rest => String (lower_char c) (lower rest)
  end.

(** [c.isspace()] on the code points 0..255. *)
Definition isspace (c : ascii) : bool :=
  let n := N_of_ascii c in
  (((9 <=? n) && (n <=? 13)) || ((28 <=? n) && (n <=? 32))
   || (n =? 133) || (n =? 160))%N.

Fixpoint lstrip (s : string) : string :=
  match s with
  | EmptyString => EmptyString
  | String c rest => if isspace c then lstrip rest else s
  end.

Fixpoint rstrip (s : string) : string :=
  match s with
  | EmptyString => EmptyString
  | String c rest =>
      match rstrip rest with
      | EmptyString => if isspace c then EmptyString else String c EmptyString
      | r => String c r
      end
  end.

(** [s.strip()]. *)
Definition strip (s : string) : string := rstrip (lstrip s).

(** [needle in hay] on strings. *)
Fixpoint contains (needle hay : string) : bool :=
  String.prefix needle hay
  || match hay with
     | EmptyString => false
     | String _ rest => contains needle rest
     end.

(** [l[:k]]: a negative [k] counts from the end. *)
Definition slice_to {A} (k : Z) (l : list A) : list A :=
  if k <? 0 then firstn (Z.to_nat (list_len l + k)) l
  else firstn (Z.to_nat k) l.

(** [str(n)] for an [int]. *)
Definition str_of_int (n : Z) : string := NilZero.string_of_int (Z.to_int n).

(** Truth value of a [str] and of a [list]. *)
Definition truthy_str (s : string) : bool :=
  match s with EmptyString => false | _ => true end.

Definition truthy_list {A} (l : list A) : bool :=
  match l with [] => false | _ => true end.

(** A [dict] with [str] keys, in insertion order. *)
Definition dict (V : Type) : Type := list (string * V).

(** [d.get(k)]. *)
Fixpoint dict_get {V} (k : string) (d : dict V) : option V :=
  match d with
  | [] => None
  | (k', v) :: rest => if String.eqb k' k then Some v else dict_get k rest
  end.

(** [d[k] = v]: an existing key keeps its place, a new one goes last. *)
Fixpoint dict_set {V} (k : string) (v : V) (d : dict V) : dict V :=
  match d with
  | [] => [(k, v)]
  | (k', v') :: rest =>
      if String.eqb k' k then (k', v) :: rest else (k', v') :: dict_set k v rest
  end.

Definition keys {V} (d : dict V) : list string := map fst d.
Definition values {V} (d : dict V) : list V := map snd d.

(** [l.sort(key=key)]: the stable sort, comparing keys with [<] only.
    A stable sort has one result, given here by insertion. *)
Section Sort.
Context {A : Type} (key : A -> string).

Fixpoint insert_by (x : A) (l : list A) : list A :=
  match l with
  | [] => [x]
  | y :: rest =>
      if String.ltb (key y) (key x) then y :: insert_by x rest
      else x :: y :: rest
  end.

Definition sort_by (l : list A) : list A := fold_right insert_by [] l.
End Sort.

End Py.

(** ** JSON values *)

#[warnings="-register-all"]
Inductive json : Type :=
| JNull
| JBool (b : bool)
| JInt (n : Z)
| JFloat (repr : string)
| JStr (s : string)
| JList (l : list json)
| JDict (d : Py.dict json).

(** The field [k] of a JSON object, if [v] is an object that has it. *)
Definition field (k : string) (v : json) : option json :=
  match v with
  | JDict d => Py.dict_get k d
  | _ => None
  end.

(** [x.get(k, '')] for a field that holds a string. *)
Definition str_field (k : string) (v : json) : string :=
  match field k v with
  | Some (JStr s) => s
  | _ => ""
  end.

(** The file name of the template a [suggest_template] result recommends:
    [recommended_template] is the file name in the basic server and the
    whole template entry in the server with GitHub Actions tools. *)
Definition recommended_file (r : json) : string :=
  match field "recommended_template" r with
  | Some (JStr f) => f
  | Some t => str_field "filename" t
  | None => ""
  end.

(** ** Exceptions *)

Inductive exn_class : Type :=
| CalledProcessError
| JSONDecodeError
| FileNotFoundError
| IndexError
| KeyError
| OtherException.

(** [exn_msg] is [str(e)]; [exn_stderr] is [e.stderr] of a
    [CalledProcessError]. *)
Record exn : Type := mkExn {
  exn_cls : exn_class;
  exn_msg : string;
  exn_stderr : string
}.

Definition res : Type -> Type := sum exn.

(** [try: body except Exception as e: handler(e)]. *)
Definition try_except {A} (body : res A) (handler : exn -> res A) : res A :=
  catch body handler.

(** ** Subprocesses *)

(** The [CompletedProcess] of [subprocess.run(..., capture_output=True,
    text=True)]. *)
Record CompletedProcess : Type := mkCompleted {
  returncode : Z;
  stdout : string;
  stderr : string
}.

(** [repr] of a list of strings, for strings of printable characters
    without quotes or backslashes. *)
Definition repr_argv (argv : list string) : string :=
  ("[" ++ Py.join ", " (map (fun a => ("'" ++ a) ++ "'") argv)) ++ "]".

(** [subprocess.run(argv, ..., check=True)]: a non-zero exit status raises
    [CalledProcessError], whose [stderr] is the captured error stream. *)
Definition checked (argv : list string) (r : res CompletedProcess)
  : res CompletedProcess :=
  p <- r ;;
  if returncode p =? 0 then ret p
  else raise (mkExn CalledProcessError
                (((("Command '" ++ repr_argv argv)
                     ++ "' returned non-zero exit status ")
                    ++ Py.str_of_int (returncode p)) ++ ".")
                (stderr p)).

(** ** Paths *)

Module Path.

(** [dir / name] for a relative [name]. *)
Definition join (dir name : string) : string := (dir ++ "/") ++ name.

(** [s.rfind(c)], [None] for -1. *)
Fixpoint rfind (c : ascii) (s : string) : option nat :=
  match s with
  | EmptyString => None
  | String a rest =>
      match rfind c rest with
      | Some i => Some (S i)
      | None => if Ascii.eqb a c then Some O else None
      end
  end.

(** [PurePath.stem] of a final path component: the name without its last
    suffix; a leading or a trailing dot starts no suffix. *)
Definition stem (name : string) : string :=
  match rfind "."%char name with
  | Some i =>
      if (Nat.ltb 0 i && Nat.ltb i (String.length name - 1))%bool
      then String.substring 0 i name else name
  | None => name
  end.

End Path.

(** ** The world the tools read *)

Record World : Type := mkWorld {
  (** the [uri.path] of each root of [context.session.list_roots()] *)
  list_roots : res (list string);
  (** [subprocess.run(argv, capture_output=True, text=True, cwd=cwd)] *)
  run : list string -> option string -> res CompletedProcess;
  (** [Path(__file__).parent.parent.parent / "templates"] *)
  TEMPLATES_DIR : string;
  (** [Path.exists()] *)
  path_exists : string -> bool;
  (** names of the entries that [Path(dir).glob(pattern)] yields, in the
      order the file system enumerates them *)
  glob : string -> string -> res (list string);
  (** [open(path, 'r').read()] and [Path.read_text()] *)
  read_text : string -> res string;
  (** [Path(__file__).parent / "github_events.json"] *)
  EVENTS_FILE : string;
  (** [json.load] of an open file: the parsed value, or [JSONDecodeError] *)
  json_load : string -> res json
}.

(** ** Module 1: the basic server *)

Module Basic.

Import Py.

Definition NLs : string := String NL EmptyString.

(** Lines 47-58: the changed files of the name-status listing. *)
Definition parse_line (line : string) : list json :=
  if truthy_str line then
    match split TAB line with
    | status :: filename :: _ =>
        [JDict [("status", JStr status); ("filename", JStr filename)]]
    | _ => []
    end
  else [].

Definition parse_files (out : string) : list json :=
  flat_map parse_line (split NL (strip out)).

(** Lines 84-88: whole lines are kept while the running count, one more
    than the length for each line, stays within the budget. *)
Fixpoint take_lines (max_diff_chars : Z) (diff_lines truncated_lines : list string)
                    (char_count : Z) : list string :=
  match diff_lines with
  | [] => truncated_lines
  | line :: rest =>
      if char_count + len line + 1 >? max_diff_chars then truncated_lines
      else take_lines max_diff_chars rest (truncated_lines ++ [line])
                      (char_count + len line + 1)
  end.

(** Lines 79-95, for a budget [max_diff_chars]. *)
Definition truncate (max_diff_chars : Z) (diff_content : string)
                    (result : dict json) : dict json :=
  if len diff_content >? max_diff_chars then
    let diff_lines := split NL diff_content in
    let truncated_lines := take_lines max_diff_chars diff_lines [] 0 in
    let result := dict_set "diff" (JStr (join NLs truncated_lines)) result in
    let result := dict_set "diff_truncated" (JBool true) result in
    dict_set "original_diff_size" (JInt (len diff_content)) result
  else
    let result := dict_set "diff" (JStr diff_content) result in
    dict_set "diff_truncated" (JBool false) result.

Definition max_diff_chars : Z := 20000.

(** Line 30: the first root of the session, or the current directory. *)
Definition working_dir (roots : list string) : string :=
  match roots with r :: _ => r | [] => "." end.

Definition analyze_file_changes (w : World) (base_branch : string)
                                (include_diff : bool) : res json :=
  try_except
    (roots <- list_roots w ;;
     let working_dir := working_dir roots in
     result_files <- run w ["git"; "diff"; "--name-status"; base_branch]
                         (Some working_dir) ;;
     if negb (returncode result_files =? 0) then
       ret (JDict [("error", JStr ("Git command failed: " ++ stderr result_files));
                   ("files_changed", JList []);
                   ("diff", JStr "")])
     else
       let files_changed := parse_files (stdout result_files) in
       let result := [("files_changed", JList files_changed);
                      ("total_files", JInt (list_len files_changed))] in
       if (include_diff && truthy_list files_changed)%bool then
         result_diff <- run w ["git"; "diff"; base_branch] (Some working_dir) ;;
         if returncode result_diff =? 0 then
           ret (JDict (truncate max_diff_chars (stdout result_diff) result))
         else
           let result := dict_set "diff" (JStr "") result in
           ret (JDict (dict_set "diff_error" (JStr (stderr result_diff)) result))
       else
         ret (JDict (dict_set "diff" (JStr "") result)))
    (fun e =>
       ret (JDict [("error", JStr ("Exception occurred: " ++ exn_msg e));
                   ("files_changed", JList []);
                   ("diff", JStr "")])).

(** Lines 126-148: one entry per template file; a file that cannot be read
    gives an entry with an [error]. *)
Definition template_entry (w : World) (name : string) : json :=
  match read_text w (Path.join (TEMPLATES_DIR w) name) with
  | inr content =>
      JDict [("filename", JStr name);
             ("name", JStr (Path.stem name));
             ("type", JStr (Path.stem name));
             ("content", JStr content)]
  | inl e =>
      JDict [("filename", JStr name);
             ("name", JStr (Path.stem name));
             ("type", JStr (Path.stem name));
             ("error", JStr ("Failed to read template: " ++ exn_msg e))]
  end.

(** [x.get('name', '')], the sort key of line 151. *)
Definition name_key (x : json) : string := str_field "name" x.

Definition get_pr_templates (w : World) : res json :=
  try_except
    (if negb (path_exists w (TEMPLATES_DIR w)) then
       ret (JDict [("error", JStr ("Templates directory not found: " ++ TEMPLATES_DIR w));
                   ("templates", JList [])])
     else
       files <- glob w (TEMPLATES_DIR w) "*.md" ;;
       let templates := map (template_entry w) files in
       ret (JList (sort_by name_key templates)))
    (fun e =>
       ret (JDict [("error", JStr ("Failed to get PR templates: " ++ exn_msg e));
                   ("templates", JList [])])).

(** Lines 172-192, in declaration order. *)
Definition template_mappings : dict string :=
  [("bug", "bug.md"); ("bugfix", "bug.md"); ("fix", "bug.md");
   ("feature", "feature.md"); ("feat", "feature.md"); ("enhancement", "feature.md");
   ("docs", "docs.md"); ("documentation", "docs.md"); ("doc", "docs.md");
   ("refactor", "refactor.md"); ("refactoring", "refactor.md");
   ("test", "test.md"); ("tests", "test.md"); ("testing", "test.md");
   ("performance", "performance.md"); ("perf", "performance.md");
   ("optimization", "performance.md");
   ("security", "security.md"); ("sec", "security.md")].

(** [not suggested_template_file]: [None] and the empty string are false. *)
Definition falsy (o : option string) : bool :=
  match o with
  | None => true
  | Some s => negb (truthy_str s)
  end.

(** The test of line 203. *)
Definition partial_match (normalized_type : string) (item : string * string) : bool :=
  (contains (fst item) normalized_type || contains normalized_type (fst item))%bool.

(** Lines 195-212: the template file for a change type, and whether it is
    the default. *)
Definition resolve (change_type : string) : string * bool :=
  let normalized_type := strip (lower change_type) in
  let suggested_template_file := dict_get normalized_type template_mappings in
  let suggested_template_file :=
    if falsy suggested_template_file then
      match find (partial_match normalized_type) template_mappings with
      | Some (_, template_file) => Some template_file
      | None => suggested_template_file
      end
    else suggested_template_file in
  if falsy suggested_template_file then ("feature.md", true)
  else match suggested_template_file with
       | Some f => (f, false)
       | None => ("feature.md", true)
       end.

Definition suggest_template (w : World) (changes_summary change_type : string)
  : res json :=
  try_except
    (let '(suggested_template_file, fallback_used) := resolve change_type in
     let template_path := Path.join (TEMPLATES_DIR w) suggested_template_file in
     if path_exists w template_path then
       try_except
         (template_content <- read_text w template_path ;;
          let result :=
            [("recommended_template", JStr suggested_template_file);
             ("template_type", JStr (Path.stem suggested_template_file));
             ("template_content", JStr template_content);
             ("changes_summary", JStr changes_summary);
             ("detected_change_type", JStr change_type);
             ("fallback_used", JBool fallback_used)] in
          let result :=
            if fallback_used then
              dict_set "note"
                (JStr (("No specific template found for '" ++ change_type)
                         ++ "', defaulting to feature template")) result
            else result in
          ret (JDict result))
         (fun e =>
            ret (JDict [("error", JStr ((("Failed to read template file "
                                            ++ suggested_template_file) ++ ": ")
                                          ++ exn_msg e));
                        ("recommended_template", JStr suggested_template_file);
                        ("template_type", JStr (Path.stem suggested_template_file))]))
     else
       ret (JDict [("error", JStr ("Template file not found: " ++ suggested_template_file));
                   ("available_templates", JList (map JStr (values template_mappings)));
                   ("detected_change_type", JStr change_type)]))
    (fun e =>
       ret (JDict [("error", JStr ("Failed to suggest template: " ++ exn_msg e));
                   ("changes_summary", JStr changes_summary);
                   ("change_type", JStr change_type)])).

(** [suggest_template] with the test [template_path.exists()] of line 217
    given apart, as a call that may raise: [Path.exists] answers [False]
    for a missing file and lets other errors of the file system, such as
    [PermissionError], through.  [suggest_template] above is the case of a
    test that returns. *)
Definition suggest_template_probing (probe : string -> res bool) (w : World)
                                    (changes_summary change_type : string)
  : res json :=
  try_except
    (let '(suggested_template_file, fallback_used) := resolve change_type in
     let template_path := Path.join (TEMPLATES_DIR w) suggested_template_file in
     found <- probe template_path ;;
     if found then
       try_except
         (template_content <- read_text w template_path ;;
          let result :=
            [("recommended_template", JStr suggested_template_file);
             ("template_type", JStr (Path.stem suggested_template_file));
             ("template_content", JStr template_content);
             ("changes_summary", JStr changes_summary);
             ("detected_change_type", JStr change_type);
             ("fallback_used", JBool fallback_used)] in
          let result :=
            if fallback_used then
              dict_set "note"
                (JStr (("No specific template found for '" ++ change_type)
                         ++ "', defaulting to feature template")) result
            else result in
          ret (JDict result))
         (fun e =>
            ret (JDict [("error", JStr ((("Failed to read template file "
                                            ++ suggested_template_file) ++ ": ")
                                          ++ exn_msg e));
                        ("recommended_template", JStr suggested_template_file);
                        ("template_type", JStr (Path.stem suggested_template_file))]))
     else
       ret (JDict [("error", JStr ("Template file not found: " ++ suggested_template_file));
                   ("available_templates", JList (map JStr (values template_mappings)));
                   ("detected_change_type", JStr change_type)]))
    (fun e =>
       ret (JDict [("error", JStr ("Failed to suggest template: " ++ exn_msg e));
                   ("changes_summary", JStr changes_summary);
                   ("change_type", JStr change_type)])).

End Basic.

(** ** Module 2: the server with GitHub Actions tools *)

Module Actions.

Import Py.

Definition NLs : string := String NL EmptyString.

Definition DEFAULT_TEMPLATES : dict string :=
  [("bug.md", "Bug Fix"); ("feature.md", "Feature"); ("docs.md", "Documentation");
   ("refactor.md", "Refactor"); ("test.md", "Test");
   ("performance.md", "Performance"); ("security.md", "Security")].

Definition TYPE_MAPPING : dict string :=
  [("bug", "bug.md"); ("fix", "bug.md");
   ("feature", "feature.md"); ("enhancement", "feature.md");
   ("docs", "docs.md"); ("documentation", "docs.md");
   ("refactor", "refactor.md"); ("cleanup", "refactor.md");
   ("test", "test.md"); ("testing", "test.md");
   ("performance", "performance.md"); ("optimization", "performance.md");
   ("security", "security.md")].

(** Lines 98-99: the two lines appended to a truncated diff. *)
Definition truncation_marker (max_diff_lines total : Z) : string :=
  ((((((NLs ++ NLs) ++ "... Output truncated. Showing ")
        ++ str_of_int max_diff_lines) ++ " of ")
      ++ str_of_int total) ++ " lines ...")
  ++ (NLs ++ "... Use max_diff_lines parameter to see more ...").

(** Lines 93-102: the diff shown, and whether it was truncated. *)
Definition limit_lines (max_diff_lines : Z) (out : string) : string * bool :=
  let diff_lines := split NL out in
  if list_len diff_lines >? max_diff_lines then
    (join NLs (slice_to max_diff_lines diff_lines)
       ++ truncation_marker max_diff_lines (list_len diff_lines), true)
  else (out, false).

Definition analyze_file_changes (w : World) (base_branch : string)
                                (include_diff : bool) (max_diff_lines : Z)
  : res json :=
  let range3 := base_branch ++ "...HEAD" in
  catch
    (files_result <- checked ["git"; "diff"; "--name-status"; range3]
                       (run w ["git"; "diff"; "--name-status"; range3] None) ;;
     stat_result <- run w ["git"; "diff"; "--stat"; range3] None ;;
     shown <- (if include_diff then
                 diff_result <- run w ["git"; "diff"; range3] None ;;
                 let '(diff_content, truncated) :=
                   limit_lines max_diff_lines (stdout diff_result) in
                 ret (diff_content, truncated,
                      list_len (split NL (stdout diff_result)))
               else
                 ret ("Diff not included (set include_diff=true to see full diff)",
                      false, 0)) ;;
     let '(diff_content, truncated, total_diff_lines) := shown in
     commits_result <- run w ["git"; "log"; "--oneline"; base_branch ++ "..HEAD"] None ;;
     ret (JDict [("base_branch", JStr base_branch);
                 ("files_changed", JStr (stdout files_result));
                 ("statistics", JStr (stdout stat_result));
                 ("commits", JStr (stdout commits_result));
                 ("diff", JStr diff_content);
                 ("truncated", JBool truncated);
                 ("total_diff_lines", JInt total_diff_lines)]))
    (fun e =>
       match exn_cls e with
       | CalledProcessError =>
           ret (JDict [("error", JStr ("Git error: " ++ exn_stderr e))])
       | _ => ret (JDict [("error", JStr (exn_msg e))])
       end).

(** Lines 132-139: the comprehension over [DEFAULT_TEMPLATES.items()]; the
    first [read_text] that raises ends it. *)
Fixpoint load_templates (w : World) (items : dict string) : res (list json) :=
  match items with
  | [] => ret []
  | (filename, template_type) :: rest =>
      content <- read_text w (Path.join (TEMPLATES_DIR w) filename) ;;
      templates <- load_templates w rest ;;
      ret (JDict [("filename", JStr filename);
                  ("type", JStr template_type);
                  ("content", JStr content)] :: templates)
  end.

Definition get_pr_templates (w : World) : res json :=
  templates <- load_templates w DEFAULT_TEMPLATES ;;
  ret (JList templates).

(** The entry of line 133-137 for a file with a given content. *)
Definition template_entry (content : string -> string) (item : string * string)
  : json :=
  JDict [("filename", JStr (fst item));
         ("type", JStr (snd item));
         ("content", JStr (content (fst item)))].

(** [v[0]] on a parsed JSON value. *)
Definition first_item (v : json) : res json :=
  match v with
  | JList (t :: _) => ret t
  | JList [] => raise (mkExn IndexError "list index out of range" "")
  | _ => raise (mkExn KeyError "0" "")
  end.

(** [d[k]] on a parsed JSON value. *)
Definition item (k : string) (v : json) : res json :=
  match field k v with
  | Some x => ret x
  | None => raise (mkExn KeyError (("'" ++ k) ++ "'") "")
  end.

(** Lines 159-162: [next] over the templates whose filename is
    [template_file], with [default] when there is none. *)
Fixpoint next_match (template_file : string) (templates : list json)
                    (default : json) : res json :=
  match templates with
  | [] => ret default
  | t :: rest =>
      f <- item "filename" t ;;
      match f with
      | JStr name =>
          if String.eqb name template_file then ret t
          else next_match template_file rest default
      | _ => next_match template_file rest default
      end
  end.

(** Line 158. *)
Definition resolve (change_type : string) : string :=
  match dict_get (lower change_type) TYPE_MAPPING with
  | Some f => f
  | None => "feature.md"
  end.

Definition suggest_template (w : World) (changes_summary change_type : string)
  : res json :=
  templates <- get_pr_templates w ;;
  let template_file := resolve change_type in
  default <- first_item templates ;;
  selected_template <-
    next_match template_file
      (match templates with JList l => l | _ => [] end) default ;;
  template_content <- item "content" selected_template ;;
  ret (JDict [("recommended_template", selected_template);
              ("reasoning",
                JStr (((("Based on your analysis: '" ++ changes_summary)
                          ++ "', this appears to be a ") ++ change_type)
                        ++ " change."));
              ("template_content", template_content);
              ("usage_hint",
                JStr "Claude can help you fill out this template based on the specific changes in your PR.")]).

Definition get_recent_actions_events (w : World) (limit : Z) : res json :=
  catch
    (if negb (path_exists w (EVENTS_FILE w)) then
       ret (JDict [("events", JList []); ("message", JStr "No events file found")])
     else
       events <- json_load w (EVENTS_FILE w) ;;
       let recent_events :=
         match events with
         | JList l => slice_to limit l
         | _ => []
         end in
       ret (JDict [("events", JList recent_events);
                   ("total_events",
                     JInt (match events with JList l => list_len l | _ => 0 end));
                   ("showing", JInt (list_len recent_events))]))
    (fun e =>
       match exn_cls e with
       | JSONDecodeError =>
           ret (JDict [("error", JStr ("Invalid JSON in events file: " ++ exn_msg e))])
       | _ => ret (JDict [("error", JStr ("Error reading events: " ++ exn_msg e))])
       end).

End Actions.

(** ** Module 2: the workflow status tool

    [get_workflow_status] works on whatever [json.load] returns, so the
    Python operations it applies are given for every JSON value, with the
    exceptions the interpreter raises on values of the wrong type.  What the
    interpreter does on floating-point numbers is left to four parameters. *)

Module Workflow.

Import Py.

(** [type(v).__name__]. *)
Definition type_name (v : json) : string :=
  match v with
  | JNull => "NoneType"
  | JBool _ => "bool"
  | JInt _ => "int"
  | JFloat _ => "float"
  | JStr _ => "str"
  | JList _ => "list"
  | JDict _ => "dict"
  end.

(** The [AttributeError] of [v.get] on a value that is not a [dict]. *)
Definition attribute_error (v : json) : exn :=
  mkExn OtherException (("'" ++ type_name v) ++ "' object has no attribute 'get'") "".

(** The [TypeError] of [a > b] on values that have no order. *)
Definition order_error (a b : json) : exn :=
  mkExn OtherException
    (((("'>' not supported between instances of '" ++ type_name a) ++ "' and '")
        ++ type_name b) ++ "'") "".

(** The [TypeError] of a [list] or a [dict] used as a dictionary key. *)
Definition unhashable_error (v : json) : exn :=
  mkExn OtherException (("unhashable type: '" ++ type_name v) ++ "'") "".

(** [d.get(k, default)] on a [dict]. *)
Definition get_or (k : string) (default : json) (d : dict json) : json :=
  match dict_get k d with
  | Some x => x
  | None => default
  end.

(** [v.get(k, default)] on any value. *)
Definition get (v : json) (k : string) (default : json) : res json :=
  match v with
  | JDict d => ret (get_or k default d)
  | _ => raise (attribute_error v)
  end.

(** The numbers among the JSON values: [bool] is a subtype of [int]. *)
Inductive number : Type :=
| NumInt (n : Z)
| NumFloat (repr : string).

Definition as_number (v : json) : option number :=
  match v with
  | JBool b => Some (NumInt (if b then 1 else 0))
  | JInt n => Some (NumInt n)
  | JFloat r => Some (NumFloat r)
  | _ => None
  end.

(** Line 232: [isinstance(event, dict) and event.get('type') == 'workflow_run']. *)
Definition is_workflow_run (event : json) : bool :=
  match event with
  | JDict d =>
      match dict_get "type" d with
      | Some (JStr t) => String.eqb t "workflow_run"
      | _ => false
      end
  | _ => false
  end.

(** [wf_name != workflow_name] for a [str] [workflow_name]. *)
Definition differs_from (wf_name : json) (workflow_name : string) : bool :=
  match wf_name with
  | JStr s => negb (String.eqb s workflow_name)
  | _ => true
  end.

(** Truth value of the optional [workflow_name]. *)
Definition filter_set (workflow_name : option string) : bool :=
  match workflow_name with
  | Some s => truthy_str s
  | None => false
  end.

Definition hashable (v : json) : bool :=
  match v with
  | JList _ | JDict _ => false
  | _ => true
  end.

Section Floats.

(** [bool(x)] for a float. *)
Variable float_truthy : string -> bool.
(** [x is y or x == y] for two numbers, one of them a float: what a
    dictionary lookup and the comparison of list items test. *)
Variable float_same : number -> number -> bool.
(** [x > y] for two numbers, one of them a float. *)
Variable float_gt : number -> number -> bool.
(** The key that [json.dumps] writes for a float. *)
Variable float_key : string -> string.

(** [bool(v)]. *)
Definition truthy (v : json) : bool :=
  match v with
  | JNull => false
  | JBool b => b
  | JInt n => negb (n =? 0)
  | JFloat r => float_truthy r
  | JStr s => truthy_str s
  | JList l => truthy_list l
  | JDict d => truthy_list d
  end.

Definition number_same (a b : number) : bool :=
  match a, b with
  | NumInt x, NumInt y => x =? y
  | _, _ => float_same a b
  end.

Definition number_gt (a b : number) : bool :=
  match a, b with
  | NumInt x, NumInt y => x >? y
  | _, _ => float_gt a b
  end.

(** [a is b or a == b], as containers compare their items. *)
Fixpoint same (a b : json) {struct a} : bool :=
  match a, b with
  | JNull, JNull => true
  | JStr x, JStr y => String.eqb x y
  | JList la, JList lb =>
      (fix same_list (la lb : list json) {struct la} : bool :=
         match la, lb with
         | [], [] => true
         | x :: xs, y :: ys => (same x y && same_list xs ys)%bool
         | _, _ => false
         end) la lb
  | JDict da, JDict db =>
      (Nat.eqb (List.length da) (List.length db)
       && (fix same_items (da : dict json) {struct da} : bool :=
             match da with
             | [] => true
             | (k, v) :: rest =>
                 (match dict_get k db with
                  | Some v' => same v v'
                  | None => false
                  end && same_items rest)%bool
             end) da)%bool
  | _, _ =>
      match as_number a, as_number b with
      | Some x, Some y => number_same x y
      | _, _ => false
      end
  end.

(** [a > b]: strings by code points, numbers by value, lists by their
    first differing items; [TypeError] otherwise. *)
Fixpoint greater (a b : json) {struct a} : res bool :=
  match a, b with
  | JStr x, JStr y => ret (String.ltb y x)
  | JList la, JList lb =>
      (fix greater_list (la lb : list json) {struct la} : res bool :=
         match la, lb with
         | x :: xs, y :: ys => if same x y then greater_list xs ys else greater x y
         | _ :: _, [] => ret true
         | [], _ => ret false
         end) la lb
  | _, _ =>
      match as_number a, as_number b with
      | Some x, Some y => ret (number_gt x y)
      | _, _ => raise (order_error a b)
      end
  end.

(** The dictionary [workflows]: keys in insertion order. *)
Definition table : Type := list (json * dict json).

(** [workflows[k]], if [k in workflows]. *)
Fixpoint lookup (k : json) (workflows : table) : option (dict json) :=
  match workflows with
  | [] => None
  | (k', entry) :: rest => if same k' k then Some entry else lookup k rest
  end.

(** [workflows[k] = entry]: an existing key keeps its place and its key
    object, a new one goes last. *)
Fixpoint store (k : json) (entry : dict json) (workflows : table) : table :=
  match workflows with
  | [] => [(k, entry)]
  | (k', entry') :: rest =>
      if same k' k then (k', entry) :: rest
      else (k', entry') :: store k entry rest
  end.

(** Lines 252-260: the summary kept for a run. *)
Definition summary (wf_name event_time : json) (workflow_data : dict json) : dict json :=
  [("name", wf_name);
   ("status", get_or "status" (JStr "unknown") workflow_data);
   ("conclusion", get_or "conclusion" JNull workflow_data);
   ("updated_at", event_time);
   ("head_branch", get_or "head_branch" (JStr "unknown") workflow_data);
   ("html_url", get_or "html_url" (JStr "") workflow_data);
   ("run_number", get_or "run_number" (JInt 0) workflow_data)].

(** Lines 238-260: one turn of the loop over the workflow_run events. *)
Definition step (workflow_name : option string) (workflows : table) (event : json)
  : res table :=
  payload <- get event "payload" (JDict []) ;;
  workflow_data <- get payload "workflow_run" (JDict []) ;;
  if negb (truthy workflow_data) then ret workflows
  else
    wf_name <- get workflow_data "name" (JStr "Unknown") ;;
    if (filter_set workflow_name
        && differs_from wf_name (match workflow_name with Some s => s | None => "" end))%bool
    then ret workflows
    else
      created_at <- get workflow_data "created_at" (JStr "") ;;
      event_time <- get workflow_data "updated_at" created_at ;;
      if negb (hashable wf_name) then raise (unhashable_error wf_name)
      else
        newer <- match lookup wf_name workflows with
                 | None => ret true
                 | Some entry => greater event_time (get_or "updated_at" (JStr "") entry)
                 end ;;
        if newer then
          ret (store wf_name
                 (summary wf_name event_time
                    (match workflow_data with JDict d => d | _ => [] end))
                 workflows)
        else ret workflows.

(** The loop of line 237: the first exception ends it. *)
Fixpoint run_events (workflow_name : option string) (events : list json)
                    (workflows : table) : res table :=
  match events with
  | [] => ret workflows
  | event :: rest =>
      workflows <- step workflow_name workflows event ;;
      run_events workflow_name rest workflows
  end.

(** The key that [json.dumps] writes for a key of [workflows]. *)
Definition key_text (k : json) : string :=
  match k with
  | JStr s => s
  | JFloat r => float_key r
  | JBool true => "true"
  | JBool false => "false"
  | JNull => "null"
  | JInt n => str_of_int n
  | _ => ""
  end.

Definition get_workflow_status (w : World) (workflow_name : option string) : res json :=
  catch
    (if negb (path_exists w (EVENTS_FILE w)) then
       ret (JDict [("workflows", JDict []); ("message", JStr "No events file found")])
     else
       events <- json_load w (EVENTS_FILE w) ;;
       match events with
       | JList l =>
           let workflow_events := filter is_workflow_run l in
           workflows <- run_events workflow_name workflow_events [] ;;
           ret (JDict [("workflows",
                         JDict (map (fun item => (key_text (fst item), JDict (snd item)))
                                    workflows));
                       ("total_workflows", JInt (list_len workflows));
                       ("filtered_by",
                         JStr (if filter_set workflow_name
                               then match workflow_name with Some s => s | None => "" end
                               else "all workflows"))])
       | _ =>
           ret (JDict [("workflows", JDict []); ("message", JStr "Invalid events format")])
       end)
    (fun e =>
       match exn_cls e with
       | JSONDecodeError =>
           ret (JDict [("error", JStr ("Invalid JSON in events file: " ++ exn_msg e))])
       | _ =>
           ret (JDict [("error", JStr ("Error reading workflow status: " ++ exn_msg e))])
       end).

End Floats.

End Workflow.

(** ** Vocabulary of the properties *)

(** What a list of lines costs against the character budget of the basic
    server: one more than its length for each line. *)
Definition cost (l : list string) : Z :=
  fold_right (fun line acc => Py.len line + 1 + acc) 0 l.

(** Order of two entries by a string key, as Python compares strings. *)
Definition key_le {A : Type} (key : A -> string) (a b : A) : Prop :=
  String.leb (key a) (key b) = true.

(** The object that the basic [analyze_file_changes] returns for an
    exception caught at line 104. *)
Definition basic_exception_result (e : exn) : json :=
  JDict [("error", JStr ("Exception occurred: " ++ exn_msg e));
         ("files_changed", JList []);
         ("diff", JStr "")].

(** Whether the character [c] occurs in [s]. *)
Fixpoint has_char (c : ascii) (s : string) : bool :=
  match s with
  | EmptyString => false
  | String a rest => (Ascii.eqb a c || has_char c rest)%bool
  end.

(** Number of occurrences of the character [c] in [s]. *)
Fixpoint count_char (c : ascii) (s : string) : nat :=
  match s with
  | EmptyString => O
  | String a rest => if Ascii.eqb a c then S (count_char c rest) else count_char c rest
  end.

(** A field of the name-status listing as git prints it for ordinary
    paths: not empty, no white space at either end, no tab and no newline
    inside. *)
Definition clean (s : string) : Prop :=
  s <> "" /\ Py.strip s = s
  /\ has_char Py.TAB s = false /\ has_char Py.NL s = false.

(** One line of [git diff --name-status] and the whole output. *)
Definition name_status_line (e : string * string) : string :=
  fst e ++ String Py.TAB (snd e).

Fixpoint name_status_output (es : list (string * string)) : string :=
  match es with
  | [] => ""
  | e :: rest => name_status_line e ++ String Py.NL (name_status_output rest)
  end.

(** The entry of [files_changed] for a status and a file name. *)
Definition file_entry (e : string * string) : json :=
  JDict [("status", JStr (fst e)); ("filename", JStr (snd e))].

(** The content of a template file as the world reads it. *)
Definition content_of (w : World) (filename : string) : string :=
  match read_text w (Path.join (TEMPLATES_DIR w) filename) with
  | inr content => content
  | inl _ => ""
  end.

(** The [workflow_run] object of an event, when the event holds one inside
    an object [payload]. *)
Definition run_data (event : json) : option (Py.dict json) :=
  match field "payload" event with
  | Some (JDict payload) =>
      match Py.dict_get "workflow_run" payload with
      | Some (JDict data) => Some data
      | _ => None
      end
  | _ => None
  end.

(** Name and time of an event whose run has a string [name] and a string
    [updated_at]. *)
Definition name_of (event : json) : string :=
  match run_data event with
  | Some data => str_field "name" (JDict data)
  | None => ""
  end.

Definition time_of (event : json) : string :=
  match run_data event with
  | Some data => str_field "updated_at" (JDict data)
  | None => ""
  end.

(** A workflow_run event in the shape GitHub sends it: an object [payload]
    with an object [workflow_run] whose [name] and [updated_at] are
    strings. *)
Definition well_formed (event : json) : Prop :=
  exists data name time,
    run_data event = Some data
    /\ Py.dict_get "name" data = Some (JStr name)
    /\ Py.dict_get "updated_at" data = Some (JStr time).

(** The summary that [get_workflow_status] keeps for such an event. *)
Definition summary_of (event : json) : Py.dict json :=
  Workflow.summary (JStr (name_of event)) (JStr (time_of event))
    (match run_data event with Some data => data | None => [] end).

(** Whether the name filter lets an event through. *)
Definition selected (workflow_name : option string) (event : json) : bool :=
  negb (Workflow.filter_set workflow_name
        && negb (String.eqb (name_of event)
                   (match workflow_name with Some s => s | None => "" end))).

(** The run kept for each workflow name, as a table from names to events:
    what one turn of the loop of [get_workflow_status] does to it on an
    event in the shape GitHub sends. *)
Definition latest_step (workflow_name : option string) (kept : Py.dict json)
                       (event : json) : Py.dict json :=
  if selected workflow_name event then
    match Py.dict_get (name_of event) kept with
    | None => Py.dict_set (name_of event) event kept
    | Some previous =>
        if String.ltb (time_of previous) (time_of event)
        then Py.dict_set (name_of event) event kept
        else kept
    end
  else kept.

(** The dictionary [workflows] that stands for such a table. *)
Definition as_table (kept : Py.dict json) : Workflow.table :=
  map (fun item => (JStr (fst item), summary_of (snd item))) kept.

(** What the table of kept runs satisfies after the events [seen]: each
    name is kept once, the run kept for a name is one of the selected
    events of that name and none of them is later, and every selected
    event has its name in the table. *)
Definition keeps_latest (workflow_name : option string) (seen : list json)
                        (kept : Py.dict json) : Prop :=
  NoDup (Py.keys kept)
  /\ (forall name event,
        Py.dict_get name kept = Some event ->
        In event seen /\ selected workflow_name event = true
        /\ name_of event = name
        /\ forall other,
            In other seen -> selected workflow_name other = true ->
            name_of other = name ->
            String.leb (time_of other) (time_of event) = true)
  /\ (forall event,
        In event seen -> selected workflow_name event = true ->
        Py.dict_get (name_of event) kept <> None).

(** ** Sample worlds

    Concrete worlds on which the tools are run: a repository under [/repo]
    whose two subprocess outputs are given, templates under
    [/srv/templates] (the names in [present], in enumeration order), and an
    events file with a given [json.load] result. *)

Module Sample.

Import Py.

Fixpoint repeat_string (n : nat) (s : string) : string :=
  match n with
  | O => EmptyString
  | S m => s ++ repeat_string m s
  end.

Definition no_such_file (path : string) : exn :=
  mkExn FileNotFoundError
    (("[Errno 2] No such file or directory: '" ++ path) ++ "'") "".

Definition completed (code : Z) (out err : string) : res CompletedProcess :=
  inr (mkCompleted code out err).

Definition run_git (name_status diff : res CompletedProcess)
                   (argv : list string) (cwd : option string)
  : res CompletedProcess :=
  match argv with
  | [_; _; option; _] =>
      if String.eqb option "--name-status" then name_status
      else completed 0 "" ""
  | [_; _; _] => diff
  | _ => completed 0 "" ""
  end.

Definition templates_dir : string := "/srv/templates".

Definition has_template (present : list string) (path : string) : bool :=
  existsb (fun name => String.eqb (Path.join templates_dir name) path) present.

Definition world (name_status diff : res CompletedProcess)
                 (present : list string) (events : res json) : World :=
  {| list_roots := inr ["/repo"];
     run := run_git name_status diff;
     TEMPLATES_DIR := templates_dir;
     path_exists := fun path =>
       if String.eqb path templates_dir then truthy_list present
       else if String.eqb path "/srv/github_events.json" then true
       else has_template present path;
     glob := fun dir pattern => inr present;
     read_text := fun path =>
       if has_template present path then inr ("# " ++ path)
       else inl (no_such_file path);
     EVENTS_FILE := "/srv/github_events.json";
     json_load := fun path => events |}.

Definition two_files : string :=
  ((("M" ++ String TAB "a.py") ++ String NL "M") ++ String TAB "b.py")
    ++ String NL "".

(** 300 lines of 99 characters: 30,000 characters with the newlines. *)
Definition diff_30000 : string :=
  repeat_string 300 (repeat_string 99 "+" ++ String NL "").

(** Lines [a], [bb] and [ccc]. *)
Definition three_lines : string :=
  ("a" ++ String NL "bb") ++ String NL "ccc".

Definition all_templates : list string :=
  ["security.md"; "bug.md"; "test.md"; "feature.md"; "docs.md";
   "refactor.md"; "performance.md"].

(** Two modified files and a 30,000-character diff. *)
Definition big_diff_world : World :=
  world (completed 0 two_files "") (completed 0 diff_30000 "")
        all_templates (inr (JList [JInt 1; JInt 2; JInt 3])).

(** No difference with the base reference. *)
Definition clean_world : World :=
  world (completed 0 "" "") (completed 0 "" "")
        all_templates (inr (JList [])).

(** The full diff fails after the name-status listing succeeded. *)
Definition diff_fails_world : World :=
  world (completed 0 two_files "")
        (completed 128 "" "fatal: bad revision")
        all_templates (inr (JList [])).

(** The events file holds an object, not a list. *)
Definition odd_events_world : World :=
  world (completed 0 "" "") (completed 0 "" "")
        all_templates (inr (JDict [("events", JList [])])).

(** The directory enumerates [gone.md], which cannot be opened, and
    [bug.md]. *)
Definition stale_listing_world : World :=
  {| list_roots := inr ["/repo"];
     run := run_git (completed 0 "" "") (completed 0 "" "");
     TEMPLATES_DIR := templates_dir;
     path_exists := fun path => true;
     glob := fun dir pattern => inr ["gone.md"; "bug.md"];
     read_text := fun path =>
       if has_template ["bug.md"] path then inr ("# " ++ path)
       else inl (no_such_file path);
     EVENTS_FILE := "/srv/github_events.json";
     json_load := fun path =>
       inl (mkExn JSONDecodeError
              "Expecting value: line 1 column 1 (char 0)" "") |}.

(** The templates directory is there but cannot be enumerated. *)
Definition unlistable_world : World :=
  {| list_roots := inr ["/repo"];
     run := run_git (completed 0 "" "") (completed 0 "" "");
     TEMPLATES_DIR := templates_dir;
     path_exists := fun path => true;
     glob := fun dir pattern =>
       inl (mkExn OtherException
              "[Errno 13] Permission denied: '/srv/templates'" "");
     read_text := fun path => inl (no_such_file path);
     EVENTS_FILE := "/srv/github_events.json";
     json_load := fun path =>
       inl (mkExn OtherException
              "[Errno 13] Permission denied: '/srv/github_events.json'" "") |}.

(** No events file. *)
Definition no_events_world : World :=
  {| list_roots := inr ["/repo"];
     run := run_git (completed 0 "" "") (completed 0 "" "");
     TEMPLATES_DIR := templates_dir;
     path_exists := fun path => has_template all_templates path;
     glob := fun dir pattern => inr all_templates;
     read_text := fun path =>
       if has_template all_templates path then inr ("# " ++ path)
       else inl (no_such_file path);
     EVENTS_FILE := "/srv/github_events.json";
     json_load := fun path => inl (no_such_file path) |}.

(** A workflow_run event with the usual fields. *)
Definition run_event (name status conclusion time : string) : json :=
  JDict [("type", JStr "workflow_run");
         ("payload",
           JDict [("action", JStr "completed");
                  ("workflow_run",
                    JDict [("name", JStr name);
                           ("status", JStr status);
                           ("conclusion", JStr conclusion);
                           ("updated_at", JStr time);
                           ("head_branch", JStr "main");
                           ("run_number", JInt 7)])]);
         ("timestamp", JStr time)].

(** Two runs of CI, the later one failed, one run of Deploy, one event of
    another type and one stray string. *)
Definition workflow_events : list json :=
  [run_event "CI" "completed" "success" "2024-05-01T10:00:00Z";
   JDict [("type", JStr "check_run"); ("payload", JNull)];
   run_event "Deploy" "in_progress" "" "2024-05-01T09:00:00Z";
   JStr "noise";
   run_event "CI" "completed" "failure" "2024-05-02T08:30:00Z"].

Definition workflow_world : World :=
  world (completed 0 "" "") (completed 0 "" "") all_templates
        (inr (JList workflow_events)).

(** A workflow_run event whose payload is a list. *)
Definition broken_payload_world : World :=
  world (completed 0 "" "") (completed 0 "" "") all_templates
        (inr (JList [run_event "CI" "completed" "success" "2024-05-01T10:00:00Z";
                     JDict [("type", JStr "workflow_run"); ("payload", JList [])]])).

(** Stand-ins for the floating-point parameters of [Workflow]. *)
Definition no_float_truthy (repr : string) : bool := true.
Definition no_float_same (a b : Workflow.number) : bool := false.
Definition no_float_gt (a b : Workflow.number) : bool := false.
Definition no_float_key (repr : string) : string := repr.

Definition workflow_status (w : World) (workflow_name : option string) : res json :=
  Workflow.get_workflow_status no_float_truthy no_float_same no_float_gt no_float_key
    w workflow_name.

(** The session cannot be asked for its roots. *)
Definition no_session_world : World :=
  {| list_roots := inl (mkExn OtherException "No active session" "");
     run := run_git (completed 0 "" "") (completed 0 "" "");
     TEMPLATES_DIR := templates_dir;
     path_exists := fun path => true;
     glob := fun dir pattern => inr all_templates;
     read_text := fun path => inr ("# " ++ path);
     EVENTS_FILE := "/srv/github_events.json";
     json_load := fun path => inr (JList []) |}.

(** An existence test that is refused by the file system. *)
Definition denied (path : string) : exn :=
  mkExn OtherException (("[Errno 13] Permission denied: '" ++ path) ++ "'") "".

Definition denied_probe (path : string) : res bool := inl (denied path).

(** The existence test of a world, which always returns. *)
Definition probe_of (w : World) (path : string) : res bool :=
  inr (path_exists w path).

(** No templates directory. *)
Definition no_templates_world : World :=
  world (completed 0 "" "") (completed 0 "" "") [] (inr (JList [])).

End Sample.

(** * Properties *)

(** ** Facts about the Python values *)

Section PyFacts.

Import Py.

Lemma len_nonneg (s : string) : 0 <= len s.
Proof. unfold len. lia. Qed.

Lemma len_append (a b : string) : len (a ++ b) = len a + len b.
Proof.
  unfold len. induction a as [|c a IH]; simpl String.length.
  - reflexivity.
  - lia.
Qed.

Lemma append_assoc (a b c : string) : ((a ++ b) ++ c = a ++ (b ++ c))%string.
Proof. induction a as [|x a IH]; simpl; [reflexivity|f_equal; exact IH]. Qed.

Lemma split_not_nil (sep : ascii) (s : string) : split sep s <> [].
Proof.
  destruct s as [|c s]; simpl.
  - discriminate.
  - destruct (Ascii.eqb c sep); [discriminate|].
    destruct (split sep s); discriminate.
Qed.

Lemma join_cons_char (sep : string) (c : ascii) (l : string) (ls : list string) :
  join sep (String c l :: ls) = String c (join sep (l :: ls)).
Proof. unfold join. destruct ls; reflexivity. Qed.

(** Joining the lines of a text with newlines gives the text back. *)
Lemma join_split (s : string) : join (String NL "") (split NL s) = s.
Proof.
  induction s as [|c s IH]; simpl split.
  - reflexivity.
  - destruct (Ascii.eqb_spec c NL) as [->|Hc].
    + pose proof (split_not_nil NL s) as Hne.
      unfold join in *. simpl.
      destruct (split NL s) as [|l ls]; [contradiction|].
      simpl. f_equal. exact IH.
    + pose proof (split_not_nil NL s) as Hne.
      destruct (split NL s) as [|l ls]; [contradiction|].
      rewrite join_cons_char. f_equal. exact IH.
Qed.

Lemma cost_nonneg (l : list string) : 0 <= cost l.
Proof.
  induction l as [|x l IH]; simpl; [lia|]. pose proof (len_nonneg x). lia.
Qed.

Lemma cost_app (a b : list string) : cost (a ++ b) = cost a + cost b.
Proof. induction a as [|x a IH]; simpl; lia. Qed.

Lemma len_join (l : list string) :
  l <> [] -> len (join (String NL "") l) = cost l - 1.
Proof.
  induction l as [|x l IH]; intros Hne; [contradiction|].
  destruct l as [|y l].
  - simpl. lia.
  - change (join (String NL "") (x :: y :: l))
      with (x ++ String NL "" ++ join (String NL "") (y :: l)).
    rewrite len_append.
    change (String NL "" ++ join (String NL "") (y :: l))
      with (String NL (join (String NL "") (y :: l))).
    assert (Hs : forall t, len (String NL t) = 1 + len t)
      by (intros t; unfold len; simpl String.length; lia).
    rewrite Hs, IH by discriminate.
    simpl cost. lia.
Qed.

Lemma len_join_le (l : list string) : len (join (String NL "") l) <= cost l.
Proof.
  destruct l as [|x l].
  - simpl. unfold len. simpl. lia.
  - rewrite len_join by discriminate. lia.
Qed.

Lemma dict_get_set_same {V} (k : string) (v : V) (d : dict V) :
  dict_get k (dict_set k v d) = Some v.
Proof.
  induction d as [|[k' v'] d IH]; simpl.
  - rewrite String.eqb_refl. reflexivity.
  - destruct (String.eqb k' k) eqn:E; simpl; rewrite E; [reflexivity|exact IH].
Qed.

Lemma dict_get_set_other {V} (k k' : string) (v : V) (d : dict V) :
  k <> k' -> dict_get k (dict_set k' v d) = dict_get k d.
Proof.
  intros Hne. induction d as [|[k0 v0] d IH]; simpl.
  - destruct (String.eqb_spec k' k) as [->|_]; [contradiction|reflexivity].
  - destruct (String.eqb_spec k0 k') as [->|Hk0]; simpl.
    + destruct (String.eqb_spec k' k) as [->|_]; [contradiction|reflexivity].
    + destruct (String.eqb k0 k); [reflexivity|exact IH].
Qed.

Lemma slice_to_firstn {A} (k : Z) (l : list A) :
  exists n, (n <= List.length l)%nat /\ slice_to k l = firstn n l.
Proof.
  unfold slice_to.
  destruct (k <? 0).
  - exists (Nat.min (Z.to_nat (list_len l + k)) (List.length l)). split; [lia|].
    rewrite <- (firstn_firstn l). rewrite firstn_all. reflexivity.
  - exists (Nat.min (Z.to_nat k) (List.length l)). split; [lia|].
    rewrite <- (firstn_firstn l). rewrite firstn_all. reflexivity.
Qed.

End PyFacts.

(** ** The character budget of the basic server *)

Section CharBudget.

Import Py.

Lemma take_lines_spec (budget : Z) (lines : list string) :
  forall (acc : list string) (count : Z),
  exists k, (k <= List.length lines)%nat
    /\ Basic.take_lines budget lines acc count = (acc ++ firstn k lines)%list
    /\ (k = O \/ count + cost (firstn k lines) <= budget).
Proof.
  induction lines as [|line rest IH]; intros acc count; simpl.
  - exists O. rewrite app_nil_r. auto.
  - destruct (Z.gtb_spec (count + len line + 1) budget) as [Hgt|Hle].
    + exists O. simpl. rewrite app_nil_r. auto with arith.
    + destruct (IH (acc ++ [line])%list (count + len line + 1)) as (k & Hk & Heq & Hc).
      exists (S k). split; [lia|]. split.
      * rewrite Heq, <- app_assoc. reflexivity.
      * right. simpl firstn. simpl cost.
        destruct Hc as [->|Hc]; [simpl; lia|lia].
Qed.

End CharBudget.

(** ** Running [analyze_file_changes] of the basic server *)

Section BasicAnalyze.

Import Py.

(** The run up to the full diff, when the session and the name-status
    listing succeed and the diff is asked for and there are changed files. *)
Lemma analyze_reaches_diff (w : World) (base_branch : string)
      (roots : list string) (files : CompletedProcess) :
  list_roots w = inr roots ->
  run w ["git"; "diff"; "--name-status"; base_branch]
      (Some (Basic.working_dir roots)) = inr files ->
  returncode files = 0 ->
  truthy_list (Basic.parse_files (stdout files)) = true ->
  Basic.analyze_file_changes w base_branch true
  = let result :=
      [("files_changed", JList (Basic.parse_files (stdout files)));
       ("total_files", JInt (list_len (Basic.parse_files (stdout files))))] in
    match run w ["git"; "diff"; base_branch] (Some (Basic.working_dir roots)) with
    | inr d =>
        if returncode d =? 0
        then inr (JDict (Basic.truncate Basic.max_diff_chars (stdout d) result))
        else inr (JDict (dict_set "diff_error" (JStr (stderr d))
                           (dict_set "diff" (JStr "") result)))
    | inl e =>
        inr (JDict [("error", JStr ("Exception occurred: " ++ exn_msg e));
                    ("files_changed", JList []); ("diff", JStr "")])
    end.
Proof.
  intros Hroots Hfiles Hcode Htruthy.
  unfold Basic.analyze_file_changes, try_except.
  cbn [catch bind ret Monad_either Exception_either].
  rewrite Hroots. cbv zeta. rewrite Hfiles, Hcode.
  cbn [Z.eqb negb andb]. rewrite Htruthy.
  destruct (run w ["git"; "diff"; base_branch] (Some (Basic.working_dir roots)))
    as [e|d]; [reflexivity|].
  destruct (returncode d =? 0); reflexivity.
Qed.

Lemma truncate_over (budget : Z) (d : string) (result : dict json) :
  budget < len d ->
  exists k, (k <= List.length (split NL d))%nat
    /\ (k = O \/ cost (firstn k (split NL d)) <= budget)
    /\ Basic.truncate budget d result
       = dict_set "original_diff_size" (JInt (len d))
           (dict_set "diff_truncated" (JBool true)
              (dict_set "diff" (JStr (join Basic.NLs (firstn k (split NL d))))
                 result)).
Proof.
  intros Hlen. unfold Basic.truncate.
  destruct (Z.gtb_spec (len d) budget) as [_|Hle]; [|lia].
  destruct (take_lines_spec budget (split NL d) [] 0) as (k & Hk & Heq & Hc).
  exists k. split; [exact Hk|]. split; [destruct Hc; [left; assumption|right; lia]|].
  cbv zeta. rewrite Heq. reflexivity.
Qed.

Lemma truncate_within (budget : Z) (d : string) (result : dict json) :
  len d <= budget ->
  Basic.truncate budget d result
  = dict_set "diff_truncated" (JBool false) (dict_set "diff" (JStr d) result).
Proof.
  intros Hlen. unfold Basic.truncate.
  destruct (Z.gtb_spec (len d) budget) as [Hgt|_]; [lia|reflexivity].
Qed.

End BasicAnalyze.

Section BasicAnalyzeClaims.

Import Py.

(** C2. With a full diff of more than 20,000 characters, the [diff] returned
    by [analyze_file_changes] is at most 20,000 characters long,
    [diff_truncated] is true and [original_diff_size] is the length of the
    full diff; with a diff of at most 20,000 characters, [diff_truncated] is
    false and [diff] is the full diff itself. *)
Theorem C2_char_budget (w : World) (base_branch : string)
        (roots : list string) (files diff : CompletedProcess) :
  list_roots w = inr roots ->
  run w ["git"; "diff"; "--name-status"; base_branch]
      (Some (Basic.working_dir roots)) = inr files ->
  returncode files = 0 ->
  truthy_list (Basic.parse_files (stdout files)) = true ->
  run w ["git"; "diff"; base_branch] (Some (Basic.working_dir roots)) = inr diff ->
  returncode diff = 0 ->
  exists d, Basic.analyze_file_changes w base_branch true = inr (JDict d)
    /\ (20000 < len (stdout diff) ->
        exists shown, dict_get "diff" d = Some (JStr shown)
          /\ len shown <= 20000
          /\ dict_get "diff_truncated" d = Some (JBool true)
          /\ dict_get "original_diff_size" d = Some (JInt (len (stdout diff))))
    /\ (len (stdout diff) <= 20000 ->
        dict_get "diff" d = Some (JStr (stdout diff))
        /\ dict_get "diff_truncated" d = Some (JBool false)).
Proof.
  intros Hroots Hfiles Hcode Htruthy Hdiff Hdcode.
  rewrite (analyze_reaches_diff w base_branch roots files Hroots Hfiles Hcode Htruthy).
  cbv zeta. rewrite Hdiff, Hdcode. cbn [Z.eqb].
  eexists. split; [reflexivity|]. split.
  - intros Hover.
    destruct (truncate_over Basic.max_diff_chars (stdout diff)
                [("files_changed", JList (Basic.parse_files (stdout files)));
                 ("total_files", JInt (list_len (Basic.parse_files (stdout files))))]
                Hover) as (k & _ & Hc & ->).
    exists (join Basic.NLs (firstn k (split NL (stdout diff)))).
    repeat split; try reflexivity.
    destruct Hc as [->|Hc].
    + simpl. unfold len. simpl. lia.
    + pose proof (len_join_le (firstn k (split NL (stdout diff)))) as Hj.
      unfold Basic.max_diff_chars in Hc. unfold Basic.NLs. lia.
  - intros Hwithin. rewrite truncate_within by exact Hwithin.
    split; reflexivity.
Qed.

(** The scenario of the specification: two modified files and a diff of
    30,000 characters. *)
Lemma C2_char_budget_witness :
  len Sample.diff_30000 = 30000
  /\ exists d shown,
      Basic.analyze_file_changes Sample.big_diff_world "main" true = inr (JDict d)
      /\ dict_get "diff" d = Some (JStr shown)
      /\ len shown <= 20000
      /\ dict_get "diff_truncated" d = Some (JBool true)
      /\ dict_get "original_diff_size" d = Some (JInt 30000).
Proof.
  split; [reflexivity|].
  destruct (C2_char_budget Sample.big_diff_world "main" ["/repo"]
              (mkCompleted 0 Sample.two_files "")
              (mkCompleted 0 Sample.diff_30000 "")
              eq_refl eq_refl eq_refl eq_refl eq_refl eq_refl)
    as (d & Hd & Hover & _).
  destruct Hover as (shown & Hshown & Hlen & Htruncated & Hsize); [reflexivity|].
  exists d, shown. repeat split; assumption.
Defined.

(** C3. Both truncation policies keep a prefix of whole input lines: the
    text shown is the first [k] lines of the input joined by newlines (in
    the line-count policy followed by the marker), for every input and
    every limit.  The character budget reports [diff_truncated] and the
    original size; the line count reports its flag and a marker that
    contains the total number of lines. *)
Theorem C3_whole_lines (d : string) (budget limit : Z) (result : dict json) :
  (exists k, (k <= List.length (split NL d))%nat
     /\ (budget < len d ->
         dict_get "diff" (Basic.truncate budget d result)
           = Some (JStr (join Basic.NLs (firstn k (split NL d))))
         /\ dict_get "diff_truncated" (Basic.truncate budget d result)
           = Some (JBool true)
         /\ dict_get "original_diff_size" (Basic.truncate budget d result)
           = Some (JInt (len d)))
     /\ (len d <= budget ->
         dict_get "diff" (Basic.truncate budget d result) = Some (JStr d)
         /\ d = join Basic.NLs (split NL d)
         /\ dict_get "diff_truncated" (Basic.truncate budget d result)
           = Some (JBool false)))
  /\ (exists k, (k <= List.length (split NL d))%nat
     /\ (limit < list_len (split NL d) ->
         Actions.limit_lines limit d
           = (join Actions.NLs (firstn k (split NL d))
                ++ Actions.truncation_marker limit (list_len (split NL d)), true)
         /\ exists before after,
             Actions.truncation_marker limit (list_len (split NL d))
             = (before ++ str_of_int (list_len (split NL d))) ++ after)
     /\ (list_len (split NL d) <= limit ->
         Actions.limit_lines limit d = (d, false)
         /\ d = join Actions.NLs (split NL d))).
Proof.
  split.
  - destruct (Z.ltb_spec budget (len d)) as [Hover|Hwithin].
    + destruct (truncate_over budget d result Hover) as (k & Hk & _ & Heq).
      exists k. split; [exact Hk|]. split; [|lia].
      intros _. rewrite Heq. split; [|split].
      * rewrite !dict_get_set_other by discriminate. apply dict_get_set_same.
      * rewrite dict_get_set_other by discriminate. apply dict_get_set_same.
      * apply dict_get_set_same.
    + exists O. split; [lia|]. split; [lia|].
      intros _. rewrite truncate_within by exact Hwithin. split; [|split].
      * rewrite dict_get_set_other by discriminate. apply dict_get_set_same.
      * symmetry. apply join_split.
      * apply dict_get_set_same.
  - destruct (slice_to_firstn limit (split NL d)) as (k & Hk & Heq).
    exists k. split; [exact Hk|]. unfold Actions.limit_lines. split.
    + intros Hover.
      destruct (Z.gtb_spec (list_len (split NL d)) limit) as [_|Hle]; [|lia].
      rewrite Heq. split; [reflexivity|].
      unfold Actions.truncation_marker.
      exists ((((Actions.NLs ++ Actions.NLs) ++ "... Output truncated. Showing ")
                 ++ str_of_int limit) ++ " of ").
      exists (" lines ..."
                ++ (Actions.NLs ++ "... Use max_diff_lines parameter to see more ...")).
      apply append_assoc.
    + intros Hwithin.
      destruct (Z.gtb_spec (list_len (split NL d)) limit) as [Hgt|_]; [lia|].
      split; [reflexivity|]. symmetry. apply join_split.
Qed.

(** Three lines of 1, 2 and 3 characters, a budget of 4 characters and a
    limit of 2 lines. *)
Lemma C3_whole_lines_witness :
  exists k1 k2,
    dict_get "diff" (Basic.truncate 4 Sample.three_lines [])
    = Some (JStr (join Basic.NLs (firstn k1 (split NL Sample.three_lines))))
    /\ dict_get "diff_truncated" (Basic.truncate 4 Sample.three_lines [])
       = Some (JBool true)
    /\ dict_get "original_diff_size" (Basic.truncate 4 Sample.three_lines [])
       = Some (JInt 8)
    /\ Actions.limit_lines 2 Sample.three_lines
       = (join Actions.NLs (firstn k2 (split NL Sample.three_lines))
            ++ Actions.truncation_marker 2 3, true).
Proof.
  destruct (C3_whole_lines Sample.three_lines 4 2 [])
    as [(k1 & _ & Hbudget & _) (k2 & _ & Hlimit & _)].
  destruct Hbudget as (Hdiff & Htruncated & Hsize); [reflexivity|].
  destruct Hlimit as (Hshown & _); [reflexivity|].
  exists k1, k2. repeat split; assumption.
Defined.

(** C7. When the name-status listing succeeds with empty output,
    [analyze_file_changes] returns no changed file, [total_files] 0 and an
    empty [diff], whatever the base reference and whether or not the diff
    was asked for. *)
Theorem C7_no_changes (w : World) (base_branch : string) (include_diff : bool)
        (roots : list string) (files : CompletedProcess) :
  list_roots w = inr roots ->
  run w ["git"; "diff"; "--name-status"; base_branch]
      (Some (Basic.working_dir roots)) = inr files ->
  returncode files = 0 ->
  stdout files = "" ->
  Basic.analyze_file_changes w base_branch include_diff
  = inr (JDict [("files_changed", JList []);
                ("total_files", JInt 0);
                ("diff", JStr "")]).
Proof.
  intros Hroots Hfiles Hcode Hout.
  unfold Basic.analyze_file_changes, try_except.
  cbn [catch bind ret Monad_either Exception_either].
  rewrite Hroots. cbv zeta. rewrite Hfiles, Hcode, Hout.
  cbn. rewrite Bool.andb_false_r. reflexivity.
Qed.

Lemma C7_no_changes_witness :
  Basic.analyze_file_changes Sample.clean_world "main" true
  = inr (JDict [("files_changed", JList []);
                ("total_files", JInt 0);
                ("diff", JStr "")]).
Proof.
  apply (C7_no_changes Sample.clean_world "main" true ["/repo"]
           (mkCompleted 0 "" "")); reflexivity.
Defined.

End BasicAnalyzeClaims.

(** ** Sorting by a string key *)

Section SortFacts.

Import Py.

Lemma ascii_compare_lt (x y : ascii) :
  Ascii.compare x y = Lt <-> (N_of_ascii x < N_of_ascii y)%N.
Proof. unfold Ascii.compare. apply N.compare_lt_iff. Qed.

Lemma ascii_compare_eq (x y : ascii) : Ascii.compare x y = Eq <-> x = y.
Proof.
  split; [apply Ascii.compare_eq_iff|].
  intros ->. unfold Ascii.compare. apply N.compare_refl.
Qed.

Lemma string_compare_trans (a : string) :
  forall b c, String.compare a b <> Gt -> String.compare b c <> Gt ->
              String.compare a c <> Gt.
Proof.
  induction a as [|x a IH]; intros [|y b] [|z c]; simpl;
    try congruence.
  destruct (Ascii.compare x y) eqn:Hxy; try congruence.
  - apply ascii_compare_eq in Hxy. subst y.
    destruct (Ascii.compare x z) eqn:Hxz; try congruence.
    apply IH.
  - intros _.
    destruct (Ascii.compare y z) eqn:Hyz; try congruence.
    + apply ascii_compare_eq in Hyz. subst z.
      rewrite Hxy. congruence.
    + intros _.
      pose proof (proj1 (ascii_compare_lt x y) Hxy) as Hxy'.
      pose proof (proj1 (ascii_compare_lt y z) Hyz) as Hyz'.
      assert (Hxz : Ascii.compare x z = Lt)
        by (apply (proj2 (ascii_compare_lt x z)); lia).
      rewrite Hxz. congruence.
Qed.

Lemma string_leb_trans (a b c : string) :
  String.leb a b = true -> String.leb b c = true -> String.leb a c = true.
Proof.
  unfold String.leb. intros Hab Hbc.
  pose proof (string_compare_trans a b c) as H.
  destruct (String.compare a b); destruct (String.compare b c);
    destruct (String.compare a c); try reflexivity; try discriminate;
    exfalso; apply H; congruence.
Qed.

(** [not (b < a)] is [a <= b]. *)
Lemma string_ltb_false_leb (a b : string) :
  String.ltb b a = false -> String.leb a b = true.
Proof.
  unfold String.ltb, String.leb. rewrite (String.compare_antisym a b).
  destruct (String.compare b a); simpl; congruence.
Qed.

Lemma string_ltb_leb (a b : string) :
  String.ltb a b = true -> String.leb a b = true.
Proof.
  unfold String.ltb, String.leb. destruct (String.compare a b); congruence.
Qed.

Context {A : Type} (key : A -> string).

Lemma insert_by_perm (x : A) (l : list A) :
  Permutation (insert_by key x l) (x :: l).
Proof.
  induction l as [|y l IH]; simpl.
  - apply Permutation_refl.
  - destruct (String.ltb (key y) (key x)).
    + apply perm_trans with (y :: x :: l); [apply perm_skip; exact IH|apply perm_swap].
    + apply Permutation_refl.
Qed.

Lemma sort_by_perm (l : list A) : Permutation (sort_by key l) l.
Proof.
  induction l as [|x l IH]; simpl.
  - apply perm_nil.
  - apply perm_trans with (x :: sort_by key l);
      [apply insert_by_perm|apply perm_skip; exact IH].
Qed.

Lemma insert_by_hd (x y : A) (l : list A) :
  key_le key y x -> HdRel (key_le key) y l -> HdRel (key_le key) y (insert_by key x l).
Proof.
  intros Hyx Hhd. destruct l as [|z l]; simpl.
  - constructor. exact Hyx.
  - destruct (String.ltb (key z) (key x)); constructor.
    + inversion Hhd; assumption.
    + exact Hyx.
Qed.

Lemma insert_by_sorted (x : A) (l : list A) :
  Sorted (key_le key) l -> Sorted (key_le key) (insert_by key x l).
Proof.
  induction l as [|y l IH]; intros Hs; simpl.
  - repeat constructor.
  - inversion Hs as [|? ? Hl Hhd]; subst.
    destruct (String.ltb (key y) (key x)) eqn:Hlt.
    + constructor; [apply IH; exact Hl|].
      apply insert_by_hd; [apply string_ltb_leb; exact Hlt|exact Hhd].
    + constructor; [exact Hs|]. constructor.
      apply string_ltb_false_leb. exact Hlt.
Qed.

Lemma sort_by_sorted (l : list A) : Sorted (key_le key) (sort_by key l).
Proof.
  induction l as [|x l IH]; simpl; [constructor|].
  apply insert_by_sorted. exact IH.
Qed.

(** Every element of the sorted list is below all the later ones. *)
Lemma sort_by_strongly_sorted (l : list A) :
  StronglySorted (key_le key) (sort_by key l).
Proof.
  apply Sorted_StronglySorted; [|apply sort_by_sorted].
  intros a b c. unfold key_le. apply string_leb_trans.
Qed.

End SortFacts.

(** ** The template listing *)

Section Listing.

Import Py.

Lemma basic_name_key_entry (w : World) (name : string) :
  Basic.name_key (Basic.template_entry w name) = Path.stem name.
Proof.
  unfold Basic.template_entry.
  destruct (read_text w (Path.join (TEMPLATES_DIR w) name)); reflexivity.
Qed.

(** The basic listing always returns. *)
Lemma basic_get_pr_templates_returns (w : World) :
  exists v, Basic.get_pr_templates w = inr v.
Proof.
  unfold Basic.get_pr_templates, try_except.
  cbn [catch bind ret Monad_either Exception_either].
  destruct (path_exists w (TEMPLATES_DIR w)); cbn [negb].
  - destruct (glob w (TEMPLATES_DIR w) "*.md"); eexists; reflexivity.
  - eexists; reflexivity.
Qed.

(** Without the templates directory the basic listing is an error with no
    template. *)
Lemma basic_get_pr_templates_missing_dir (w : World) :
  path_exists w (TEMPLATES_DIR w) = false ->
  Basic.get_pr_templates w
  = inr (JDict [("error", JStr ("Templates directory not found: " ++ TEMPLATES_DIR w));
                ("templates", JList [])]).
Proof.
  intros H. unfold Basic.get_pr_templates, try_except.
  cbn [catch bind ret Monad_either Exception_either].
  rewrite H. reflexivity.
Qed.

Lemma actions_load_templates_ok (w : World) (content : string -> string)
      (items : dict string) :
  (forall f, In f (keys items) ->
             read_text w (Path.join (TEMPLATES_DIR w) f) = inr (content f)) ->
  Actions.load_templates w items = inr (map (Actions.template_entry content) items).
Proof.
  induction items as [|[f t] items IH]; intros Hread; simpl.
  - reflexivity.
  - rewrite (Hread f) by (left; reflexivity).
    rewrite IH by (intros g Hg; apply Hread; right; exact Hg).
    reflexivity.
Qed.

Lemma actions_load_templates_filenames (w : World) (items : dict string) :
  forall ts, Actions.load_templates w items = inr ts ->
             map (str_field "filename") ts = keys items
             /\ map (str_field "type") ts = values items.
Proof.
  induction items as [|[f t] items IH]; intros ts; simpl.
  - intros [= <-]. split; reflexivity.
  - destruct (read_text w (Path.join (TEMPLATES_DIR w) f)) as [e|c]; [discriminate|].
    destruct (Actions.load_templates w items) as [e|ts']; [discriminate|].
    intros [= <-]. destruct (IH ts' eq_refl) as [Hf Ht].
    simpl. unfold keys, values in *. rewrite Hf, Ht. split; reflexivity.
Qed.

(** The first template that cannot be read ends the listing of the server
    with GitHub Actions tools with its exception. *)
Lemma actions_load_templates_raises (w : World) (e : exn) (f t : string)
      (items : dict string) :
  read_text w (Path.join (TEMPLATES_DIR w) f) = inl e ->
  Actions.load_templates w ((f, t) :: items) = inl e.
Proof. intros H. simpl. rewrite H. reflexivity. Qed.

(** C1. The listing of the server with GitHub Actions tools has no handler:
    when the first template cannot be read (so when the templates directory
    is missing), [get_pr_templates] returns no JSON result and the
    exception of the read leaves the tool. *)
Theorem C1_actions_listing_raises (w : World) (e : exn) :
  read_text w (Path.join (TEMPLATES_DIR w) "bug.md") = inl e ->
  Actions.get_pr_templates w = inl e.
Proof.
  intros H. unfold Actions.get_pr_templates, Actions.DEFAULT_TEMPLATES.
  cbn [bind Monad_either].
  rewrite (actions_load_templates_raises w e _ _ _ H). reflexivity.
Qed.

Lemma C1_actions_listing_raises_witness :
  Actions.get_pr_templates Sample.no_templates_world
  = inl (Sample.no_such_file "/srv/templates/bug.md").
Proof.
  apply (C1_actions_listing_raises Sample.no_templates_world). reflexivity.
Defined.

(** C8, claim as stated, fails: on a world with every template, the listing
    of the server with GitHub Actions tools is in the order of
    [DEFAULT_TEMPLATES], which is sorted neither by file name nor by type. *)
Lemma C8_counterexample :
  exists ts, Actions.get_pr_templates Sample.clean_world = inr (JList ts)
    /\ map (str_field "filename") ts
       = ["bug.md"; "feature.md"; "docs.md"; "refactor.md"; "test.md";
          "performance.md"; "security.md"]
    /\ ~ Sorted (key_le (str_field "filename")) ts
    /\ ~ Sorted (key_le (str_field "type")) ts.
Proof.
  eexists. split; [reflexivity|]. split; [reflexivity|].
  split; intros Hs;
    inversion Hs as [|? ? Hs1 _]; subst;
    inversion Hs1 as [|? ? _ Hhd]; subst;
    inversion Hhd as [|? ? Hle]; subst;
    vm_compute in Hle; discriminate Hle.
Qed.

(** C8, amended. The basic listing is sorted by template name whatever the
    order in which the directory is enumerated, and holds exactly the
    entries of the enumerated files; the listing of the server with GitHub
    Actions tools, when it returns, is in the declaration order of
    [DEFAULT_TEMPLATES]. *)
Theorem C8_listing_order (w : World) :
  (forall files,
      path_exists w (TEMPLATES_DIR w) = true ->
      glob w (TEMPLATES_DIR w) "*.md" = inr files ->
      exists ts, Basic.get_pr_templates w = inr (JList ts)
        /\ StronglySorted (key_le Basic.name_key) ts
        /\ Permutation ts (map (Basic.template_entry w) files))
  /\ (forall v,
        Actions.get_pr_templates w = inr v ->
        exists ts, v = JList ts
          /\ map (str_field "filename") ts = keys Actions.DEFAULT_TEMPLATES
          /\ map (str_field "type") ts = values Actions.DEFAULT_TEMPLATES).
Proof.
  split.
  - intros files Hdir Hglob.
    unfold Basic.get_pr_templates, try_except.
    cbn [catch bind ret Monad_either Exception_either].
    rewrite Hdir, Hglob. cbn [negb].
    eexists. split; [reflexivity|]. split.
    + apply sort_by_strongly_sorted.
    + apply sort_by_perm.
  - intros v. unfold Actions.get_pr_templates. cbn [bind ret Monad_either].
    destruct (Actions.load_templates w Actions.DEFAULT_TEMPLATES) as [e|ts] eqn:Hload;
      [discriminate|].
    intros [= <-]. exists ts. split; [reflexivity|].
    apply (actions_load_templates_filenames w _ ts Hload).
Qed.

Lemma C8_listing_order_witness :
  (exists ts, Basic.get_pr_templates Sample.clean_world = inr (JList ts)
     /\ StronglySorted (key_le Basic.name_key) ts
     /\ Permutation ts (map (Basic.template_entry Sample.clean_world)
                             Sample.all_templates))
  /\ (exists ts,
        Actions.get_pr_templates Sample.clean_world = inr (JList ts)
        /\ map (str_field "filename") ts = keys Actions.DEFAULT_TEMPLATES
        /\ map (str_field "type") ts = values Actions.DEFAULT_TEMPLATES).
Proof.
  destruct (C8_listing_order Sample.clean_world) as [Hbasic Hactions].
  split.
  - apply (Hbasic Sample.all_templates); reflexivity.
  - destruct (Hactions _ eq_refl) as (ts & Hv & Hf & Ht).
    exists ts. split; [rewrite <- Hv; reflexivity|]. split; assumption.
Defined.

End Listing.

(** ** Template resolution *)

Section Resolution.

Import Py.

Lemma find_first_match {A} (f : A -> bool) (l1 l2 : list A) (x : A) :
  (forall y, In y l1 -> f y = false) -> f x = true ->
  find f (l1 ++ x :: l2)%list = Some x.
Proof.
  intros Hl1 Hx. induction l1 as [|y l1 IH]; simpl.
  - rewrite Hx. reflexivity.
  - rewrite (Hl1 y) by (left; reflexivity).
    apply IH. intros z Hz. apply Hl1. right. exact Hz.
Qed.

Lemma find_no_match {A} (f : A -> bool) (l : list A) :
  (forall y, In y l -> f y = false) -> find f l = None.
Proof.
  intros Hl. induction l as [|y l IH]; simpl; [reflexivity|].
  rewrite (Hl y) by (left; reflexivity).
  apply IH. intros z Hz. apply Hl. right. exact Hz.
Qed.

(** Every template file of the basic table has a non-empty name. *)
Lemma basic_mapping_values_truthy (key file : string) :
  In (key, file) Basic.template_mappings -> truthy_str file = true.
Proof.
  unfold Basic.template_mappings. simpl.
  intros H.
  repeat (destruct H as [H|H]; [injection H as _ <-; reflexivity|]).
  contradiction.
Qed.

(** No exact match, and a first partial match in declaration order. *)
Lemma basic_resolve_first_match (change_type key file : string)
      (l1 l2 : dict string) :
  dict_get (strip (lower change_type)) Basic.template_mappings = None ->
  Basic.template_mappings = (l1 ++ (key, file) :: l2)%list ->
  (forall it, In it l1 -> Basic.partial_match (strip (lower change_type)) it = false) ->
  Basic.partial_match (strip (lower change_type)) (key, file) = true ->
  Basic.resolve change_type = (file, false).
Proof.
  intros Hget Hsplit Hl1 Hmatch.
  assert (Htruthy : truthy_str file = true).
  { apply (basic_mapping_values_truthy key). rewrite Hsplit.
    apply in_or_app. right. left. reflexivity. }
  unfold Basic.resolve. cbv zeta. rewrite Hget. cbn [Basic.falsy].
  rewrite Hsplit, (find_first_match _ l1 l2 (key, file) Hl1 Hmatch).
  cbn [Basic.falsy]. rewrite Htruthy. reflexivity.
Qed.

(** No exact match and no partial match: the default. *)
Lemma basic_resolve_fallback (change_type : string) :
  dict_get (strip (lower change_type)) Basic.template_mappings = None ->
  (forall it, In it Basic.template_mappings ->
              Basic.partial_match (strip (lower change_type)) it = false) ->
  Basic.resolve change_type = ("feature.md", true).
Proof.
  intros Hget Hnone.
  unfold Basic.resolve. cbv zeta. rewrite Hget. cbn [Basic.falsy].
  rewrite (find_no_match _ _ Hnone). reflexivity.
Qed.

(** What the basic [suggest_template] returns once the resolved template
    file is there and can be read. *)
Lemma basic_suggest_found (w : World) (changes_summary change_type : string)
      (file content : string) (fallback : bool) :
  Basic.resolve change_type = (file, fallback) ->
  path_exists w (Path.join (TEMPLATES_DIR w) file) = true ->
  read_text w (Path.join (TEMPLATES_DIR w) file) = inr content ->
  exists d, Basic.suggest_template w changes_summary change_type = inr (JDict d)
    /\ dict_get "recommended_template" d = Some (JStr file)
    /\ dict_get "template_content" d = Some (JStr content)
    /\ dict_get "fallback_used" d = Some (JBool fallback).
Proof.
  intros Hres Hexists Hread.
  unfold Basic.suggest_template, try_except. rewrite Hres.
  cbn [catch bind ret Monad_either Exception_either].
  rewrite Hexists, Hread.
  destruct fallback; eexists; (split; [reflexivity|]); repeat split; reflexivity.
Qed.

(** The basic [suggest_template] always returns. *)
Lemma basic_suggest_returns (w : World) (changes_summary change_type : string) :
  exists v, Basic.suggest_template w changes_summary change_type = inr v.
Proof.
  unfold Basic.suggest_template, try_except.
  destruct (Basic.resolve change_type) as [file fallback].
  cbn [catch bind ret Monad_either Exception_either].
  destruct (path_exists w (Path.join (TEMPLATES_DIR w) file));
    [|eexists; reflexivity].
  destruct (read_text w (Path.join (TEMPLATES_DIR w) file));
    eexists; reflexivity.
Qed.

(** What the [suggest_template] of the server with GitHub Actions tools
    returns when every default template can be read. *)
Lemma actions_suggest_found (w : World) (changes_summary change_type : string)
      (content : string -> string) :
  (forall f, In f (keys Actions.DEFAULT_TEMPLATES) ->
             read_text w (Path.join (TEMPLATES_DIR w) f) = inr (content f)) ->
  In (Actions.resolve change_type) (keys Actions.DEFAULT_TEMPLATES) ->
  exists r, Actions.suggest_template w changes_summary change_type = inr r
    /\ recommended_file r = Actions.resolve change_type
    /\ field "template_content" r
       = Some (JStr (content (Actions.resolve change_type)))
    /\ field "fallback_used" r = None.
Proof.
  intros Hread Hin.
  unfold Actions.suggest_template, Actions.get_pr_templates.
  rewrite (actions_load_templates_ok w content _ Hread).
  cbn [bind ret Monad_either].
  destruct (Actions.resolve change_type) eqn:Hres; simpl in Hin.
  - repeat (destruct Hin as [Hin|Hin]; [discriminate Hin|]). contradiction.
  - rewrite <- Hres in *. clear Hres.
    repeat (destruct Hin as [Hin|Hin];
            [rewrite <- Hin; eexists; split; [reflexivity|];
             repeat split; reflexivity|]).
    contradiction.
Qed.

(** C4, claim as stated, fails: "bugfix" is not a key of [TYPE_MAPPING], so
    the server with GitHub Actions tools recommends the feature template
    for it, and its result has no [fallback_used]. *)
Lemma C4_counterexample :
  exists r, Actions.suggest_template Sample.clean_world
              "Fixed null pointer" "bugfix" = inr r
    /\ recommended_file r = "feature.md"
    /\ recommended_file r <> "bug.md"
    /\ field "fallback_used" r <> Some (JBool false).
Proof.
  eexists. split; [reflexivity|]. repeat split; discriminate.
Qed.

(** C4, amended. The basic server resolves "bugfix", "fix" and "BUG" to
    [bug.md] with [fallback_used] false, when that file is there and can be
    read.  In the server with GitHub Actions tools the lookup of line 158
    sends "fix" and "BUG" to [bug.md] and "bugfix", which is no key of
    [TYPE_MAPPING], to [feature.md]; when every default template can be
    read, [suggest_template] returns the template so resolved, and its
    result has no [fallback_used]. *)
Theorem C4_bug_synonyms (w : World) (changes_summary : string) :
  (forall change_type content,
      In change_type ["bugfix"; "fix"; "BUG"] ->
      path_exists w (Path.join (TEMPLATES_DIR w) "bug.md") = true ->
      read_text w (Path.join (TEMPLATES_DIR w) "bug.md") = inr content ->
      exists d, Basic.suggest_template w changes_summary change_type = inr (JDict d)
        /\ dict_get "recommended_template" d = Some (JStr "bug.md")
        /\ dict_get "template_content" d = Some (JStr content)
        /\ dict_get "fallback_used" d = Some (JBool false))
  /\ (Actions.resolve "fix" = "bug.md"
      /\ Actions.resolve "BUG" = "bug.md"
      /\ Actions.resolve "bugfix" = "feature.md")
  /\ (forall content,
        (forall f, In f (keys Actions.DEFAULT_TEMPLATES) ->
                   read_text w (Path.join (TEMPLATES_DIR w) f) = inr (content f)) ->
        (forall change_type,
            In change_type ["fix"; "BUG"] ->
            exists r, Actions.suggest_template w changes_summary change_type = inr r
              /\ recommended_file r = "bug.md"
              /\ field "fallback_used" r = None)
        /\ (exists r, Actions.suggest_template w changes_summary "bugfix" = inr r
              /\ recommended_file r = "feature.md"
              /\ field "fallback_used" r = None)).
Proof.
  split; [|split].
  - intros change_type content Hin Hexists Hread.
    apply basic_suggest_found; [|exact Hexists|exact Hread].
    simpl in Hin.
    repeat (destruct Hin as [<-|Hin]; [reflexivity|]). contradiction.
  - repeat split; reflexivity.
  - intros content Hread. split.
    + intros change_type Hin.
      assert (Hres : Actions.resolve change_type = "bug.md").
      { simpl in Hin.
        repeat (destruct Hin as [<-|Hin]; [reflexivity|]). contradiction. }
      destruct (actions_suggest_found w changes_summary change_type content Hread)
        as (r & Hr & Hfile & _ & Hfb).
      { rewrite Hres. simpl. auto. }
      exists r. rewrite <- Hres. auto.
    + destruct (actions_suggest_found w changes_summary "bugfix" content Hread)
        as (r & Hr & Hfile & _ & Hfb).
      { simpl. auto. }
      exists r. auto.
Qed.

Lemma C4_bug_synonyms_witness :
  (exists d, Basic.suggest_template Sample.clean_world "Fixed null pointer" "BUG"
             = inr (JDict d)
     /\ dict_get "recommended_template" d = Some (JStr "bug.md")
     /\ dict_get "template_content" d = Some (JStr "# /srv/templates/bug.md")
     /\ dict_get "fallback_used" d = Some (JBool false))
  /\ (exists r, Actions.suggest_template Sample.clean_world "Fixed null pointer" "BUG"
                = inr r
        /\ recommended_file r = "bug.md"
        /\ field "fallback_used" r = None)
  /\ (exists r, Actions.suggest_template Sample.clean_world "Fixed null pointer" "bugfix"
                = inr r
        /\ recommended_file r = "feature.md"
        /\ field "fallback_used" r = None).
Proof.
  destruct (C4_bug_synonyms Sample.clean_world "Fixed null pointer")
    as (Hbasic & _ & Hactions).
  split.
  - apply Hbasic; [simpl; auto|reflexivity|reflexivity].
  - destruct (Hactions (fun f => "# " ++ Path.join Sample.templates_dir f))
      as [Hfix Hbugfix].
    + intros f Hf. simpl in Hf.
      repeat (destruct Hf as [<-|Hf]; [reflexivity|]). contradiction.
    + split; [apply Hfix; simpl; auto|exact Hbugfix].
Defined.

(** C5, claim as stated, fails: on a change type that matches no key of
    [TYPE_MAPPING], exactly or by substring, the result of the server with
    GitHub Actions tools has no [fallback_used]. *)
Lemma C5_counterexample :
  forallb (fun key => negb (contains key "something-unrecognized"
                            || contains "something-unrecognized" key))
          (keys Actions.TYPE_MAPPING) = true
  /\ exists r, Actions.suggest_template Sample.clean_world
                 "Renamed things" "something-unrecognized" = inr r
       /\ recommended_file r = "feature.md"
       /\ field "fallback_used" r <> Some (JBool true).
Proof.
  split; [reflexivity|].
  eexists. split; [reflexivity|]. split; [reflexivity|discriminate].
Qed.

(** C5, amended. In the basic server a change type with no exact and no
    partial match resolves to [feature.md] with [fallback_used] true, when
    that file is there and can be read.  In the server with GitHub Actions
    tools the lookup of line 158 sends a change type whose lowercase form
    is no key of [TYPE_MAPPING] to [feature.md]; when every default
    template can be read, [suggest_template] returns the feature
    template for it, and the result has no [fallback_used]. *)
Theorem C5_default_template (w : World) (changes_summary change_type : string) :
  (dict_get (strip (lower change_type)) Basic.template_mappings = None ->
   (forall it, In it Basic.template_mappings ->
               Basic.partial_match (strip (lower change_type)) it = false) ->
   forall content,
     path_exists w (Path.join (TEMPLATES_DIR w) "feature.md") = true ->
     read_text w (Path.join (TEMPLATES_DIR w) "feature.md") = inr content ->
     exists d, Basic.suggest_template w changes_summary change_type = inr (JDict d)
       /\ dict_get "recommended_template" d = Some (JStr "feature.md")
       /\ dict_get "template_content" d = Some (JStr content)
       /\ dict_get "fallback_used" d = Some (JBool true))
  /\ (dict_get (lower change_type) Actions.TYPE_MAPPING = None ->
      Actions.resolve change_type = "feature.md"
      /\ forall content,
          (forall f, In f (keys Actions.DEFAULT_TEMPLATES) ->
                     read_text w (Path.join (TEMPLATES_DIR w) f) = inr (content f)) ->
          exists r, Actions.suggest_template w changes_summary change_type = inr r
            /\ recommended_file r = "feature.md"
            /\ field "template_content" r = Some (JStr (content "feature.md"))
            /\ field "fallback_used" r = None).
Proof.
  split.
  - intros Hget Hnone content Hexists Hread.
    apply basic_suggest_found; [|exact Hexists|exact Hread].
    apply basic_resolve_fallback; assumption.
  - intros Hget.
    assert (Hres : Actions.resolve change_type = "feature.md")
      by (unfold Actions.resolve; rewrite Hget; reflexivity).
    split; [exact Hres|]. intros content Hread.
    destruct (actions_suggest_found w changes_summary change_type content Hread)
      as (r & Hr & Hfile & Hcontent & Hfb).
    { rewrite Hres. simpl. auto. }
    exists r. rewrite <- Hres. auto.
Qed.

Lemma C5_default_template_witness :
  (exists d, Basic.suggest_template Sample.clean_world
               "Renamed things" "something-unrecognized" = inr (JDict d)
     /\ dict_get "recommended_template" d = Some (JStr "feature.md")
     /\ dict_get "template_content" d = Some (JStr "# /srv/templates/feature.md")
     /\ dict_get "fallback_used" d = Some (JBool true))
  /\ Actions.resolve "something-unrecognized" = "feature.md"
  /\ (exists r, Actions.suggest_template Sample.clean_world
                  "Renamed things" "something-unrecognized" = inr r
        /\ recommended_file r = "feature.md"
        /\ field "template_content" r = Some (JStr "# /srv/templates/feature.md")
        /\ field "fallback_used" r = None).
Proof.
  destruct (C5_default_template Sample.clean_world
              "Renamed things" "something-unrecognized") as [Hbasic Hactions].
  split.
  - apply Hbasic; try reflexivity.
    intros it Hit. unfold Basic.template_mappings in Hit. simpl in Hit.
    repeat (destruct Hit as [<-|Hit]; [reflexivity|]). contradiction.
  - destruct (Hactions eq_refl) as [Hlookup Hsuggest].
    split; [exact Hlookup|].
    apply (Hsuggest (fun f => "# " ++ Path.join Sample.templates_dir f)).
    intros f Hf. simpl in Hf.
    repeat (destruct Hf as [<-|Hf]; [reflexivity|]). contradiction.
Defined.

(** C6. When the exact lookup fails, [suggest_template] takes the template
    of the first key, in the declaration order of the table, that is a
    substring of the normalized change type or has it as a substring,
    whatever the later keys that match too. *)
Theorem C6_first_match_wins (change_type key file : string)
        (l1 l2 : dict string) :
  dict_get (strip (lower change_type)) Basic.template_mappings = None ->
  Basic.template_mappings = (l1 ++ (key, file) :: l2)%list ->
  (forall it, In it l1 ->
              Basic.partial_match (strip (lower change_type)) it = false) ->
  Basic.partial_match (strip (lower change_type)) (key, file) = true ->
  Basic.resolve change_type = (file, false)
  /\ forall w changes_summary content,
      path_exists w (Path.join (TEMPLATES_DIR w) file) = true ->
      read_text w (Path.join (TEMPLATES_DIR w) file) = inr content ->
      exists d, Basic.suggest_template w changes_summary change_type = inr (JDict d)
        /\ dict_get "recommended_template" d = Some (JStr file)
        /\ dict_get "fallback_used" d = Some (JBool false).
Proof.
  intros Hget Hsplit Hl1 Hmatch.
  pose proof (basic_resolve_first_match change_type key file l1 l2
                Hget Hsplit Hl1 Hmatch) as Hres.
  split; [exact Hres|].
  intros w changes_summary content Hexists Hread.
  destruct (basic_suggest_found w changes_summary change_type file content false
              Hres Hexists Hread) as (d & Hd & Hfile & _ & Hfb).
  exists d. auto.
Qed.

(** "docs-test" has no exact match; "docs", "doc" and "test" all match it,
    and "docs" is declared first. *)
Lemma C6_first_match_wins_witness :
  List.length (filter (Basic.partial_match "docs-test") Basic.template_mappings) = 3%nat
  /\ Basic.resolve "docs-test" = ("docs.md", false)
  /\ exists d, Basic.suggest_template Sample.clean_world "Notes and checks" "docs-test"
               = inr (JDict d)
       /\ dict_get "recommended_template" d = Some (JStr "docs.md")
       /\ dict_get "fallback_used" d = Some (JBool false).
Proof.
  split; [reflexivity|].
  destruct (C6_first_match_wins "docs-test" "docs" "docs.md"
              (firstn 6 Basic.template_mappings) (skipn 7 Basic.template_mappings)
              eq_refl eq_refl) as [Hres Hsuggest].
  - intros it Hit. simpl in Hit.
    repeat (destruct Hit as [<-|Hit]; [reflexivity|]). contradiction.
  - reflexivity.
  - split; [exact Hres|].
    apply (Hsuggest Sample.clean_world "Notes and checks" "# /srv/templates/docs.md");
      reflexivity.
Defined.

End Resolution.

(** ** Failures of the full diff *)

Section DiffFailure.

Import Py.

(** The basic server reports a failed full diff in [diff_error], with an
    empty [diff]. *)
Lemma basic_diff_failure_surfaced (w : World) (base_branch : string)
      (roots : list string) (files diff : CompletedProcess) :
  list_roots w = inr roots ->
  run w ["git"; "diff"; "--name-status"; base_branch]
      (Some (Basic.working_dir roots)) = inr files ->
  returncode files = 0 ->
  truthy_list (Basic.parse_files (stdout files)) = true ->
  run w ["git"; "diff"; base_branch] (Some (Basic.working_dir roots)) = inr diff ->
  returncode diff <> 0 ->
  Basic.analyze_file_changes w base_branch true
  = inr (JDict [("files_changed", JList (Basic.parse_files (stdout files)));
                ("total_files", JInt (list_len (Basic.parse_files (stdout files))));
                ("diff", JStr "");
                ("diff_error", JStr (stderr diff))]).
Proof.
  intros Hroots Hfiles Hcode Htruthy Hdiff Hdcode.
  rewrite (analyze_reaches_diff w base_branch roots files Hroots Hfiles Hcode Htruthy).
  cbv zeta. rewrite Hdiff.
  destruct (Z.eqb_spec (returncode diff) 0) as [H0|_]; [contradiction|].
  reflexivity.
Qed.

(** The basic [analyze_file_changes] always returns. *)
Lemma basic_analyze_returns (w : World) (base_branch : string) (include_diff : bool) :
  exists v, Basic.analyze_file_changes w base_branch include_diff = inr v.
Proof.
  unfold Basic.analyze_file_changes, try_except.
  cbn [catch bind ret Monad_either Exception_either].
  destruct (list_roots w) as [e|roots]; [eexists; reflexivity|].
  destruct (run w _ _) as [e|files]; [eexists; reflexivity|].
  destruct (negb (returncode files =? 0)); [eexists; reflexivity|].
  destruct (include_diff && truthy_list (Basic.parse_files (stdout files)))%bool;
    [|eexists; reflexivity].
  destruct (run w _ _) as [e|diff]; [eexists; reflexivity|].
  destruct (returncode diff =? 0); eexists; reflexivity.
Qed.

(** C9. In the server with GitHub Actions tools the exit status of the full
    diff is not looked at: when it is non-zero the tool still returns the
    usual analysis, built from the standard output of the diff, and the
    error stream of the diff is in no field of it. *)
Theorem C9_actions_diff_stderr_dropped (w : World) (base_branch : string)
        (max_diff_lines : Z) (files stat diff commits : CompletedProcess) :
  run w ["git"; "diff"; "--name-status"; base_branch ++ "...HEAD"] None = inr files ->
  returncode files = 0 ->
  run w ["git"; "diff"; "--stat"; base_branch ++ "...HEAD"] None = inr stat ->
  run w ["git"; "diff"; base_branch ++ "...HEAD"] None = inr diff ->
  returncode diff <> 0 ->
  run w ["git"; "log"; "--oneline"; base_branch ++ "..HEAD"] None = inr commits ->
  Actions.analyze_file_changes w base_branch true max_diff_lines
  = inr (JDict [("base_branch", JStr base_branch);
                ("files_changed", JStr (stdout files));
                ("statistics", JStr (stdout stat));
                ("commits", JStr (stdout commits));
                ("diff", JStr (fst (Actions.limit_lines max_diff_lines (stdout diff))));
                ("truncated", JBool (snd (Actions.limit_lines max_diff_lines (stdout diff))));
                ("total_diff_lines", JInt (list_len (split NL (stdout diff))))]).
Proof.
  intros Hfiles Hcode Hstat Hdiff _ Hcommits.
  unfold Actions.analyze_file_changes, checked.
  cbn [catch bind ret Monad_either Exception_either].
  rewrite Hfiles, Hcode. cbn [Z.eqb]. rewrite Hstat, Hdiff.
  destruct (Actions.limit_lines max_diff_lines (stdout diff)) as [shown truncated].
  rewrite Hcommits. reflexivity.
Qed.

(** The full diff exits with status 128 and "fatal: bad revision" on its
    error stream. *)
Lemma C9_actions_diff_stderr_dropped_witness :
  Actions.analyze_file_changes Sample.diff_fails_world "main" true 500
  = inr (JDict [("base_branch", JStr "main");
                ("files_changed", JStr Sample.two_files);
                ("statistics", JStr "");
                ("commits", JStr "");
                ("diff", JStr "");
                ("truncated", JBool false);
                ("total_diff_lines", JInt 1)]).
Proof.
  apply (C9_actions_diff_stderr_dropped Sample.diff_fails_world "main" 500
           (mkCompleted 0 Sample.two_files "")
           (mkCompleted 0 "" "")
           (mkCompleted 128 "" "fatal: bad revision")
           (mkCompleted 0 "" ""));
    try reflexivity.
  discriminate.
Defined.

End DiffFailure.

(** ** Recent events *)

Section RecentEvents.

Import Py.

Lemma list_len_firstn {A} (n : nat) (l : list A) :
  list_len (firstn n l) = Z.min (Z.of_nat n) (list_len l).
Proof. unfold list_len. rewrite length_firstn. lia. Qed.

Lemma firstn_min {A} (n : nat) (l : list A) :
  firstn n l = firstn (Nat.min n (List.length l)) l.
Proof.
  rewrite <- (firstn_firstn l). rewrite firstn_all. reflexivity.
Qed.

(** [l[:limit]] for a limit that is not negative. *)
Lemma slice_to_nonneg {A} (limit : Z) (l : list A) :
  0 <= limit ->
  slice_to limit l = firstn (Z.to_nat (Z.min limit (list_len l))) l.
Proof.
  intros Hlimit. unfold slice_to.
  destruct (Z.ltb_spec limit 0) as [Hneg|_]; [lia|].
  rewrite (firstn_min (Z.to_nat limit)). f_equal. unfold list_len. lia.
Qed.

(** [l[:limit]] for a negative limit. *)
Lemma slice_to_negative {A} (limit : Z) (l : list A) :
  limit < 0 ->
  slice_to limit l = firstn (Z.to_nat (Z.max 0 (list_len l + limit))) l.
Proof.
  intros Hlimit. unfold slice_to.
  destruct (Z.ltb_spec limit 0) as [_|Hpos]; [|lia].
  f_equal. lia.
Qed.

(** C10, claim as stated, fails: with three stored events and limit -1 the
    tool shows two events, not the first [min(-1, 3)]. *)
Lemma C10_counterexample :
  Actions.get_recent_actions_events Sample.big_diff_world (-1)
  = inr (JDict [("events", JList [JInt 1; JInt 2]);
                ("total_events", JInt 3);
                ("showing", JInt 2)])
  /\ [JInt 1; JInt 2]
     <> firstn (Z.to_nat (Z.min (-1) 3)) [JInt 1; JInt 2; JInt 3]
  /\ 2 <> Z.min (-1) 3.
Proof.
  split; [reflexivity|]. split; [discriminate|lia].
Qed.

(** What the tool shows for a negative limit: the slice drops the last
    [-limit] events. *)
Lemma actions_recent_events_negative_limit (w : World) (limit : Z) (l : list json) :
  path_exists w (EVENTS_FILE w) = true ->
  json_load w (EVENTS_FILE w) = inr (JList l) ->
  limit < 0 ->
  Actions.get_recent_actions_events w limit
  = inr (JDict [("events",
                  JList (firstn (Z.to_nat (Z.max 0 (list_len l + limit))) l));
                ("total_events", JInt (list_len l));
                ("showing", JInt (Z.max 0 (list_len l + limit)))]).
Proof.
  intros Hexists Hload Hlimit.
  unfold Actions.get_recent_actions_events.
  cbn [catch bind ret Monad_either Exception_either].
  rewrite Hexists, Hload. cbn [negb].
  rewrite slice_to_negative by exact Hlimit.
  rewrite list_len_firstn.
  replace (Z.min (Z.of_nat (Z.to_nat (Z.max 0 (list_len l + limit)))) (list_len l))
    with (Z.max 0 (list_len l + limit)) by (unfold list_len; lia).
  reflexivity.
Qed.

(** C10, amended. When the events file parses to a value that is not a list,
    the result has no event, [total_events] 0, [showing] 0 and no [error].
    When it parses to a list of [n] events and the limit is not negative,
    the events shown are the first [min(limit, n)] of the list in stored
    order, [showing] is their number and [total_events] is [n]. *)
Theorem C10_recent_events (w : World) (limit : Z) (events : json) :
  path_exists w (EVENTS_FILE w) = true ->
  json_load w (EVENTS_FILE w) = inr events ->
  ((forall l, events <> JList l) ->
   Actions.get_recent_actions_events w limit
   = inr (JDict [("events", JList []);
                 ("total_events", JInt 0);
                 ("showing", JInt 0)]))
  /\ (forall l, events = JList l -> 0 <= limit ->
      Actions.get_recent_actions_events w limit
      = inr (JDict [("events",
                      JList (firstn (Z.to_nat (Z.min limit (list_len l))) l));
                    ("total_events", JInt (list_len l));
                    ("showing", JInt (Z.min limit (list_len l)))])).
Proof.
  intros Hexists Hload.
  unfold Actions.get_recent_actions_events.
  cbn [catch bind ret Monad_either Exception_either].
  rewrite Hexists, Hload. cbn [negb].
  split.
  - intros Hnot. destruct events; try reflexivity.
    exfalso. apply (Hnot l). reflexivity.
  - intros l -> Hlimit. rewrite slice_to_nonneg by exact Hlimit.
    rewrite list_len_firstn.
    replace (Z.min (Z.of_nat (Z.to_nat (Z.min limit (list_len l)))) (list_len l))
      with (Z.min limit (list_len l)) by (unfold list_len; lia).
    reflexivity.
Qed.

(** Three stored events and a limit of 2; an events file that holds an
    object instead of a list. *)
Lemma C10_recent_events_witness :
  Actions.get_recent_actions_events Sample.big_diff_world 2
  = inr (JDict [("events", JList [JInt 1; JInt 2]);
                ("total_events", JInt 3);
                ("showing", JInt 2)])
  /\ Actions.get_recent_actions_events Sample.odd_events_world 2
     = inr (JDict [("events", JList []);
                   ("total_events", JInt 0);
                   ("showing", JInt 0)]).
Proof.
  destruct (C10_recent_events Sample.big_diff_world 2
              (JList [JInt 1; JInt 2; JInt 3]) eq_refl eq_refl)
    as (_ & Hlist).
  destruct (C10_recent_events Sample.odd_events_world 2
              (JDict [("events", JList [])]) eq_refl eq_refl)
    as (Hother & _).
  split.
  - apply (Hlist _ eq_refl). lia.
  - apply Hother. intros l. discriminate.
Defined.

End RecentEvents.

(** * Further properties of the two servers *)

(** ** Prefixes of strings *)

Section PrefixFacts.

Import Py.

Lemma prefix_refl (s : string) : String.prefix s s = true.
Proof.
  induction s as [|c s IH]; simpl; [reflexivity|].
  destruct (ascii_dec c c) as [_|Hne]; [exact IH|contradiction].
Qed.

Lemma prefix_append (a b : string) : String.prefix a (a ++ b) = true.
Proof.
  induction a as [|c a IH]; simpl; [destruct b; reflexivity|].
  destruct (ascii_dec c c) as [_|Hne]; [exact IH|contradiction].
Qed.

Lemma prefix_append_cancel (a b c : string) :
  String.prefix (a ++ b) (a ++ c) = String.prefix b c.
Proof.
  induction a as [|x a IH]; simpl; [reflexivity|].
  destruct (ascii_dec x x) as [_|Hne]; [exact IH|contradiction].
Qed.

(** The first [k] lines joined are a literal prefix of all the lines
    joined. *)
Lemma join_firstn_prefix (l : list string) :
  forall k, String.prefix (join (String NL "") (firstn k l)) (join (String NL "") l) = true.
Proof.
  induction l as [|x l IH]; intros k.
  - rewrite firstn_nil. reflexivity.
  - destruct k as [|k]; [destruct (join (String NL "") (x :: l)); reflexivity|].
    rewrite firstn_cons. destruct l as [|y l].
    + rewrite firstn_nil. apply prefix_refl.
    + specialize (IH k).
      change (join (String NL "") (x :: y :: l))
        with (x ++ (String NL "" ++ join (String NL "") (y :: l))).
      destruct (firstn k (y :: l)) as [|z t] eqn:Hf.
      * apply prefix_append.
      * change (join (String NL "") (x :: z :: t))
          with (x ++ (String NL "" ++ join (String NL "") (z :: t))).
        rewrite !prefix_append_cancel. exact IH.
Qed.

End PrefixFacts.

(** ** More on [analyze_file_changes] of the basic server *)

Section BasicAnalyzeMore.

Import Py.

(** The loop of lines 84-88 stops at the first line that does not fit: the
    lines kept are within the budget and one more line is not. *)
Lemma take_lines_maximal (budget : Z) (lines : list string) :
  forall (acc : list string) (count : Z),
  exists k, (k <= List.length lines)%nat
    /\ Basic.take_lines budget lines acc count = (acc ++ firstn k lines)%list
    /\ (k = O \/ count + cost (firstn k lines) <= budget)
    /\ ((k < List.length lines)%nat ->
        budget < count + cost (firstn (S k) lines)).
Proof.
  induction lines as [|line rest IH]; intros acc count; simpl Basic.take_lines.
  - exists O. rewrite app_nil_r. simpl. repeat split; auto. lia.
  - destruct (Z.gtb_spec (count + len line + 1) budget) as [Hgt|Hle].
    + exists O. simpl firstn. rewrite app_nil_r.
      repeat split; auto with arith. intros _. simpl. lia.
    + destruct (IH (acc ++ [line])%list (count + len line + 1))
        as (k & Hk & Heq & Hc & Hnext).
      exists (S k). split; [simpl; lia|]. split; [|split].
      * rewrite Heq, <- app_assoc. reflexivity.
      * right. simpl firstn. simpl cost.
        destruct Hc as [->|Hc]; [simpl; lia|lia].
      * intros Hlt. simpl List.length in Hlt.
        assert (Hk' : (k < List.length rest)%nat) by lia.
        specialize (Hnext Hk').
        change (firstn (S (S k)) (line :: rest)) with (line :: firstn (S k) rest).
        simpl cost. simpl cost in Hnext. lia.
Qed.

Lemma cost_split (d : string) : cost (split NL d) = len d + 1.
Proof.
  pose proof (len_join (split NL d) (split_not_nil NL d)) as H.
  rewrite join_split in H. lia.
Qed.

(** X4. A diff over the budget is cut at the longest prefix of whole lines
    that fits: the [k] lines kept cost at most the budget, there is a next
    line, and with it the budget is exceeded. *)
Theorem basic_truncate_longest_prefix (budget : Z) (d : string) (result : dict json) :
  budget < len d ->
  exists k, (k < List.length (split NL d))%nat
    /\ dict_get "diff" (Basic.truncate budget d result)
       = Some (JStr (join Basic.NLs (firstn k (split NL d))))
    /\ (k = O \/ cost (firstn k (split NL d)) <= budget)
    /\ budget < cost (firstn (S k) (split NL d)).
Proof.
  intros Hover. unfold Basic.truncate.
  destruct (Z.gtb_spec (len d) budget) as [_|Hle]; [|lia].
  destruct (take_lines_maximal budget (split NL d) [] 0)
    as (k & Hk & Heq & Hc & Hnext).
  assert (Hlt : (k < List.length (split NL d))%nat).
  { destruct (Nat.eq_dec k (List.length (split NL d))) as [->|Hne]; [|lia].
    rewrite firstn_all in Hc. rewrite cost_split in Hc.
    destruct Hc as [H0|Hc]; [|lia].
    pose proof (split_not_nil NL d) as Hnil.
    destruct (split NL d); [contradiction|discriminate H0]. }
  exists k. split; [exact Hlt|]. cbv zeta. rewrite Heq. split; [|split].
  - rewrite !dict_get_set_other by discriminate. apply dict_get_set_same.
  - destruct Hc; [left; assumption|right; lia].
  - specialize (Hnext Hlt). lia.
Qed.

Lemma basic_truncate_longest_prefix_witness :
  exists k, (k < List.length (split NL Sample.three_lines))%nat
    /\ dict_get "diff" (Basic.truncate 4 Sample.three_lines [])
       = Some (JStr (join Basic.NLs (firstn k (split NL Sample.three_lines))))
    /\ (k = O \/ cost (firstn k (split NL Sample.three_lines)) <= 4)
    /\ 4 < cost (firstn (S k) (split NL Sample.three_lines)).
Proof.
  apply (basic_truncate_longest_prefix 4 Sample.three_lines []). reflexivity.
Defined.

(** X5. The [diff] that the 20,000-character policy stores is a literal
    prefix of the full diff, and a strictly shorter one exactly when
    [diff_truncated] is true. *)
Theorem basic_truncate_literal_prefix (d : string) (result : dict json) :
  exists shown,
    dict_get "diff" (Basic.truncate Basic.max_diff_chars d result) = Some (JStr shown)
    /\ String.prefix shown d = true
    /\ (len shown < len d <->
        dict_get "diff_truncated" (Basic.truncate Basic.max_diff_chars d result)
        = Some (JBool true)).
Proof.
  destruct (Z.ltb_spec Basic.max_diff_chars (len d)) as [Hover|Hwithin].
  - destruct (truncate_over Basic.max_diff_chars d result Hover)
      as (k & Hk & Hc & Heq).
    exists (join Basic.NLs (firstn k (split NL d))). rewrite Heq.
    split; [|split].
    + rewrite !dict_get_set_other by discriminate. apply dict_get_set_same.
    + rewrite <- (join_split d) at 2. apply join_firstn_prefix.
    + split; intros _.
      * rewrite dict_get_set_other by discriminate. apply dict_get_set_same.
      * pose proof (len_join_le (firstn k (split NL d))) as Hj.
        unfold Basic.max_diff_chars, Basic.NLs in *.
        destruct Hc as [->|Hc]; [|lia].
        simpl. unfold len at 1. simpl. lia.
  - rewrite (truncate_within _ d result Hwithin).
    exists d. split; [|split].
    + rewrite dict_get_set_other by discriminate. apply dict_get_set_same.
    + apply prefix_refl.
    + rewrite dict_get_set_same. split; [lia|discriminate].
Qed.

End BasicAnalyzeMore.

(** ** Results of [analyze_file_changes] of the basic server *)

Section BasicAnalyzeResults.

Import Py.

(** X1. [analyze_file_changes] never raises: it returns an object that always
    has a list [files_changed] and a string [diff].  Either the object has
    an [error], no changed file and an empty diff, or it has no [error] and
    [total_files] is the number of entries of [files_changed]. *)
Theorem basic_analyze_result_shape (w : World) (base_branch : string)
        (include_diff : bool) :
  exists d files shown,
    Basic.analyze_file_changes w base_branch include_diff = inr (JDict d)
    /\ dict_get "files_changed" d = Some (JList files)
    /\ dict_get "diff" d = Some (JStr shown)
    /\ ((dict_get "error" d <> None /\ files = [] /\ shown = "")
        \/ (dict_get "error" d = None
            /\ dict_get "total_files" d = Some (JInt (list_len files)))).
Proof.
  unfold Basic.analyze_file_changes, try_except.
  cbn [catch bind ret Monad_either Exception_either].
  destruct (list_roots w) as [e|roots].
  { do 3 eexists. repeat split; try reflexivity. left. repeat split. discriminate. }
  cbv zeta.
  destruct (run w _ _) as [e|files].
  { do 3 eexists. repeat split; try reflexivity. left. repeat split. discriminate. }
  destruct (negb (returncode files =? 0)).
  { do 3 eexists. repeat split; try reflexivity. left. repeat split. discriminate. }
  destruct (include_diff && truthy_list (Basic.parse_files (stdout files)))%bool.
  - destruct (run w _ _) as [e|diff].
    { do 3 eexists. repeat split; try reflexivity. left. repeat split. discriminate. }
    destruct (returncode diff =? 0).
    + unfold Basic.truncate.
      destruct (len (stdout diff) >? Basic.max_diff_chars);
        do 3 eexists; (split; [reflexivity|]); repeat split; try reflexivity;
        right; split; reflexivity.
    + do 3 eexists. split; [reflexivity|]. repeat split; try reflexivity.
      right. split; reflexivity.
  - do 3 eexists. split; [reflexivity|]. repeat split; try reflexivity.
    right. split; reflexivity.
Qed.

(** X2. When the name-status listing exits with a non-zero status, the result
    is an [error] that quotes its error stream, with no changed file and an
    empty diff; the full diff plays no part. *)
Theorem basic_analyze_git_failure (w : World) (base_branch : string)
        (include_diff : bool) (roots : list string) (files : CompletedProcess) :
  list_roots w = inr roots ->
  run w ["git"; "diff"; "--name-status"; base_branch]
      (Some (Basic.working_dir roots)) = inr files ->
  returncode files <> 0 ->
  Basic.analyze_file_changes w base_branch include_diff
  = inr (JDict [("error", JStr ("Git command failed: " ++ stderr files));
                ("files_changed", JList []);
                ("diff", JStr "")]).
Proof.
  intros Hroots Hfiles Hcode.
  unfold Basic.analyze_file_changes, try_except.
  cbn [catch bind ret Monad_either Exception_either].
  rewrite Hroots. cbv zeta. rewrite Hfiles.
  destruct (Z.eqb_spec (returncode files) 0) as [H0|_]; [contradiction|].
  reflexivity.
Qed.

Lemma basic_analyze_git_failure_witness :
  Basic.analyze_file_changes
    (Sample.world (Sample.completed 128 "" "fatal: not a git repository")
                  (Sample.completed 0 "" "") Sample.all_templates (inr (JList [])))
    "main" true
  = inr (JDict [("error", JStr "Git command failed: fatal: not a git repository");
                ("files_changed", JList []);
                ("diff", JStr "")]).
Proof.
  apply (basic_analyze_git_failure _ "main" true ["/repo"]
           (mkCompleted 128 "" "fatal: not a git repository"));
    [reflexivity|reflexivity|discriminate].
Defined.

(** X3. An exception of the session, of the name-status subprocess or of the
    full-diff subprocess is turned into the same [error] object; when it is
    the full diff that raises, the changed files already parsed are not in
    the result. *)
Theorem basic_analyze_exception (w : World) (base_branch : string) (e : exn) :
  (list_roots w = inl e ->
   forall include_diff,
     Basic.analyze_file_changes w base_branch include_diff = inr (basic_exception_result e))
  /\ (forall roots,
        list_roots w = inr roots ->
        run w ["git"; "diff"; "--name-status"; base_branch]
            (Some (Basic.working_dir roots)) = inl e ->
        forall include_diff,
          Basic.analyze_file_changes w base_branch include_diff
          = inr (basic_exception_result e))
  /\ (forall roots files,
        list_roots w = inr roots ->
        run w ["git"; "diff"; "--name-status"; base_branch]
            (Some (Basic.working_dir roots)) = inr files ->
        returncode files = 0 ->
        truthy_list (Basic.parse_files (stdout files)) = true ->
        run w ["git"; "diff"; base_branch] (Some (Basic.working_dir roots)) = inl e ->
        Basic.analyze_file_changes w base_branch true = inr (basic_exception_result e)).
Proof.
  split; [|split].
  - intros Hroots include_diff.
    unfold Basic.analyze_file_changes, try_except.
    cbn [catch bind ret Monad_either Exception_either].
    rewrite Hroots. reflexivity.
  - intros roots Hroots Hfiles include_diff.
    unfold Basic.analyze_file_changes, try_except.
    cbn [catch bind ret Monad_either Exception_either].
    rewrite Hroots. cbv zeta. rewrite Hfiles. reflexivity.
  - intros roots files Hroots Hfiles Hcode Htruthy Hdiff.
    rewrite (analyze_reaches_diff w base_branch roots files Hroots Hfiles Hcode Htruthy).
    cbv zeta. rewrite Hdiff. reflexivity.
Qed.

(** The session cannot list its roots; git is not installed, so that both
    subprocess calls raise. *)
Lemma basic_analyze_exception_witness :
  Basic.analyze_file_changes Sample.no_session_world "main" true
  = inr (basic_exception_result
           (mkExn OtherException "No active session" ""))
  /\ Basic.analyze_file_changes
    (Sample.world (inl (Sample.no_such_file "git")) (inl (Sample.no_such_file "git"))
                  Sample.all_templates (inr (JList [])))
    "main" true
  = inr (basic_exception_result (Sample.no_such_file "git"))
  /\ Basic.analyze_file_changes
       (Sample.world (Sample.completed 0 Sample.two_files "")
                     (inl (Sample.no_such_file "git"))
                     Sample.all_templates (inr (JList [])))
       "main" true
     = inr (basic_exception_result (Sample.no_such_file "git")).
Proof.
  split; [|split].
  - destruct (basic_analyze_exception Sample.no_session_world "main"
                (mkExn OtherException "No active session" "")) as (Hroots & _).
    apply Hroots. reflexivity.
  - destruct (basic_analyze_exception
                (Sample.world (inl (Sample.no_such_file "git"))
                              (inl (Sample.no_such_file "git"))
                              Sample.all_templates (inr (JList [])))
                "main" (Sample.no_such_file "git")) as (_ & Hfiles & _).
    apply (Hfiles ["/repo"]); reflexivity.
  - destruct (basic_analyze_exception
                (Sample.world (Sample.completed 0 Sample.two_files "")
                              (inl (Sample.no_such_file "git"))
                              Sample.all_templates (inr (JList [])))
                "main" (Sample.no_such_file "git")) as (_ & _ & Hdiff).
    apply (Hdiff ["/repo"] (mkCompleted 0 Sample.two_files "")); reflexivity.
Defined.

(** Without [include_diff] the full diff is not consulted: the result is
    the changed files, their number and an empty [diff], with no
    [diff_truncated], [original_diff_size] or [diff_error]. *)
Theorem basic_analyze_without_diff (w : World) (base_branch : string)
        (roots : list string) (files : CompletedProcess) :
  list_roots w = inr roots ->
  run w ["git"; "diff"; "--name-status"; base_branch]
      (Some (Basic.working_dir roots)) = inr files ->
  returncode files = 0 ->
  Basic.analyze_file_changes w base_branch false
  = inr (JDict [("files_changed", JList (Basic.parse_files (stdout files)));
                ("total_files", JInt (list_len (Basic.parse_files (stdout files))));
                ("diff", JStr "")]).
Proof.
  intros Hroots Hfiles Hcode.
  unfold Basic.analyze_file_changes, try_except.
  cbn [catch bind ret Monad_either Exception_either].
  rewrite Hroots. cbv zeta. rewrite Hfiles, Hcode. reflexivity.
Qed.

Lemma basic_analyze_without_diff_witness :
  Basic.analyze_file_changes Sample.big_diff_world "main" false
  = inr (JDict [("files_changed",
                  JList [JDict [("status", JStr "M"); ("filename", JStr "a.py")];
                         JDict [("status", JStr "M"); ("filename", JStr "b.py")]]);
                ("total_files", JInt 2);
                ("diff", JStr "")]).
Proof.
  apply (basic_analyze_without_diff Sample.big_diff_world "main" ["/repo"]
           (mkCompleted 0 Sample.two_files "")); reflexivity.
Defined.

End BasicAnalyzeResults.

(** ** Parsing the name-status listing *)

Section ParseFiles.

Import Py.

Lemma has_char_append (c : ascii) (a b : string) :
  has_char c (a ++ b) = (has_char c a || has_char c b)%bool.
Proof.
  induction a as [|x a IH]; simpl; [reflexivity|].
  rewrite IH. apply Bool.orb_assoc.
Qed.

Lemma split_without_sep (sep : ascii) (s : string) :
  has_char sep s = false -> split sep s = [s].
Proof.
  induction s as [|x s IH]; simpl; [reflexivity|].
  intros H. apply Bool.orb_false_iff in H. destruct H as [Hx Hs].
  rewrite Hx, (IH Hs). reflexivity.
Qed.

Lemma split_at_sep (sep : ascii) (a b : string) :
  has_char sep a = false ->
  split sep (a ++ String sep b) = a :: split sep b.
Proof.
  induction a as [|x a IH]; simpl.
  - intros _. rewrite Ascii.eqb_refl. reflexivity.
  - intros H. apply Bool.orb_false_iff in H. destruct H as [Hx Ha].
    rewrite Hx, (IH Ha). reflexivity.
Qed.

(** No part of a split holds the separator, nor a character that the
    whole string does not hold. *)
Lemma split_parts (sep c : ascii) (s : string) :
  Forall (fun part => has_char sep part = false
                      /\ (has_char c s = false -> has_char c part = false))
         (split sep s).
Proof.
  induction s as [|x s IH]; simpl.
  - constructor; [split; auto|constructor].
  - destruct (Ascii.eqb x sep) eqn:Hx.
    + constructor; [split; auto|].
      eapply Forall_impl; [|exact IH]. simpl.
      intros part [Hsep Hc]. split; [exact Hsep|].
      intros H. apply Bool.orb_false_iff in H. apply Hc. apply H.
    + pose proof (split_not_nil sep s) as Hne.
      destruct (split sep s) as [|l ls]; [contradiction|].
      inversion IH as [|? ? [Hsep Hc] Hrest]; subst.
      constructor.
      * simpl. rewrite Hx, Hsep. split; [reflexivity|].
        intros H. apply Bool.orb_false_iff in H. destruct H as [Hxc Hs].
        rewrite Hxc, (Hc Hs). reflexivity.
      * eapply Forall_impl; [|exact Hrest]. simpl.
        intros part [Hsep' Hc']. split; [exact Hsep'|].
        intros H. apply Bool.orb_false_iff in H. apply Hc'. apply H.
Qed.

Lemma length_lstrip (s : string) : (String.length (lstrip s) <= String.length s)%nat.
Proof.
  induction s as [|c s IH]; simpl; [lia|].
  destruct (isspace c); simpl; lia.
Qed.

Lemma length_rstrip (s : string) : (String.length (rstrip s) <= String.length s)%nat.
Proof.
  induction s as [|c s IH]; simpl; [lia|].
  destruct (rstrip s); [destruct (isspace c)|]; simpl in *; lia.
Qed.

Lemma strip_fixed (s : string) :
  strip s = s -> lstrip s = s /\ rstrip s = s.
Proof.
  unfold strip. intros H.
  assert (Hl : lstrip s = s).
  { destruct s as [|c s]; [reflexivity|]. simpl in *.
    destruct (isspace c); [|reflexivity].
    pose proof (length_rstrip (lstrip s)) as H1.
    pose proof (length_lstrip s) as H2.
    rewrite H in H1. simpl in H1. lia. }
  split; [exact Hl|]. rewrite Hl in H. exact H.
Qed.

Lemma lstrip_append (a b : string) :
  a <> "" -> lstrip a = a -> lstrip (a ++ b) = a ++ b.
Proof.
  destruct a as [|c a]; [contradiction|]. intros _. simpl.
  destruct (isspace c); [|reflexivity].
  intros H. pose proof (length_lstrip a) as Hlen.
  rewrite H in Hlen. simpl in Hlen. lia.
Qed.

Lemma rstrip_append_kept (a b : string) :
  rstrip b <> "" -> rstrip (a ++ b) = a ++ rstrip b.
Proof.
  intros Hb. induction a as [|c a IH]; simpl; [reflexivity|].
  rewrite IH. destruct (a ++ rstrip b) eqn:E; [|reflexivity].
  destruct a; simpl in E; [contradiction|discriminate].
Qed.

Lemma rstrip_append_dropped (a b : string) :
  rstrip b = "" -> rstrip (a ++ b) = rstrip a.
Proof.
  intros Hb. induction a as [|c a IH]; simpl; [exact Hb|].
  rewrite IH. reflexivity.
Qed.

Lemma name_status_line_clean (e : string * string) :
  clean (fst e) -> clean (snd e) ->
  has_char NL (name_status_line e) = false
  /\ lstrip (name_status_line e) = name_status_line e
  /\ rstrip (name_status_line e) = name_status_line e
  /\ name_status_line e <> ""
  /\ Basic.parse_line (name_status_line e) = [file_entry e].
Proof.
  destruct e as [status filename]. simpl fst. simpl snd.
  intros (Hs0 & Hs1 & Hs2 & Hs3) (Hf0 & Hf1 & Hf2 & Hf3).
  destruct (strip_fixed _ Hs1) as [Hsl _].
  destruct (strip_fixed _ Hf1) as [_ Hfr].
  unfold name_status_line. repeat split.
  - rewrite has_char_append. simpl. rewrite Hs3, Hf3. reflexivity.
  - apply lstrip_append; assumption.
  - simpl fst. simpl snd.
    change (status ++ String TAB filename)
      with (status ++ (String TAB "" ++ filename)).
    rewrite <- append_assoc. rewrite rstrip_append_kept; rewrite Hfr; auto.
  - simpl fst. destruct status; [contradiction|discriminate].
  - unfold Basic.parse_line. simpl fst. simpl snd.
    rewrite (split_at_sep TAB _ _ Hs2), (split_without_sep TAB _ Hf2).
    destruct status; [contradiction|]. reflexivity.
Qed.

(** The stripped output, split at newlines, is the list of its lines. *)
Lemma name_status_lines (e : string * string) (es : list (string * string)) :
  Forall (fun e => clean (fst e) /\ clean (snd e)) (e :: es) ->
  lstrip (name_status_output (e :: es)) = name_status_output (e :: es)
  /\ rstrip (name_status_output (e :: es)) <> ""
  /\ split NL (rstrip (name_status_output (e :: es)))
     = map name_status_line (e :: es).
Proof.
  revert e. induction es as [|e' es IH]; intros e Hall.
  - inversion Hall as [|? ? [Hs Hf] _]; subst.
    destruct (name_status_line_clean e Hs Hf) as (Hnl & Hl & Hr & Hne & _).
    simpl name_status_output.
    change (name_status_line e ++ String NL "")
      with (name_status_line e ++ String NL "").
    rewrite (rstrip_append_dropped _ (String NL "") eq_refl), Hr.
    repeat split.
    + apply lstrip_append; assumption.
    + exact Hne.
    + simpl. apply split_without_sep. exact Hnl.
  - inversion Hall as [|? ? [Hs Hf] Hrest]; subst.
    destruct (name_status_line_clean e Hs Hf) as (Hnl & Hl & Hr & Hne & _).
    destruct (IH e' Hrest) as (_ & Hrne & Hsplit).
    change (name_status_output (e :: e' :: es))
      with (name_status_line e ++ String NL (name_status_output (e' :: es))).
    repeat split.
    + apply lstrip_append; assumption.
    + change (name_status_line e ++ String NL (name_status_output (e' :: es)))
        with (name_status_line e ++ (String NL "" ++ name_status_output (e' :: es))).
      rewrite <- append_assoc, rstrip_append_kept by exact Hrne.
      destruct (name_status_line e); [contradiction|discriminate].
    + change (name_status_line e ++ String NL (name_status_output (e' :: es)))
        with (name_status_line e ++ (String NL "" ++ name_status_output (e' :: es))).
      rewrite <- append_assoc, rstrip_append_kept by exact Hrne.
      rewrite append_assoc.
      change (String NL "" ++ rstrip (name_status_output (e' :: es)))
        with (String NL (rstrip (name_status_output (e' :: es)))).
      rewrite (split_at_sep NL _ _ Hnl), Hsplit. reflexivity.
Qed.

(** X6. Parsing undoes printing: for a listing of status and file-name
    fields that are not empty, have no white space at either end and hold
    no tab or newline, [parse_files] of the printed output gives back one
    entry per line, in order, with exactly those fields. *)
Theorem basic_parse_files_roundtrip (es : list (string * string)) :
  Forall (fun e => clean (fst e) /\ clean (snd e)) es ->
  Basic.parse_files (name_status_output es) = map file_entry es.
Proof.
  intros Hall. unfold Basic.parse_files, strip.
  destruct es as [|e es]; [reflexivity|].
  destruct (name_status_lines e es Hall) as (Hl & _ & Hsplit).
  rewrite Hl, Hsplit. clear Hl Hsplit.
  induction Hall as [|x l [Hs Hf] _ IH]; [reflexivity|].
  destruct (name_status_line_clean x Hs Hf) as (_ & _ & _ & _ & Hparse).
  simpl. rewrite Hparse, IH. reflexivity.
Qed.

Lemma basic_parse_files_roundtrip_witness :
  Basic.parse_files (name_status_output [("M", "src/a b.py"); ("A", "docs/new.md")])
  = map file_entry [("M", "src/a b.py"); ("A", "docs/new.md")].
Proof.
  apply basic_parse_files_roundtrip.
  repeat constructor; simpl; discriminate.
Defined.

(** X7. Whatever the name-status subprocess prints, no reported status or
    file name holds a tab or a newline, and there are at most as many
    entries as lines in the stripped output. *)
Theorem basic_parse_files_fields (out : string) :
  Forall (fun entry =>
            exists status filename,
              entry = file_entry (status, filename)
              /\ has_char TAB status = false /\ has_char NL status = false
              /\ has_char TAB filename = false /\ has_char NL filename = false)
         (Basic.parse_files out)
  /\ (List.length (Basic.parse_files out)
      <= List.length (split NL (strip out)))%nat.
Proof.
  unfold Basic.parse_files.
  pose proof (split_parts NL NL (strip out)) as Hlines.
  set (lines := split NL (strip out)) in *. clearbody lines.
  induction Hlines as [|line lines [Hnl _] _ [IHf IHl]]; simpl.
  - split; [constructor|lia].
  - assert (Hline : Forall (fun entry =>
              exists status filename,
                entry = file_entry (status, filename)
                /\ has_char TAB status = false /\ has_char NL status = false
                /\ has_char TAB filename = false /\ has_char NL filename = false)
              (Basic.parse_line line)
            /\ (List.length (Basic.parse_line line) <= 1)%nat).
    { unfold Basic.parse_line.
      destruct (truthy_str line); [|split; [apply Forall_nil|simpl; lia]].
      pose proof (split_parts TAB NL line) as Hparts.
      destruct (split TAB line) as [|status [|filename rest]];
        try (split; [apply Forall_nil|simpl; lia]).
      inversion Hparts as [|? ? [Hs1 Hs2] Hparts']; subst.
      inversion Hparts' as [|? ? [Hf1 Hf2] _]; subst.
      split; [|simpl; lia]. apply Forall_cons; [|apply Forall_nil].
      exists status, filename. repeat split; auto. }
    destruct Hline as [Hf Hl]. split.
    + apply Forall_app. split; assumption.
    + rewrite length_app. lia.
Qed.

End ParseFiles.

(** ** More on the template listing of the basic server *)

Section BasicListingMore.

Import Py.

(** X8. A template that cannot be read does not end the basic listing: the
    list has one entry per enumerated file; the entry of an unreadable file
    carries the [error] of the read and no [content], the entry of a
    readable file carries its content. *)
Theorem basic_listing_keeps_unreadable (w : World) (files : list string) :
  path_exists w (TEMPLATES_DIR w) = true ->
  glob w (TEMPLATES_DIR w) "*.md" = inr files ->
  exists ts, Basic.get_pr_templates w = inr (JList ts)
    /\ List.length ts = List.length files
    /\ (forall f e, In f files ->
          read_text w (Path.join (TEMPLATES_DIR w) f) = inl e ->
          In (JDict [("filename", JStr f);
                     ("name", JStr (Path.stem f));
                     ("type", JStr (Path.stem f));
                     ("error", JStr ("Failed to read template: " ++ exn_msg e))]) ts)
    /\ (forall f content, In f files ->
          read_text w (Path.join (TEMPLATES_DIR w) f) = inr content ->
          In (JDict [("filename", JStr f);
                     ("name", JStr (Path.stem f));
                     ("type", JStr (Path.stem f));
                     ("content", JStr content)]) ts).
Proof.
  intros Hdir Hglob.
  unfold Basic.get_pr_templates, try_except.
  cbn [catch bind ret Monad_either Exception_either].
  rewrite Hdir, Hglob. cbn [negb].
  pose proof (sort_by_perm Basic.name_key (map (Basic.template_entry w) files)) as Hperm.
  eexists. split; [reflexivity|]. split; [|split].
  - rewrite (Permutation_length Hperm). apply length_map.
  - intros f e Hin Hread.
    apply (Permutation_in _ (Permutation_sym Hperm)).
    apply in_map_iff. exists f. split; [|exact Hin].
    unfold Basic.template_entry. rewrite Hread. reflexivity.
  - intros f content Hin Hread.
    apply (Permutation_in _ (Permutation_sym Hperm)).
    apply in_map_iff. exists f. split; [|exact Hin].
    unfold Basic.template_entry. rewrite Hread. reflexivity.
Qed.

(** The directory lists a file that is not there any more. *)
Lemma basic_listing_keeps_unreadable_witness :
  exists ts, Basic.get_pr_templates Sample.stale_listing_world = inr (JList ts)
    /\ List.length ts = 2%nat
    /\ In (JDict [("filename", JStr "gone.md");
                  ("name", JStr "gone");
                  ("type", JStr "gone");
                  ("error", JStr "Failed to read template: [Errno 2] No such file or directory: '/srv/templates/gone.md'")]) ts
    /\ In (JDict [("filename", JStr "bug.md");
                  ("name", JStr "bug");
                  ("type", JStr "bug");
                  ("content", JStr "# /srv/templates/bug.md")]) ts.
Proof.
  destruct (basic_listing_keeps_unreadable Sample.stale_listing_world
              ["gone.md"; "bug.md"] eq_refl eq_refl)
    as (ts & Hts & Hlen & Herr & Hok).
  exists ts. split; [exact Hts|]. split; [exact Hlen|]. split.
  - apply (Herr "gone.md" (Sample.no_such_file "/srv/templates/gone.md"));
      [simpl; auto|reflexivity].
  - apply (Hok "bug.md" "# /srv/templates/bug.md"); [simpl; auto|reflexivity].
Defined.

(** X9. The basic listing never raises: the result is either a list of
    template entries or an object with an [error] and an empty [templates]
    list.  The latter is what a missing templates directory gives, and
    what an enumeration of the directory that fails gives. *)
Theorem basic_listing_result_shape (w : World) :
  ((exists ts, Basic.get_pr_templates w = inr (JList ts))
   \/ (exists msg, Basic.get_pr_templates w
                   = inr (JDict [("error", JStr msg); ("templates", JList [])])))
  /\ (path_exists w (TEMPLATES_DIR w) = false ->
      Basic.get_pr_templates w
      = inr (JDict [("error", JStr ("Templates directory not found: " ++ TEMPLATES_DIR w));
                    ("templates", JList [])]))
  /\ (forall e,
        path_exists w (TEMPLATES_DIR w) = true ->
        glob w (TEMPLATES_DIR w) "*.md" = inl e ->
        Basic.get_pr_templates w
        = inr (JDict [("error", JStr ("Failed to get PR templates: " ++ exn_msg e));
                      ("templates", JList [])])).
Proof.
  unfold Basic.get_pr_templates, try_except.
  cbn [catch bind ret Monad_either Exception_either].
  split.
  - destruct (path_exists w (TEMPLATES_DIR w)); cbn [negb].
    + destruct (glob w (TEMPLATES_DIR w) "*.md") as [e|files].
      * right. eexists. reflexivity.
      * left. eexists. reflexivity.
    + right. eexists. reflexivity.
  - split.
    + intros Hdir. rewrite Hdir. reflexivity.
    + intros e Hdir Hglob. rewrite Hdir, Hglob. reflexivity.
Qed.

Lemma basic_listing_result_shape_witness :
  Basic.get_pr_templates Sample.unlistable_world
  = inr (JDict [("error", JStr "Failed to get PR templates: [Errno 13] Permission denied: '/srv/templates'");
                ("templates", JList [])])
  /\ Basic.get_pr_templates Sample.no_templates_world
     = inr (JDict [("error", JStr "Templates directory not found: /srv/templates");
                   ("templates", JList [])]).
Proof.
  split.
  - destruct (basic_listing_result_shape Sample.unlistable_world) as (_ & _ & Hglob).
    apply (Hglob (mkExn OtherException
                    "[Errno 13] Permission denied: '/srv/templates'" ""));
      reflexivity.
  - destruct (basic_listing_result_shape Sample.no_templates_world) as (_ & Hdir & _).
    apply Hdir. reflexivity.
Defined.

End BasicListingMore.

(** ** More on template resolution in the basic server *)

Section BasicResolveMore.

Import Py.

Lemma lower_char_idempotent (c : ascii) : lower_char (lower_char c) = lower_char c.
Proof. destruct c as [[] [] [] [] [] [] [] []]; reflexivity. Qed.

Lemma isspace_lower_char (c : ascii) : isspace (lower_char c) = isspace c.
Proof. destruct c as [[] [] [] [] [] [] [] []]; reflexivity. Qed.

Lemma lower_idempotent (s : string) : lower (lower s) = lower s.
Proof.
  induction s as [|c s IH]; simpl; [reflexivity|].
  rewrite lower_char_idempotent, IH. reflexivity.
Qed.

Lemma lstrip_lower (s : string) : lstrip (lower s) = lower (lstrip s).
Proof.
  induction s as [|c s IH]; simpl; [reflexivity|].
  rewrite isspace_lower_char. destruct (isspace c); [exact IH|reflexivity].
Qed.

Lemma rstrip_lower (s : string) : rstrip (lower s) = lower (rstrip s).
Proof.
  induction s as [|c s IH]; simpl; [reflexivity|].
  rewrite IH, isspace_lower_char.
  destruct (rstrip s); simpl; [destruct (isspace c)|]; reflexivity.
Qed.

Lemma strip_lower (s : string) : strip (lower s) = lower (strip s).
Proof. unfold strip. rewrite lstrip_lower, rstrip_lower. reflexivity. Qed.

(** A left-stripped string is empty or starts with a character that is not
    white space. *)
Lemma lstrip_head (s : string) :
  lstrip s = "" \/ exists c rest, lstrip s = String c rest /\ isspace c = false.
Proof.
  induction s as [|c s IH]; simpl; [left; reflexivity|].
  destruct (isspace c) eqn:E; [exact IH|].
  right. exists c, s. split; [reflexivity|exact E].
Qed.

Lemma rstrip_idempotent (s : string) : rstrip (rstrip s) = rstrip s.
Proof.
  induction s as [|c s IH]; simpl; [reflexivity|].
  destruct (rstrip s) as [|x r] eqn:E.
  - destruct (isspace c) eqn:Hc; simpl; [reflexivity|]. rewrite Hc. reflexivity.
  - simpl. simpl in IH. rewrite IH. reflexivity.
Qed.

Lemma rstrip_keeps_head (c : ascii) (s : string) :
  isspace c = false -> exists r, rstrip (String c s) = String c r.
Proof.
  intros Hc. simpl. destruct (rstrip s) as [|x r].
  - rewrite Hc. exists "". reflexivity.
  - exists (String x r). reflexivity.
Qed.

Lemma strip_idempotent (s : string) : strip (strip s) = strip s.
Proof.
  unfold strip. destruct (lstrip_head s) as [->|(c & rest & -> & Hc)].
  - reflexivity.
  - destruct (rstrip_keeps_head c rest Hc) as (r & Hr).
    rewrite Hr. simpl lstrip. rewrite Hc. rewrite <- Hr.
    apply rstrip_idempotent.
Qed.

(** X10. Resolution in the basic server does not depend on letter case or on
    white space around the change type: lowering or stripping the input
    first changes neither the template nor the fallback flag. *)
Theorem basic_resolve_ignores_case_and_blanks (change_type : string) :
  Basic.resolve (lower change_type) = Basic.resolve change_type
  /\ Basic.resolve (strip change_type) = Basic.resolve change_type.
Proof.
  unfold Basic.resolve. split.
  - rewrite lower_idempotent. reflexivity.
  - rewrite <- (strip_lower change_type), strip_idempotent. reflexivity.
Qed.

Lemma dict_get_in {V} (k : string) (v : V) (d : dict V) :
  dict_get k d = Some v -> In (k, v) d.
Proof.
  induction d as [|[k' v'] d IH]; simpl; [discriminate|].
  destruct (String.eqb_spec k' k) as [->|_].
  - intros [= ->]. left. reflexivity.
  - intros H. right. apply IH. exact H.
Qed.

Lemma contains_refl (s : string) : contains s s = true.
Proof. destruct s; simpl; [reflexivity|]. 
  destruct (ascii_dec a a) as [_|Hne]; [|contradiction].
  rewrite prefix_refl. reflexivity.
Qed.

(** The outcome of [resolve], by cases on the two lookups. *)
Lemma basic_resolve_cases (change_type : string) :
  (exists key file,
      In (key, file) Basic.template_mappings
      /\ Basic.partial_match (strip (lower change_type)) (key, file) = true
      /\ Basic.resolve change_type = (file, false))
  \/ ((forall it, In it Basic.template_mappings ->
                  Basic.partial_match (strip (lower change_type)) it = false)
      /\ Basic.resolve change_type = ("feature.md", true)).
Proof.
  unfold Basic.resolve. cbv zeta.
  destruct (dict_get (strip (lower change_type)) Basic.template_mappings)
    as [file|] eqn:Hget.
  - left. apply dict_get_in in Hget.
    exists (strip (lower change_type)), file. split; [exact Hget|]. split.
    + unfold Basic.partial_match. simpl fst. rewrite contains_refl. reflexivity.
    + cbn [Basic.falsy].
      rewrite (basic_mapping_values_truthy _ _ Hget). cbn [negb Basic.falsy].
      rewrite (basic_mapping_values_truthy _ _ Hget). reflexivity.
  - cbn [Basic.falsy].
    destruct (find (Basic.partial_match (strip (lower change_type)))
                   Basic.template_mappings) as [[key file]|] eqn:Hfind.
    + left. apply find_some in Hfind. destruct Hfind as [Hin Hmatch].
      exists key, file. split; [exact Hin|]. split; [exact Hmatch|].
      cbn [Basic.falsy].
      rewrite (basic_mapping_values_truthy _ _ Hin). reflexivity.
    + right. split; [|reflexivity].
      intros it Hit. apply (find_none _ _ Hfind it Hit).
Qed.

(** X11. The basic server falls back exactly when no key of the table is a
    substring of the normalized change type or has it as a substring; then
    the template is [feature.md]. *)
Theorem basic_resolve_fallback_iff (change_type : string) :
  (snd (Basic.resolve change_type) = true
   <-> forall it, In it Basic.template_mappings ->
                  Basic.partial_match (strip (lower change_type)) it = false)
  /\ (snd (Basic.resolve change_type) = true ->
      fst (Basic.resolve change_type) = "feature.md").
Proof.
  destruct (basic_resolve_cases change_type)
    as [(key & file & Hin & Hmatch & ->)|(Hnone & ->)]; simpl.
  - split; [|discriminate]. split; [discriminate|].
    intros Hnone. rewrite (Hnone _ Hin) in Hmatch. discriminate.
  - split; [|reflexivity]. split; [intros _; exact Hnone|reflexivity].
Qed.

Lemma basic_resolve_fallback_iff_witness :
  snd (Basic.resolve "something-unrecognized") = true
  /\ fst (Basic.resolve "something-unrecognized") = "feature.md".
Proof.
  destruct (basic_resolve_fallback_iff "something-unrecognized") as [[_ Hiff] Hfile].
  assert (H : snd (Basic.resolve "something-unrecognized") = true).
  { apply Hiff. intros it Hit. unfold Basic.template_mappings in Hit. simpl in Hit.
    repeat (destruct Hit as [<-|Hit]; [reflexivity|]). contradiction. }
  split; [exact H|]. apply Hfile. exact H.
Defined.

(** X12. Whatever the change type, the template file that the basic server
    resolves to is one of the seven files the table names. *)
Theorem basic_resolve_range (change_type : string) :
  In (fst (Basic.resolve change_type))
     ["bug.md"; "feature.md"; "docs.md"; "refactor.md"; "test.md";
      "performance.md"; "security.md"].
Proof.
  destruct (basic_resolve_cases change_type)
    as [(key & file & Hin & _ & ->)|(_ & ->)]; simpl fst.
  - unfold Basic.template_mappings in Hin. simpl in Hin.
    repeat (destruct Hin as [Hin|Hin];
            [injection Hin as _ <-; simpl; tauto|]).
    contradiction.
  - simpl. tauto.
Qed.

(** X13. An empty change type, or one of white space only, is not sent to
    the default: the empty string is a substring of the first key, so the
    basic server resolves it to [bug.md] without fallback. *)
Theorem basic_resolve_blank (change_type : string) :
  strip (lower change_type) = "" ->
  Basic.resolve change_type = ("bug.md", false).
Proof.
  intros H. unfold Basic.resolve. rewrite H. reflexivity.
Qed.

Lemma basic_resolve_blank_witness :
  Basic.resolve (String TAB " ") = ("bug.md", false).
Proof. apply basic_resolve_blank. reflexivity. Defined.

(** X14. Every synonym of the table resolves to the template declared for
    it, without fallback, in any letter case and with white space around
    it: no key is shadowed by an earlier key or by a partial match. *)
Theorem basic_resolve_declared_synonyms (change_type key file : string) :
  In (key, file) Basic.template_mappings ->
  strip (lower change_type) = key ->
  Basic.resolve change_type = (file, false).
Proof.
  intros Hin Hnorm. unfold Basic.resolve. rewrite Hnorm.
  unfold Basic.template_mappings in Hin. simpl in Hin.
  repeat (destruct Hin as [Hin|Hin];
          [injection Hin as <- <-; reflexivity|]).
  contradiction.
Qed.

Lemma basic_resolve_declared_synonyms_witness :
  Basic.resolve "  Documentation " = ("docs.md", false).
Proof.
  apply (basic_resolve_declared_synonyms "  Documentation " "documentation" "docs.md");
    [simpl; tauto|reflexivity].
Defined.

End BasicResolveMore.

(** ** More on [suggest_template] of the basic server *)

Section BasicSuggestMore.

Import Py.

(** With an existence test that returns, [suggest_template_probing] is
    [suggest_template]. *)
Lemma basic_suggest_probing_agrees (w : World) (changes_summary change_type : string) :
  Basic.suggest_template_probing (fun path => inr (path_exists w path)) w
    changes_summary change_type
  = Basic.suggest_template w changes_summary change_type.
Proof.
  unfold Basic.suggest_template_probing, Basic.suggest_template.
  destruct (Basic.resolve change_type) as [file fallback]. reflexivity.
Qed.

(** X15. The three ways the basic [suggest_template] fails on the resolved
    template file.  When [exists()] raises, the handler of line 249 returns
    "Failed to suggest template" with the summary and the change type.
    When [exists()] answers [False], the result is "Template file not
    found" with the template file of each of the 19 synonyms as
    [available_templates] and the change type as given.  When [exists()]
    answers [True] and the read raises, the handler of line 236 returns
    "Failed to read template file" with the file and its stem.  None of the
    three results has [fallback_used] or [template_content]. *)
Theorem basic_suggest_unavailable (probe : string -> res bool) (w : World)
        (changes_summary change_type : string) :
  (forall e,
      probe (Path.join (TEMPLATES_DIR w) (fst (Basic.resolve change_type))) = inl e ->
      Basic.suggest_template_probing probe w changes_summary change_type
      = inr (JDict [("error", JStr ("Failed to suggest template: " ++ exn_msg e));
                    ("changes_summary", JStr changes_summary);
                    ("change_type", JStr change_type)]))
  /\ (probe (Path.join (TEMPLATES_DIR w) (fst (Basic.resolve change_type)))
      = inr false ->
      Basic.suggest_template_probing probe w changes_summary change_type
      = inr (JDict [("error", JStr ("Template file not found: "
                                      ++ fst (Basic.resolve change_type)));
                    ("available_templates",
                      JList (map JStr (values Basic.template_mappings)));
                    ("detected_change_type", JStr change_type)]))
  /\ (forall e,
        probe (Path.join (TEMPLATES_DIR w) (fst (Basic.resolve change_type)))
        = inr true ->
        read_text w (Path.join (TEMPLATES_DIR w) (fst (Basic.resolve change_type))) = inl e ->
        Basic.suggest_template_probing probe w changes_summary change_type
        = inr (JDict [("error", JStr ((("Failed to read template file "
                                          ++ fst (Basic.resolve change_type)) ++ ": ")
                                        ++ exn_msg e));
                      ("recommended_template", JStr (fst (Basic.resolve change_type)));
                      ("template_type",
                        JStr (Path.stem (fst (Basic.resolve change_type))))])).
Proof.
  unfold Basic.suggest_template_probing, try_except.
  destruct (Basic.resolve change_type) as [file fallback]. simpl fst.
  cbn [catch bind ret Monad_either Exception_either].
  split; [|split].
  - intros e Hraise. rewrite Hraise. reflexivity.
  - intros Hmissing. rewrite Hmissing. reflexivity.
  - intros e Hexists Hread. rewrite Hexists, Hread. reflexivity.
Qed.

(** The templates directory cannot be searched; the template is missing;
    the template is listed but cannot be opened. *)
Lemma basic_suggest_unavailable_witness :
  Basic.suggest_template_probing Sample.denied_probe Sample.clean_world
    "Fixed null pointer" "fix"
  = inr (JDict [("error", JStr "Failed to suggest template: [Errno 13] Permission denied: '/srv/templates/bug.md'");
                ("changes_summary", JStr "Fixed null pointer");
                ("change_type", JStr "fix")])
  /\ Basic.suggest_template_probing (Sample.probe_of Sample.no_templates_world)
       Sample.no_templates_world "Fixed null pointer" "fix"
     = inr (JDict [("error", JStr "Template file not found: bug.md");
                   ("available_templates",
                     JList (map JStr (values Basic.template_mappings)));
                   ("detected_change_type", JStr "fix")])
  /\ Basic.suggest_template_probing (Sample.probe_of Sample.stale_listing_world)
       Sample.stale_listing_world "Wrote the guide" "docs"
     = inr (JDict [("error", JStr "Failed to read template file docs.md: [Errno 2] No such file or directory: '/srv/templates/docs.md'");
                   ("recommended_template", JStr "docs.md");
                   ("template_type", JStr "docs")]).
Proof.
  split; [|split].
  - destruct (basic_suggest_unavailable Sample.denied_probe Sample.clean_world
                "Fixed null pointer" "fix") as (Hraise & _).
    apply (Hraise (Sample.denied "/srv/templates/bug.md")). reflexivity.
  - destruct (basic_suggest_unavailable (Sample.probe_of Sample.no_templates_world)
                Sample.no_templates_world "Fixed null pointer" "fix")
      as (_ & Hmissing & _).
    apply Hmissing. reflexivity.
  - destruct (basic_suggest_unavailable (Sample.probe_of Sample.stale_listing_world)
                Sample.stale_listing_world "Wrote the guide" "docs")
      as (_ & _ & Hread).
    apply (Hread (Sample.no_such_file "/srv/templates/docs.md")); reflexivity.
Defined.

(** X16. A successful basic [suggest_template] echoes the summary and the
    change type exactly as given (not normalized), reports the stem of the
    file as [template_type], and has a [note] exactly when the fallback was
    used. *)
Theorem basic_suggest_success_fields (w : World) (changes_summary change_type : string)
        (content : string) :
  path_exists w (Path.join (TEMPLATES_DIR w) (fst (Basic.resolve change_type))) = true ->
  read_text w (Path.join (TEMPLATES_DIR w) (fst (Basic.resolve change_type)))
  = inr content ->
  exists d, Basic.suggest_template w changes_summary change_type = inr (JDict d)
    /\ dict_get "error" d = None
    /\ dict_get "changes_summary" d = Some (JStr changes_summary)
    /\ dict_get "detected_change_type" d = Some (JStr change_type)
    /\ dict_get "template_type" d
       = Some (JStr (Path.stem (fst (Basic.resolve change_type))))
    /\ dict_get "template_content" d = Some (JStr content)
    /\ (dict_get "note" d <> None <-> snd (Basic.resolve change_type) = true).
Proof.
  unfold Basic.suggest_template, try_except.
  destruct (Basic.resolve change_type) as [file fallback]. simpl fst. simpl snd.
  cbn [catch bind ret Monad_either Exception_either].
  intros Hexists Hread. rewrite Hexists, Hread.
  destruct fallback; eexists; (split; [reflexivity|]);
    repeat split; try reflexivity; try discriminate.
  intros H. exfalso. apply H. reflexivity.
Qed.

Lemma basic_suggest_success_fields_witness :
  exists d, Basic.suggest_template Sample.clean_world "Tidy up" "  Something New " = inr (JDict d)
    /\ dict_get "error" d = None
    /\ dict_get "changes_summary" d = Some (JStr "Tidy up")
    /\ dict_get "detected_change_type" d = Some (JStr "  Something New ")
    /\ dict_get "template_type" d = Some (JStr "feature")
    /\ dict_get "template_content" d = Some (JStr "# /srv/templates/feature.md")
    /\ (dict_get "note" d <> None <-> true = true).
Proof.
  apply (basic_suggest_success_fields Sample.clean_world "Tidy up" "  Something New "
           "# /srv/templates/feature.md"); reflexivity.
Defined.

End BasicSuggestMore.

(** ** More on [analyze_file_changes] of the server with GitHub Actions tools *)

Section ActionsAnalyzeMore.

Import Py.

Lemma length_split (sep : ascii) (s : string) :
  List.length (split sep s) = S (count_char sep s).
Proof.
  induction s as [|c s IH]; simpl; [reflexivity|].
  destruct (Ascii.eqb c sep); simpl; [rewrite IH; reflexivity|].
  pose proof (split_not_nil sep s) as Hne.
  destruct (split sep s) as [|l ls]; [contradiction|]. exact IH.
Qed.

(** X17. [analyze_file_changes] of the server with GitHub Actions tools never
    raises: the result is either an object with the single field [error],
    or the analysis with its seven fields in their fixed order. *)
Theorem actions_analyze_result_shape (w : World) (base_branch : string)
        (include_diff : bool) (max_diff_lines : Z) :
  (exists msg, Actions.analyze_file_changes w base_branch include_diff max_diff_lines
               = inr (JDict [("error", JStr msg)]))
  \/ (exists d, Actions.analyze_file_changes w base_branch include_diff max_diff_lines
                = inr (JDict d)
        /\ keys d = ["base_branch"; "files_changed"; "statistics"; "commits";
                     "diff"; "truncated"; "total_diff_lines"]).
Proof.
  unfold Actions.analyze_file_changes, checked.
  cbn [catch bind ret raise Monad_either Exception_either].
  destruct (run w ["git"; "diff"; "--name-status"; base_branch ++ "...HEAD"] None)
    as [e|files].
  { left. destruct (exn_cls e); eexists; reflexivity. }
  destruct (returncode files =? 0); [|left; eexists; reflexivity].
  destruct (run w ["git"; "diff"; "--stat"; base_branch ++ "...HEAD"] None)
    as [e|stat].
  { left. destruct (exn_cls e); eexists; reflexivity. }
  destruct include_diff.
  - destruct (run w ["git"; "diff"; base_branch ++ "...HEAD"] None) as [e|diff].
    { left. destruct (exn_cls e); eexists; reflexivity. }
    destruct (Actions.limit_lines max_diff_lines (stdout diff)) as [shown truncated].
    destruct (run w ["git"; "log"; "--oneline"; base_branch ++ "..HEAD"] None)
      as [e|commits].
    { left. destruct (exn_cls e); eexists; reflexivity. }
    right. eexists. split; reflexivity.
  - destruct (run w ["git"; "log"; "--oneline"; base_branch ++ "..HEAD"] None)
      as [e|commits].
    { left. destruct (exn_cls e); eexists; reflexivity. }
    right. eexists. split; reflexivity.
Qed.

(** X18. When the name-status subprocess exits with a non-zero status the
    result is only [error], with "Git error: " and its error stream; when it
    cannot be started, [error] is the message of the exception.  No other
    subprocess output is in the result. *)
Theorem actions_analyze_name_status_failure (w : World) (base_branch : string)
        (include_diff : bool) (max_diff_lines : Z) :
  (forall files,
      run w ["git"; "diff"; "--name-status"; base_branch ++ "...HEAD"] None = inr files ->
      returncode files <> 0 ->
      Actions.analyze_file_changes w base_branch include_diff max_diff_lines
      = inr (JDict [("error", JStr ("Git error: " ++ stderr files))]))
  /\ (forall e,
        run w ["git"; "diff"; "--name-status"; base_branch ++ "...HEAD"] None = inl e ->
        exn_cls e <> CalledProcessError ->
        Actions.analyze_file_changes w base_branch include_diff max_diff_lines
        = inr (JDict [("error", JStr (exn_msg e))])).
Proof.
  unfold Actions.analyze_file_changes, checked.
  cbn [catch bind ret raise Monad_either Exception_either].
  split.
  - intros files Hrun Hcode. rewrite Hrun.
    destruct (Z.eqb_spec (returncode files) 0) as [H0|_]; [contradiction|].
    reflexivity.
  - intros e Hrun Hcls. rewrite Hrun.
    destruct (exn_cls e); try reflexivity. contradiction.
Qed.

Lemma actions_analyze_name_status_failure_witness :
  Actions.analyze_file_changes
    (Sample.world (Sample.completed 128 "" "fatal: bad revision 'main...HEAD'")
                  (Sample.completed 0 "" "") Sample.all_templates (inr (JList [])))
    "main" true 500
  = inr (JDict [("error", JStr "Git error: fatal: bad revision 'main...HEAD'")])
  /\ Actions.analyze_file_changes
       (Sample.world (inl (Sample.no_such_file "git")) (Sample.completed 0 "" "")
                     Sample.all_templates (inr (JList [])))
       "main" true 500
     = inr (JDict [("error", JStr "[Errno 2] No such file or directory: 'git'")]).
Proof.
  split.
  - destruct (actions_analyze_name_status_failure
                (Sample.world (Sample.completed 128 "" "fatal: bad revision 'main...HEAD'")
                              (Sample.completed 0 "" "") Sample.all_templates
                              (inr (JList [])))
                "main" true 500) as [Hcode _].
    apply (Hcode (mkCompleted 128 "" "fatal: bad revision 'main...HEAD'"));
      [reflexivity|discriminate].
  - destruct (actions_analyze_name_status_failure
                (Sample.world (inl (Sample.no_such_file "git")) (Sample.completed 0 "" "")
                              Sample.all_templates (inr (JList [])))
                "main" true 500) as [_ Hraise].
    apply (Hraise (Sample.no_such_file "git")); [reflexivity|discriminate].
Defined.

(** Without [include_diff] the full diff is not part of the result:
    [diff] is the fixed notice, [truncated] is false and [total_diff_lines]
    is 0, whatever [max_diff_lines]. *)
Theorem actions_analyze_without_diff (w : World) (base_branch : string)
        (max_diff_lines : Z) (files stat commits : CompletedProcess) :
  run w ["git"; "diff"; "--name-status"; base_branch ++ "...HEAD"] None = inr files ->
  returncode files = 0 ->
  run w ["git"; "diff"; "--stat"; base_branch ++ "...HEAD"] None = inr stat ->
  run w ["git"; "log"; "--oneline"; base_branch ++ "..HEAD"] None = inr commits ->
  Actions.analyze_file_changes w base_branch false max_diff_lines
  = inr (JDict [("base_branch", JStr base_branch);
                ("files_changed", JStr (stdout files));
                ("statistics", JStr (stdout stat));
                ("commits", JStr (stdout commits));
                ("diff", JStr "Diff not included (set include_diff=true to see full diff)");
                ("truncated", JBool false);
                ("total_diff_lines", JInt 0)]).
Proof.
  intros Hfiles Hcode Hstat Hcommits.
  unfold Actions.analyze_file_changes, checked.
  cbn [catch bind ret raise Monad_either Exception_either].
  rewrite Hfiles, Hcode. cbn [Z.eqb]. rewrite Hstat, Hcommits. reflexivity.
Qed.

Lemma actions_analyze_without_diff_witness :
  Actions.analyze_file_changes Sample.big_diff_world "main" false (-3)
  = inr (JDict [("base_branch", JStr "main");
                ("files_changed", JStr Sample.two_files);
                ("statistics", JStr "");
                ("commits", JStr "");
                ("diff", JStr "Diff not included (set include_diff=true to see full diff)");
                ("truncated", JBool false);
                ("total_diff_lines", JInt 0)]).
Proof.
  apply (actions_analyze_without_diff Sample.big_diff_world "main" (-3)
           (mkCompleted 0 Sample.two_files "") (mkCompleted 0 "" "")
           (mkCompleted 0 "" "")); reflexivity.
Defined.

(** X19. With [include_diff], [total_diff_lines] is one more than the number
    of newline characters of the full diff (an empty diff counts one line,
    a final newline counts an extra, empty line); [truncated] is true
    exactly when that number exceeds [max_diff_lines], and otherwise [diff]
    is the full diff unchanged. *)
Theorem actions_analyze_line_count (w : World) (base_branch : string)
        (max_diff_lines : Z) (files stat diff commits : CompletedProcess) :
  run w ["git"; "diff"; "--name-status"; base_branch ++ "...HEAD"] None = inr files ->
  returncode files = 0 ->
  run w ["git"; "diff"; "--stat"; base_branch ++ "...HEAD"] None = inr stat ->
  run w ["git"; "diff"; base_branch ++ "...HEAD"] None = inr diff ->
  run w ["git"; "log"; "--oneline"; base_branch ++ "..HEAD"] None = inr commits ->
  exists d, Actions.analyze_file_changes w base_branch true max_diff_lines = inr (JDict d)
    /\ dict_get "total_diff_lines" d
       = Some (JInt (1 + Z.of_nat (count_char NL (stdout diff))))
    /\ dict_get "truncated" d
       = Some (JBool (1 + Z.of_nat (count_char NL (stdout diff)) >? max_diff_lines))
    /\ (1 + Z.of_nat (count_char NL (stdout diff)) <= max_diff_lines ->
        dict_get "diff" d = Some (JStr (stdout diff))).
Proof.
  intros Hfiles Hcode Hstat Hdiff Hcommits.
  unfold Actions.analyze_file_changes, checked.
  cbn [catch bind ret raise Monad_either Exception_either].
  rewrite Hfiles, Hcode. cbn [Z.eqb]. rewrite Hstat, Hdiff.
  unfold Actions.limit_lines.
  assert (Hlen : list_len (split NL (stdout diff))
                 = 1 + Z.of_nat (count_char NL (stdout diff))).
  { unfold list_len. rewrite length_split. lia. }
  rewrite Hlen.
  destruct (Z.gtb_spec (1 + Z.of_nat (count_char NL (stdout diff))) max_diff_lines)
    as [Hgt|Hle]; rewrite Hcommits;
    eexists; (split; [reflexivity|]); repeat split; try reflexivity.
  intros H. lia.
Qed.

(** A diff of 300 lines, each ended by a newline, counts 301 lines. *)
Lemma actions_analyze_line_count_witness :
  exists d, Actions.analyze_file_changes Sample.big_diff_world "main" true 300 = inr (JDict d)
    /\ dict_get "total_diff_lines" d = Some (JInt 301)
    /\ dict_get "truncated" d = Some (JBool true).
Proof.
  destruct (actions_analyze_line_count Sample.big_diff_world "main" 300
              (mkCompleted 0 Sample.two_files "") (mkCompleted 0 "" "")
              (mkCompleted 0 Sample.diff_30000 "") (mkCompleted 0 "" "")
              eq_refl eq_refl eq_refl eq_refl eq_refl)
    as (d & Hd & Htotal & Htruncated & _).
  exists d. split; [exact Hd|]. split; [exact Htotal|exact Htruncated].
Defined.

End ActionsAnalyzeMore.

(** ** The templates of the server with GitHub Actions tools *)

Section ActionsTemplatesMore.

Import Py.

Lemma actions_load_templates_returns_iff (w : World) (items : dict string) :
  (exists ts, Actions.load_templates w items = inr ts)
  <-> (forall f, In f (keys items) ->
                 exists content, read_text w (Path.join (TEMPLATES_DIR w) f) = inr content).
Proof.
  split.
  - induction items as [|[f t] items IH]; simpl.
    + intros _ g [].
    + destruct (read_text w (Path.join (TEMPLATES_DIR w) f)) as [e|c] eqn:Hread;
        [intros [ts Hts]; discriminate|].
      destruct (Actions.load_templates w items) as [e|ts'];
        [intros [ts Hts]; discriminate|].
      intros _ g [<-|Hg]; [exists c; exact Hread|].
      apply IH; [exists ts'; reflexivity|exact Hg].
  - intros Hread.
    exists (map (Actions.template_entry (content_of w)) items).
    apply actions_load_templates_ok.
    intros f Hf. destruct (Hread f Hf) as [c Hc].
    unfold content_of. rewrite Hc. reflexivity.
Qed.

(** The listing fails with the exception of the first file, in declaration
    order, that cannot be read. *)
Lemma actions_load_templates_first_failure (w : World) (e : exn)
      (before after : dict string) (f t : string) :
  (forall g, In g (keys before) ->
             exists content, read_text w (Path.join (TEMPLATES_DIR w) g) = inr content) ->
  read_text w (Path.join (TEMPLATES_DIR w) f) = inl e ->
  Actions.load_templates w (before ++ (f, t) :: after)%list = inl e.
Proof.
  induction before as [|[g u] before IH]; intros Hbefore Hread; simpl.
  - rewrite Hread. reflexivity.
  - destruct (Hbefore g) as [c Hc]; [left; reflexivity|].
    rewrite Hc, IH; [reflexivity| |exact Hread].
    intros h Hh. apply Hbefore. right. exact Hh.
Qed.

(** X20. [get_pr_templates] of the server with GitHub Actions tools is all or
    nothing: it returns exactly when each of the seven default templates
    can be read, and otherwise raises the exception of the first one, in
    the declaration order of [DEFAULT_TEMPLATES], that cannot. *)
Theorem actions_listing_all_or_nothing (w : World) :
  ((exists v, Actions.get_pr_templates w = inr v)
   <-> (forall f, In f (keys Actions.DEFAULT_TEMPLATES) ->
                  exists content,
                    read_text w (Path.join (TEMPLATES_DIR w) f) = inr content))
  /\ (forall e before after f t,
        Actions.DEFAULT_TEMPLATES = (before ++ (f, t) :: after)%list ->
        (forall g, In g (keys before) ->
                   exists content,
                     read_text w (Path.join (TEMPLATES_DIR w) g) = inr content) ->
        read_text w (Path.join (TEMPLATES_DIR w) f) = inl e ->
        Actions.get_pr_templates w = inl e).
Proof.
  unfold Actions.get_pr_templates. cbn [bind ret Monad_either]. split.
  - rewrite <- actions_load_templates_returns_iff.
    destruct (Actions.load_templates w Actions.DEFAULT_TEMPLATES) as [e|ts].
    + split; intros [v Hv]; discriminate.
    + split; intros _; eexists; reflexivity.
  - intros e before after f t Hsplit Hbefore Hread.
    rewrite Hsplit.
    rewrite (actions_load_templates_first_failure w e before after f t Hbefore Hread).
    reflexivity.
Qed.

(** Only [bug.md] can be read: the listing raises on [feature.md]. *)
Lemma actions_listing_all_or_nothing_witness :
  Actions.get_pr_templates Sample.stale_listing_world
  = inl (Sample.no_such_file "/srv/templates/feature.md").
Proof.
  destruct (actions_listing_all_or_nothing Sample.stale_listing_world) as [_ Hfirst].
  apply (Hfirst _ [("bug.md", "Bug Fix")] (skipn 2 Actions.DEFAULT_TEMPLATES)
           "feature.md" "Feature").
  - reflexivity.
  - intros g [<-|[]]. exists "# /srv/templates/bug.md". reflexivity.
  - reflexivity.
Defined.

Lemma actions_resolve_in_defaults (change_type : string) :
  In (Actions.resolve change_type) (keys Actions.DEFAULT_TEMPLATES).
Proof.
  unfold Actions.resolve.
  destruct (dict_get (lower change_type) Actions.TYPE_MAPPING) as [f|] eqn:Hget.
  - apply dict_get_in in Hget. unfold Actions.TYPE_MAPPING in Hget. simpl in Hget.
    repeat (destruct Hget as [Hget|Hget];
            [injection Hget as _ <-; simpl; tauto|]).
    contradiction.
  - simpl. tauto.
Qed.

(** X21. The lookup of the server with GitHub Actions tools ignores letter
    case, and every change type resolves to a file of [DEFAULT_TEMPLATES]:
    a template that [get_pr_templates] lists. *)
Theorem actions_resolve_range (change_type : string) :
  Actions.resolve (lower change_type) = Actions.resolve change_type
  /\ In (Actions.resolve change_type) (keys Actions.DEFAULT_TEMPLATES).
Proof.
  split; [|apply actions_resolve_in_defaults].
  unfold Actions.resolve. rewrite lower_idempotent. reflexivity.
Qed.

(** X22. [suggest_template] of the server with GitHub Actions tools needs
    every default template, not only the one it recommends: it returns
    exactly when all seven can be read.  Then, for every change type, the
    recommended entry is the one of the resolved file with the content of
    that file, so the first-template default of line 161 is never taken. *)
Theorem actions_suggest_needs_every_template (w : World)
        (changes_summary change_type : string) :
  ((exists r, Actions.suggest_template w changes_summary change_type = inr r)
   <-> (forall f, In f (keys Actions.DEFAULT_TEMPLATES) ->
                  exists content,
                    read_text w (Path.join (TEMPLATES_DIR w) f) = inr content))
  /\ (forall r,
        Actions.suggest_template w changes_summary change_type = inr r ->
        recommended_file r = Actions.resolve change_type
        /\ field "template_content" r
           = Some (JStr (content_of w (Actions.resolve change_type)))
        /\ field "recommended_template" r
           = Some (JDict [("filename", JStr (Actions.resolve change_type));
                          ("type", JStr (match dict_get (Actions.resolve change_type)
                                                        Actions.DEFAULT_TEMPLATES with
                                         | Some t => t
                                         | None => ""
                                         end));
                          ("content",
                            JStr (content_of w (Actions.resolve change_type)))])).
Proof.
  assert (Hfound :
    (forall f, In f (keys Actions.DEFAULT_TEMPLATES) ->
               exists content,
                 read_text w (Path.join (TEMPLATES_DIR w) f) = inr content) ->
    exists r, Actions.suggest_template w changes_summary change_type = inr r
      /\ recommended_file r = Actions.resolve change_type
      /\ field "template_content" r
         = Some (JStr (content_of w (Actions.resolve change_type)))
      /\ field "recommended_template" r
         = Some (JDict [("filename", JStr (Actions.resolve change_type));
                        ("type", JStr (match dict_get (Actions.resolve change_type)
                                                      Actions.DEFAULT_TEMPLATES with
                                       | Some t => t
                                       | None => ""
                                       end));
                        ("content",
                          JStr (content_of w (Actions.resolve change_type)))])).
  { intros Hread.
    assert (Hcontent : forall f, In f (keys Actions.DEFAULT_TEMPLATES) ->
              read_text w (Path.join (TEMPLATES_DIR w) f) = inr (content_of w f)).
    { intros f Hf. destruct (Hread f Hf) as [c Hc].
      unfold content_of. rewrite Hc. reflexivity. }
    pose proof (actions_resolve_in_defaults change_type) as Hin.
    unfold Actions.suggest_template, Actions.get_pr_templates.
    rewrite (actions_load_templates_ok w (content_of w) _ Hcontent).
    cbn [bind ret Monad_either].
    simpl in Hin.
    repeat (destruct Hin as [Hin|Hin];
            [rewrite <- Hin; eexists; split; [reflexivity|];
             repeat split; reflexivity|]).
    contradiction. }
  split.
  - split.
    + intros [r Hr].
      apply (proj1 (actions_load_templates_returns_iff w Actions.DEFAULT_TEMPLATES)).
      unfold Actions.suggest_template, Actions.get_pr_templates in Hr.
      cbn [bind ret Monad_either] in Hr.
      destruct (Actions.load_templates w Actions.DEFAULT_TEMPLATES) as [e|ts];
        [discriminate|]. exists ts. reflexivity.
    + intros Hread. destruct (Hfound Hread) as (r & Hr & _). exists r. exact Hr.
  - intros r Hr.
    assert (Hread : forall f, In f (keys Actions.DEFAULT_TEMPLATES) ->
              exists content,
                read_text w (Path.join (TEMPLATES_DIR w) f) = inr content).
    { apply (proj1 (actions_load_templates_returns_iff w Actions.DEFAULT_TEMPLATES)).
      unfold Actions.suggest_template, Actions.get_pr_templates in Hr.
      cbn [bind ret Monad_either] in Hr.
      destruct (Actions.load_templates w Actions.DEFAULT_TEMPLATES) as [e|ts];
        [discriminate|]. exists ts. reflexivity. }
    destruct (Hfound Hread) as (r' & Hr' & Hfile & Hcontent & Hentry).
    rewrite Hr in Hr'. injection Hr' as <-. auto.
Qed.

Lemma actions_suggest_needs_every_template_witness :
  exists r, Actions.suggest_template Sample.clean_world "Cleaned the parser" "CleanUp" = inr r
    /\ recommended_file r = "refactor.md"
    /\ field "template_content" r = Some (JStr "# /srv/templates/refactor.md")
    /\ field "recommended_template" r
       = Some (JDict [("filename", JStr "refactor.md");
                      ("type", JStr "Refactor");
                      ("content", JStr "# /srv/templates/refactor.md")]).
Proof.
  destruct (actions_suggest_needs_every_template Sample.clean_world
              "Cleaned the parser" "CleanUp") as [_ Hfields].
  eexists. split; [reflexivity|].
  apply (Hfields _ eq_refl).
Defined.

End ActionsTemplatesMore.

(** ** More on the recent events *)

Section RecentEventsMore.

Import Py.

(** X23. When the events file is missing the result is an empty [events] list
    with a [message] and no [error]; a file that is not valid JSON gives the
    [error] "Invalid JSON in events file", any other exception of the read
    gives "Error reading events", each followed by the message of the
    exception.  The limit plays no part. *)
Theorem actions_events_unavailable (w : World) (limit : Z) :
  (path_exists w (EVENTS_FILE w) = false ->
   Actions.get_recent_actions_events w limit
   = inr (JDict [("events", JList []); ("message", JStr "No events file found")]))
  /\ (forall e,
        path_exists w (EVENTS_FILE w) = true ->
        json_load w (EVENTS_FILE w) = inl e ->
        exn_cls e = JSONDecodeError ->
        Actions.get_recent_actions_events w limit
        = inr (JDict [("error", JStr ("Invalid JSON in events file: " ++ exn_msg e))]))
  /\ (forall e,
        path_exists w (EVENTS_FILE w) = true ->
        json_load w (EVENTS_FILE w) = inl e ->
        exn_cls e <> JSONDecodeError ->
        Actions.get_recent_actions_events w limit
        = inr (JDict [("error", JStr ("Error reading events: " ++ exn_msg e))])).
Proof.
  unfold Actions.get_recent_actions_events.
  cbn [catch bind ret Monad_either Exception_either].
  split; [|split].
  - intros Hmissing. rewrite Hmissing. reflexivity.
  - intros e Hexists Hload Hcls. rewrite Hexists, Hload. cbn [negb].
    rewrite Hcls. reflexivity.
  - intros e Hexists Hload Hcls. rewrite Hexists, Hload. cbn [negb].
    destruct (exn_cls e); try reflexivity. contradiction.
Qed.

Lemma actions_events_unavailable_witness :
  Actions.get_recent_actions_events Sample.no_events_world 10
  = inr (JDict [("events", JList []); ("message", JStr "No events file found")])
  /\ Actions.get_recent_actions_events Sample.stale_listing_world 10
     = inr (JDict [("error", JStr "Invalid JSON in events file: Expecting value: line 1 column 1 (char 0)")])
  /\ Actions.get_recent_actions_events Sample.unlistable_world 10
     = inr (JDict [("error", JStr "Error reading events: [Errno 13] Permission denied: '/srv/github_events.json'")]).
Proof.
  split; [|split].
  - destruct (actions_events_unavailable Sample.no_events_world 10) as (H & _).
    apply H. reflexivity.
  - destruct (actions_events_unavailable Sample.stale_listing_world 10) as (_ & H & _).
    apply (H (mkExn JSONDecodeError "Expecting value: line 1 column 1 (char 0)" ""));
      reflexivity.
  - destruct (actions_events_unavailable Sample.unlistable_world 10) as (_ & _ & H).
    apply (H (mkExn OtherException
                "[Errno 13] Permission denied: '/srv/github_events.json'" ""));
      [reflexivity|reflexivity|discriminate].
Defined.

(** X24. For every limit, negative ones included, the events shown are a
    prefix of the stored list, [showing] is their number and [total_events]
    the number stored.  A limit that is not negative shows the first
    [min(limit, n)] events; a negative limit leaves out the last [-limit]
    events and shows the first [max(0, n + limit)]. *)
Theorem actions_events_prefix (w : World) (limit : Z) (l : list json) :
  path_exists w (EVENTS_FILE w) = true ->
  json_load w (EVENTS_FILE w) = inr (JList l) ->
  exists k, (k <= List.length l)%nat
    /\ Actions.get_recent_actions_events w limit
       = inr (JDict [("events", JList (firstn k l));
                     ("total_events", JInt (list_len l));
                     ("showing", JInt (Z.of_nat k))])
    /\ (0 <= limit -> Z.of_nat k = Z.min limit (list_len l))
    /\ (limit < 0 -> Z.of_nat k = Z.max 0 (list_len l + limit)).
Proof.
  intros Hexists Hload.
  unfold Actions.get_recent_actions_events.
  cbn [catch bind ret Monad_either Exception_either].
  rewrite Hexists, Hload. cbn [negb].
  destruct (Z.ltb_spec limit 0) as [Hneg|Hpos].
  - rewrite slice_to_negative by exact Hneg.
    exists (Nat.min (Z.to_nat (Z.max 0 (list_len l + limit))) (List.length l)).
    split; [lia|]. rewrite <- firstn_min.
    split; [|split; [lia|intros _; unfold list_len; lia]].
    rewrite list_len_firstn. unfold list_len. repeat f_equal. lia.
  - rewrite slice_to_nonneg by exact Hpos.
    exists (Z.to_nat (Z.min limit (list_len l))).
    split; [unfold list_len; lia|].
    split; [|split; [intros _; unfold list_len; lia|lia]].
    rewrite list_len_firstn. unfold list_len. repeat f_equal. lia.
Qed.

Lemma actions_events_prefix_witness :
  exists k, (k <= 3)%nat
    /\ Actions.get_recent_actions_events Sample.big_diff_world (-1)
       = inr (JDict [("events", JList (firstn k [JInt 1; JInt 2; JInt 3]));
                     ("total_events", JInt 3);
                     ("showing", JInt (Z.of_nat k))])
    /\ Z.of_nat k = 2.
Proof.
  destruct (actions_events_prefix Sample.big_diff_world (-1)
              [JInt 1; JInt 2; JInt 3] eq_refl eq_refl)
    as (k & Hk & Hresult & _ & Hneg).
  exists k. split; [exact Hk|]. split; [exact Hresult|].
  apply Hneg. reflexivity.
Defined.

(** Three stored events and a limit of -1: the last event is left out. *)
Lemma actions_recent_events_negative_limit_witness :
  Actions.get_recent_actions_events Sample.big_diff_world (-1)
  = inr (JDict [("events", JList [JInt 1; JInt 2]);
                ("total_events", JInt 3);
                ("showing", JInt 2)]).
Proof.
  apply (actions_recent_events_negative_limit Sample.big_diff_world (-1)
           [JInt 1; JInt 2; JInt 3]); reflexivity.
Defined.

End RecentEventsMore.


(** ** The workflow status tool *)

Section WorkflowStatus.

Import Py.

Variable float_truthy : string -> bool.
Variable float_same : Workflow.number -> Workflow.number -> bool.
Variable float_gt : Workflow.number -> Workflow.number -> bool.
Variable float_key : string -> string.

Local Abbreviation get_workflow_status :=
  (Workflow.get_workflow_status float_truthy float_same float_gt float_key).
Local Abbreviation run_events :=
  (Workflow.run_events float_truthy float_same float_gt).
Local Abbreviation step := (Workflow.step float_truthy float_same float_gt).

(** X25. When the events file is missing, or holds a JSON value that is not
    a list, [get_workflow_status] returns an empty [workflows] object with
    a [message]; a file that is not valid JSON gives the [error] "Invalid
    JSON in events file", any other exception of the read "Error reading
    workflow status".  The name filter plays no part. *)
Theorem workflow_status_unavailable (w : World) (workflow_name : option string) :
  (path_exists w (EVENTS_FILE w) = false ->
   get_workflow_status w workflow_name
   = inr (JDict [("workflows", JDict []); ("message", JStr "No events file found")]))
  /\ (forall events,
        path_exists w (EVENTS_FILE w) = true ->
        json_load w (EVENTS_FILE w) = inr events ->
        (forall l, events <> JList l) ->
        get_workflow_status w workflow_name
        = inr (JDict [("workflows", JDict []);
                      ("message", JStr "Invalid events format")]))
  /\ (forall e,
        path_exists w (EVENTS_FILE w) = true ->
        json_load w (EVENTS_FILE w) = inl e ->
        exn_cls e = JSONDecodeError ->
        get_workflow_status w workflow_name
        = inr (JDict [("error", JStr ("Invalid JSON in events file: " ++ exn_msg e))]))
  /\ (forall e,
        path_exists w (EVENTS_FILE w) = true ->
        json_load w (EVENTS_FILE w) = inl e ->
        exn_cls e <> JSONDecodeError ->
        get_workflow_status w workflow_name
        = inr (JDict [("error",
                        JStr ("Error reading workflow status: " ++ exn_msg e))])).
Proof.
  unfold Workflow.get_workflow_status.
  cbn [catch bind ret Monad_either Exception_either].
  split; [|split; [|split]].
  - intros Hmissing. rewrite Hmissing. reflexivity.
  - intros events Hexists Hload Hnot. rewrite Hexists, Hload. cbn [negb].
    destruct events; try reflexivity. exfalso. apply (Hnot l). reflexivity.
  - intros e Hexists Hload Hcls. rewrite Hexists, Hload. cbn [negb].
    rewrite Hcls. reflexivity.
  - intros e Hexists Hload Hcls. rewrite Hexists, Hload. cbn [negb].
    destruct (exn_cls e); try reflexivity. contradiction.
Qed.

(** X26. [get_workflow_status] never raises.  Its result is an object with
    an [error] only, or with an empty [workflows] and a [message], or with
    [workflows], [total_workflows] and [filtered_by], where
    [total_workflows] is the number of entries of [workflows] and
    [filtered_by] is the name asked for, or "all workflows" when the name
    is absent or empty. *)
Theorem workflow_status_result_shape (w : World) (workflow_name : option string) :
  (exists msg, get_workflow_status w workflow_name = inr (JDict [("error", JStr msg)]))
  \/ (exists msg, get_workflow_status w workflow_name
                  = inr (JDict [("workflows", JDict []); ("message", JStr msg)]))
  \/ (exists entries,
        get_workflow_status w workflow_name
        = inr (JDict [("workflows", JDict entries);
                      ("total_workflows", JInt (list_len entries));
                      ("filtered_by",
                        JStr (match workflow_name with
                              | Some (String c rest) => String c rest
                              | _ => "all workflows"
                              end))])).
Proof.
  unfold Workflow.get_workflow_status.
  cbn [catch bind ret Monad_either Exception_either].
  destruct (path_exists w (EVENTS_FILE w)); cbn [negb];
    [|right; left; eexists; reflexivity].
  destruct (json_load w (EVENTS_FILE w)) as [e|events].
  { left. destruct (exn_cls e); eexists; reflexivity. }
  destruct events; try (right; left; eexists; reflexivity).
  cbv zeta.
  destruct (run_events workflow_name (filter Workflow.is_workflow_run l) [])
    as [e|workflows].
  { left. destruct (exn_cls e); eexists; reflexivity. }
  right. right.
  exists (map (fun item => (Workflow.key_text float_key (fst item), JDict (snd item)))
              workflows).
  unfold list_len. rewrite length_map.
  destruct workflow_name as [[|c rest]|]; reflexivity.
Qed.

Lemma run_events_app (workflow_name : option string) (a b : list json) :
  forall workflows,
    run_events workflow_name (a ++ b)%list workflows
    = match run_events workflow_name a workflows with
      | inr workflows' => run_events workflow_name b workflows'
      | inl e => inl e
      end.
Proof.
  induction a as [|event a IH]; intros workflows; simpl.
  - reflexivity.
  - destruct (step workflow_name workflows event) as [e|workflows'];
      [reflexivity|]. apply IH.
Qed.

(** X27. One workflow_run event whose [payload] is present and is not an
    object fails the whole request: if the events before it are processed
    without exception, the result is the [error] of calling [get] on that
    payload, whatever the events after it and whatever the name filter. *)
Theorem workflow_status_bad_payload (w : World) (workflow_name : option string)
        (before after : list json) (fields : dict json) (payload : json)
        (workflows : Workflow.table) :
  path_exists w (EVENTS_FILE w) = true ->
  json_load w (EVENTS_FILE w) = inr (JList (before ++ JDict fields :: after)) ->
  run_events workflow_name (filter Workflow.is_workflow_run before) [] = inr workflows ->
  Workflow.is_workflow_run (JDict fields) = true ->
  dict_get "payload" fields = Some payload ->
  (forall d, payload <> JDict d) ->
  get_workflow_status w workflow_name
  = inr (JDict [("error",
                  JStr ("Error reading workflow status: "
                          ++ (("'" ++ Workflow.type_name payload)
                                ++ "' object has no attribute 'get'")))]).
Proof.
  intros Hexists Hload Hbefore Hrun Hpayload Hnot.
  unfold Workflow.get_workflow_status.
  cbn [catch bind ret Monad_either Exception_either].
  rewrite Hexists, Hload. cbn [negb]. cbv zeta.
  rewrite filter_app. cbn [filter]. rewrite Hrun.
  rewrite run_events_app, Hbefore.
  cbn [Workflow.run_events bind Monad_either].
  unfold Workflow.step at 1. cbn [Workflow.get bind ret Monad_either].
  unfold Workflow.get_or. rewrite Hpayload.
  destruct payload; try reflexivity.
  exfalso. apply (Hnot d). reflexivity.
Qed.

Lemma lookup_as_table (name : string) (kept : dict json) :
  Workflow.lookup float_same (JStr name) (as_table kept)
  = option_map summary_of (dict_get name kept).
Proof.
  induction kept as [|[k ev] kept IH]; simpl; [reflexivity|].
  destruct (String.eqb k name); [reflexivity|exact IH].
Qed.

Lemma store_as_table (name : string) (event : json) (kept : dict json) :
  Workflow.store float_same (JStr name) (summary_of event) (as_table kept)
  = as_table (dict_set name event kept).
Proof.
  induction kept as [|[k ev] kept IH]; simpl; [reflexivity|].
  destruct (String.eqb k name); simpl; [reflexivity|].
  f_equal. exact IH.
Qed.

Lemma get_or_some (k : string) (default : json) (d : dict json) (v : json) :
  dict_get k d = Some v -> Workflow.get_or k default d = v.
Proof. intros H. unfold Workflow.get_or. rewrite H. reflexivity. Qed.

(** One turn of the loop on an event in the shape GitHub sends. *)
Lemma step_well_formed (workflow_name : option string) (kept : dict json)
      (event : json) :
  well_formed event ->
  step workflow_name (as_table kept) event
  = inr (as_table (latest_step workflow_name kept event)).
Proof.
  intros (data & name & time & Hdata & Hname & Htime).
  assert (Hn : name_of event = name)

    by (unfold name_of; rewrite Hdata; unfold str_field; cbn [field];
        rewrite Hname; reflexivity).
  assert (Ht : time_of event = time)
    by (unfold time_of; rewrite Hdata; unfold str_field; cbn [field];
        rewrite Htime; reflexivity).
  assert (Hs : summary_of event = Workflow.summary (JStr name) (JStr time) data)
    by (unfold summary_of; rewrite Hn, Ht, Hdata; reflexivity).
  unfold latest_step, selected. rewrite Hn, Ht.
  unfold run_data, field in Hdata.
  destruct event as [| | | | | |d]; try discriminate.
  destruct (dict_get "payload" d) as [[| | | | | |payload]|] eqn:Hpayload;
    try discriminate.
  destruct (dict_get "workflow_run" payload) as [[| | | | | |data']|] eqn:Hrun;
    try discriminate.
  injection Hdata as ->.
  unfold Workflow.step.
  cbn [Workflow.get bind ret Monad_either].
  rewrite (get_or_some "payload" (JDict []) d _ Hpayload).
  cbn [Workflow.get bind ret Monad_either].
  rewrite (get_or_some "workflow_run" (JDict []) payload _ Hrun).
  assert (Htruthy : Workflow.truthy float_truthy (JDict data) = true).
  { simpl. destruct data; [discriminate Hname|reflexivity]. }
  rewrite Htruthy. cbn [negb Workflow.get bind ret Monad_either].
  rewrite (get_or_some "name" (JStr "Unknown") data _ Hname).
  cbn [Workflow.differs_from].
  destruct (Workflow.filter_set workflow_name
            && negb (String.eqb name
                       (match workflow_name with Some s0 => s0 | None => "" end)))%bool;
    cbn [negb]; [reflexivity|].
  rewrite (get_or_some "updated_at" _ data _ Htime).
  cbn [Workflow.hashable negb].
  rewrite lookup_as_table.
  destruct (dict_get name kept) as [previous|] eqn:Hprev; cbn [option_map].
  - assert (Hup : Workflow.get_or "updated_at" (JStr "") (summary_of previous)
                  = JStr (time_of previous)) by reflexivity.
    rewrite Hup. cbn [Workflow.greater ret Monad_either].
    destruct (String.ltb (time_of previous) time); [|reflexivity].
    rewrite <- Hs, store_as_table. reflexivity.
  - rewrite <- Hs, store_as_table. reflexivity.
Qed.

Lemma run_events_well_formed (workflow_name : option string) (events : list json) :
  Forall well_formed events ->
  forall kept,
    run_events workflow_name events (as_table kept)
    = inr (as_table (fold_left (latest_step workflow_name) events kept)).
Proof.
  induction 1 as [|event events Hwf _ IH]; intros kept; simpl.
  - reflexivity.
  - rewrite (step_well_formed workflow_name kept event Hwf). apply IH.
Qed.

Lemma keys_dict_set {V} (k k' : string) (v : V) (d : dict V) :
  In k' (keys (dict_set k v d)) <-> k' = k \/ In k' (keys d).
Proof.
  unfold keys. induction d as [|[k0 v0] d IH]; simpl.
  - intuition.
  - destruct (String.eqb_spec k0 k) as [->|Hne]; simpl.
    + intuition.
    + rewrite IH. intuition.
Qed.

Lemma nodup_dict_set {V} (k : string) (v : V) (d : dict V) :
  NoDup (keys d) -> NoDup (keys (dict_set k v d)).
Proof.
  unfold keys. induction d as [|[k0 v0] d IH]; simpl; intros Hnd.
  - repeat constructor. intros [].
  - inversion Hnd as [|? ? Hnotin Hrest]; subst.
    destruct (String.eqb_spec k0 k) as [->|Hne]; simpl.
    + constructor; assumption.
    + constructor; [|apply IH; exact Hrest].
      intros Hin. apply (keys_dict_set k k0 v d) in Hin.
      destruct Hin as [->|Hin]; [apply Hne; reflexivity|contradiction].
Qed.

Lemma dict_get_set (k k' : string) {V} (v : V) (d : dict V) :
  dict_get k' (dict_set k v d)
  = if String.eqb k' k then Some v else dict_get k' d.
Proof.
  destruct (String.eqb_spec k' k) as [->|Hne].
  - apply dict_get_set_same.
  - apply dict_get_set_other. exact Hne.
Qed.

Lemma string_leb_refl (s : string) : String.leb s s = true.
Proof.
  unfold String.leb. pose proof (String.compare_antisym s s) as H.
  destruct (String.compare s s); try reflexivity. discriminate H.
Qed.

(** Putting a selected event in the table at its name, when it is at least
    as late as every selected event of that name seen so far. *)
Lemma keeps_latest_set (workflow_name : option string) (seen : list json)
      (kept : dict json) (event : json) :
  keeps_latest workflow_name seen kept ->
  selected workflow_name event = true ->
  (forall other, In other seen -> selected workflow_name other = true ->
                 name_of other = name_of event ->
                 String.leb (time_of other) (time_of event) = true) ->
  keeps_latest workflow_name (seen ++ [event])%list
               (dict_set (name_of event) event kept).
Proof.
  intros (Hnd & Hkept & Hall) Hsel Hlate. split; [|split].
  - apply nodup_dict_set. exact Hnd.
  - intros name ev. rewrite dict_get_set.
    destruct (String.eqb_spec name (name_of event)) as [->|Hne].
    + intros [= <-]. split; [apply in_or_app; right; left; reflexivity|].
      split; [exact Hsel|]. split; [reflexivity|].
      intros other Hin Hsel' Hname. apply in_app_or in Hin.
      destruct Hin as [Hin|[<-|[]]]; [apply Hlate; assumption|apply string_leb_refl].
    + intros Hget. destruct (Hkept name ev Hget) as (Hin & Hs & Hn & Hmax).
      split; [apply in_or_app; left; exact Hin|].
      split; [exact Hs|]. split; [exact Hn|].
      intros other Hin' Hsel' Hname. apply in_app_or in Hin'.
      destruct Hin' as [Hin'|[<-|[]]]; [apply Hmax; assumption|].
      exfalso. apply Hne. symmetry. exact Hname.
  - intros ev Hin Hsel'. rewrite dict_get_set.
    destruct (String.eqb (name_of ev) (name_of event)) eqn:E; [discriminate|].
    apply in_app_or in Hin. destruct Hin as [Hin|[<-|[]]].
    + apply Hall; assumption.
    + rewrite String.eqb_refl in E. discriminate E.
Qed.

(** Leaving the table as it is. *)
Lemma keeps_latest_skip (workflow_name : option string) (seen : list json)
      (kept : dict json) (event : json) :
  keeps_latest workflow_name seen kept ->
  (selected workflow_name event = true ->
   exists previous,
     dict_get (name_of event) kept = Some previous
     /\ String.leb (time_of event) (time_of previous) = true) ->
  keeps_latest workflow_name (seen ++ [event])%list kept.
Proof.
  intros (Hnd & Hkept & Hall) Hskip. split; [exact Hnd|split].
  - intros name ev Hget. destruct (Hkept name ev Hget) as (Hin & Hs & Hn & Hmax).
    split; [apply in_or_app; left; exact Hin|].
    split; [exact Hs|]. split; [exact Hn|].
    intros other Hin' Hsel' Hname. apply in_app_or in Hin'.
    destruct Hin' as [Hin'|[<-|[]]]; [apply Hmax; assumption|].
    destruct (Hskip Hsel') as (previous & Hprev & Hle).
    rewrite Hname, Hget in Hprev. injection Hprev as <-. exact Hle.
  - intros ev Hin Hsel'. apply in_app_or in Hin.
    destruct Hin as [Hin|[<-|[]]]; [apply Hall; assumption|].
    destruct (Hskip Hsel') as (previous & Hprev & _). rewrite Hprev. discriminate.
Qed.

Lemma latest_step_keeps (workflow_name : option string) (seen : list json)
      (kept : dict json) (event : json) :
  keeps_latest workflow_name seen kept ->
  keeps_latest workflow_name (seen ++ [event])%list
               (latest_step workflow_name kept event).
Proof.
  intros Hinv. unfold latest_step.
  destruct (selected workflow_name event) eqn:Hsel.
  - destruct (dict_get (name_of event) kept) as [previous|] eqn:Hprev.
    + pose proof Hinv as (Hnd & Hkept & Hall).
      destruct (Hkept _ _ Hprev) as (_ & _ & _ & Hmax).
      destruct (String.ltb (time_of previous) (time_of event)) eqn:Hlt.
      * apply keeps_latest_set; [exact Hinv|exact Hsel|].
        intros other Hin Hsel' Hname.
        apply (string_leb_trans _ (time_of previous)).
        -- apply Hmax; assumption.
        -- apply string_ltb_leb. exact Hlt.
      * apply keeps_latest_skip; [exact Hinv|].
        intros _. exists previous. split; [exact Hprev|].
        apply string_ltb_false_leb. exact Hlt.
    + apply keeps_latest_set; [exact Hinv|exact Hsel|].
      intros other Hin Hsel' Hname. destruct Hinv as (_ & _ & Hall).
      exfalso. apply (Hall other Hin Hsel'). rewrite Hname. exact Hprev.
  - apply keeps_latest_skip; [exact Hinv|].
    intros H. rewrite Hsel in H. discriminate H.
Qed.

Lemma fold_latest_keeps (workflow_name : option string) (events : list json) :
  forall seen kept,
    keeps_latest workflow_name seen kept ->
    keeps_latest workflow_name (seen ++ events)%list
                 (fold_left (latest_step workflow_name) events kept).
Proof.
  induction events as [|event events IH]; intros seen kept Hinv; simpl.
  - rewrite app_nil_r. exact Hinv.
  - change (event :: events) with ([event] ++ events)%list.
    rewrite app_assoc. apply IH. apply latest_step_keeps. exact Hinv.
Qed.

(** X28. On an events file whose workflow_run events have the shape GitHub
    sends, [get_workflow_status] reports each workflow name once, and for
    each name the run with the latest [updated_at] (strings compared as
    Python does) among the workflow_run events of that name that pass the
    name filter; every such event has its name reported, and events of
    other types are ignored. *)
Theorem workflow_status_latest_run (w : World) (workflow_name : option string)
        (l : list json) :
  path_exists w (EVENTS_FILE w) = true ->
  json_load w (EVENTS_FILE w) = inr (JList l) ->
  (forall event, In event l -> Workflow.is_workflow_run event = true ->
                 well_formed event) ->
  exists kept,
    get_workflow_status w workflow_name
    = inr (JDict [("workflows",
                    JDict (map (fun item => (fst item, JDict (summary_of (snd item))))
                               kept));
                  ("total_workflows", JInt (list_len kept));
                  ("filtered_by",
                    JStr (if Workflow.filter_set workflow_name
                          then match workflow_name with Some s => s | None => "" end
                          else "all workflows"))])
    /\ keeps_latest workflow_name (filter Workflow.is_workflow_run l) kept.
Proof.
  intros Hexists Hload Hwf.
  unfold Workflow.get_workflow_status.
  cbn [catch bind ret Monad_either Exception_either].
  rewrite Hexists, Hload. cbn [negb]. cbv zeta.
  assert (Hall : Forall well_formed (filter Workflow.is_workflow_run l)).
  { apply Forall_forall. intros event Hin. apply filter_In in Hin.
    destruct Hin as [Hin Hrun]. apply Hwf; assumption. }
  change (@nil (json * dict json)) with (as_table []).
  rewrite (run_events_well_formed workflow_name _ Hall []).
  exists (fold_left (latest_step workflow_name) (filter Workflow.is_workflow_run l) []).
  split.
  - unfold as_table, list_len. rewrite map_map, length_map. reflexivity.
  - apply (fold_latest_keeps workflow_name _ [] []).
    split; [constructor|]. split.
    + intros name event H. discriminate H.
    + intros event [].
Qed.

End WorkflowStatus.

(** ** The workflow status tool on sample event files *)

Section WorkflowStatusSamples.

Import Py.

Lemma workflow_status_unavailable_witness :
  Sample.workflow_status Sample.no_events_world None
  = inr (JDict [("workflows", JDict []); ("message", JStr "No events file found")])
  /\ Sample.workflow_status Sample.odd_events_world (Some "CI")
     = inr (JDict [("workflows", JDict []); ("message", JStr "Invalid events format")])
  /\ Sample.workflow_status Sample.stale_listing_world None
     = inr (JDict [("error", JStr "Invalid JSON in events file: Expecting value: line 1 column 1 (char 0)")])
  /\ Sample.workflow_status Sample.unlistable_world None
     = inr (JDict [("error", JStr "Error reading workflow status: [Errno 13] Permission denied: '/srv/github_events.json'")]).
Proof.
  unfold Sample.workflow_status. split; [|split; [|split]].
  - destruct (workflow_status_unavailable Sample.no_float_truthy Sample.no_float_same
                Sample.no_float_gt Sample.no_float_key Sample.no_events_world None)
      as (H & _).
    apply H. reflexivity.
  - destruct (workflow_status_unavailable Sample.no_float_truthy Sample.no_float_same
                Sample.no_float_gt Sample.no_float_key Sample.odd_events_world (Some "CI"))
      as (_ & H & _).
    apply (H (JDict [("events", JList [])])); [reflexivity|reflexivity|].
    intros l. discriminate.
  - destruct (workflow_status_unavailable Sample.no_float_truthy Sample.no_float_same
                Sample.no_float_gt Sample.no_float_key Sample.stale_listing_world None)
      as (_ & _ & H & _).
    apply (H (mkExn JSONDecodeError "Expecting value: line 1 column 1 (char 0)" ""));
      reflexivity.
  - destruct (workflow_status_unavailable Sample.no_float_truthy Sample.no_float_same
                Sample.no_float_gt Sample.no_float_key Sample.unlistable_world None)
      as (_ & _ & _ & H).
    apply (H (mkExn OtherException
                "[Errno 13] Permission denied: '/srv/github_events.json'" ""));
      [reflexivity|reflexivity|discriminate].
Defined.

(** The second event has a list as payload; the filter asks for another
    workflow. *)
Lemma workflow_status_bad_payload_witness :
  Sample.workflow_status Sample.broken_payload_world (Some "Deploy")
  = inr (JDict [("error", JStr "Error reading workflow status: 'list' object has no attribute 'get'")]).
Proof.
  unfold Sample.workflow_status.
  apply (workflow_status_bad_payload Sample.no_float_truthy Sample.no_float_same
           Sample.no_float_gt Sample.no_float_key Sample.broken_payload_world
           (Some "Deploy")
           [Sample.run_event "CI" "completed" "success" "2024-05-01T10:00:00Z"] []
           [("type", JStr "workflow_run"); ("payload", JList [])] (JList []) []);
    try reflexivity.
  intros d. discriminate.
Defined.

(** Two runs of CI and one of Deploy, among other events: the later run of
    CI is the one reported. *)
Lemma workflow_status_latest_run_witness :
  exists kept,
    Sample.workflow_status Sample.workflow_world None
    = inr (JDict [("workflows",
                    JDict (map (fun item => (fst item, JDict (summary_of (snd item))))
                               kept));
                  ("total_workflows", JInt (list_len kept));
                  ("filtered_by", JStr "all workflows")])
    /\ keeps_latest None (filter Workflow.is_workflow_run Sample.workflow_events) kept
    /\ Sample.workflow_status Sample.workflow_world None
       = inr (JDict [("workflows",
                       JDict [("CI",
                                JDict [("name", JStr "CI");
                                       ("status", JStr "completed");
                                       ("conclusion", JStr "failure");
                                       ("updated_at", JStr "2024-05-02T08:30:00Z");
                                       ("head_branch", JStr "main");
                                       ("html_url", JStr "");
                                       ("run_number", JInt 7)]);
                              ("Deploy",
                                JDict [("name", JStr "Deploy");
                                       ("status", JStr "in_progress");
                                       ("conclusion", JStr "");
                                       ("updated_at", JStr "2024-05-01T09:00:00Z");
                                       ("head_branch", JStr "main");
                                       ("html_url", JStr "");
                                       ("run_number", JInt 7)])]);
                     ("total_workflows", JInt 2);
                     ("filtered_by", JStr "all workflows")]).
Proof.
  unfold Sample.workflow_status.
  destruct (workflow_status_latest_run Sample.no_float_truthy Sample.no_float_same
              Sample.no_float_gt Sample.no_float_key Sample.workflow_world None
              Sample.workflow_events eq_refl eq_refl)
    as (kept & Hresult & Hkept).
  - intros event Hin Hrun. simpl in Hin.
    destruct Hin as [<-|[<-|[<-|[<-|[<-|[]]]]]]; try discriminate Hrun;
      (eexists; eexists; eexists; repeat split; reflexivity).
  - exists kept. split; [exact Hresult|]. split; [exact Hkept|reflexivity].
Defined.

End WorkflowStatusSamples.
